(** * TOBIAS BINDetect: scan-and-score and per-motif statistics

    A shallow embedding of [tobias/footprinting/BINDetect_functions.py]
    ([scan_and_score] and [process_tfbs]) together with the properties of
    the two functions that the design document states.

    Conventions of the embedding.
    - Python [int] is [Z]; Python [str] is [string]; Python lists are lists.
    - numpy [float64] values are modelled by the real numbers [R]: the
      arithmetic is exact and [nan]/[inf] do not exist.  Steps whose float
      result would be [nan] or [inf] (division by zero, logarithm of a
      non-positive number, the fit of an empty sample) lie outside the
      model, and the theorems about such steps carry the side condition
      that excludes them.
    - Exceptions are values of [exn] in the [result] monad.
    - Library functions (Python's [random], [scipy.stats]) and the external
      collaborators (signal tracks, genome, motif scanner, file system) are
      interfaces: records of operations, with the laws their documentation
      states where a proof needs them. *)

From Stdlib Require Import List ZArith Lia Bool Ascii String.
From Stdlib Require Import DecimalString Decimal DecimalPos DecimalZ.
From Stdlib Require Import Permutation Sorted.
From Stdlib Require Import Reals Lra.
Import ListNotations.

Set Implicit Arguments.

Local Open Scope string_scope.
Local Open Scope list_scope.
Local Open Scope Z_scope.

(** ** Python runtime: exceptions, sequences, slices *)

Module Py.

Inductive exn : Type :=
| IndexError
| KeyError
| ValueError
| OSError
| SystemExit.

Inductive result (A : Type) : Type :=
| Ok (a : A)
| Raise (e : exn).

Arguments Ok {A} a.
Arguments Raise {A} e.

Definition bind {A B : Type} (m : result A) (k : A -> result B) : result B :=
  match m with
  | Ok a => k a
  | Raise e => Raise e
  end.

Definition is_ok {A : Type} (m : result A) : bool :=
  match m with Ok _ => true | Raise _ => false end.

(** [len(l)] *)
Definition len {A : Type} (l : list A) : Z := Z.of_nat (List.length l).

(** [range(n)]: empty when [n <= 0]. *)
Definition range (n : Z) : list Z := map Z.of_nat (seq 0 (Z.to_nat n)).

(** [int(a / b)] for integers [a], [b]: true division, then truncation
    towards zero. *)
Definition int_div (a b : Z) : Z := Z.quot a b.

(** A slice bound [i] of a sequence of length [n], as [slice.indices]
    computes it: negative bounds count from the end, and the result is
    clamped to [0..n]. *)
Definition clamp (n i : Z) : Z :=
  if i <? 0 then Z.max (i + n) 0 else Z.min i n.

Definition slice_start (n : Z) (lo : option Z) : Z :=
  match lo with None => 0 | Some i => clamp n i end.

Definition slice_stop (n : Z) (hi : option Z) : Z :=
  match hi with None => n | Some i => clamp n i end.

(** [l[lo:hi]] *)
Definition slice {A : Type} (l : list A) (lo hi : option Z) : list A :=
  let s := slice_start (len l) lo in
  let e := Z.max s (slice_stop (len l) hi) in
  firstn (Z.to_nat (e - s)) (skipn (Z.to_nat s) l).

(** [l[lo:hi] = rhs]: the slice is replaced by [rhs], whatever the
    length of [rhs] is. *)
Definition slice_assign {A : Type} (l : list A) (lo hi : option Z)
           (rhs : list A) : list A :=
  let s := slice_start (len l) lo in
  let e := Z.max s (slice_stop (len l) hi) in
  firstn (Z.to_nat s) l ++ rhs ++ skipn (Z.to_nat e) l.

(** The position an index [i] denotes in a sequence of length [n]. *)
Definition index (n i : Z) : result nat :=
  let j := if i <? 0 then i + n else i in
  if (0 <=? j) && (j <? n) then Ok (Z.to_nat j) else Raise IndexError.

Fixpoint update {A : Type} (l : list A) (k : nat) (v : A) : list A :=
  match l, k with
  | [], _ => []
  | _ :: t, O => v :: t
  | h :: t, S k' => h :: update t k' v
  end.

(** [l[i]] *)
Definition getitem {A : Type} (l : list A) (i : Z) : result A :=
  bind (index (len l) i)
       (fun k => match nth_error l k with
                 | Some a => Ok a
                 | None => Raise IndexError
                 end).

(** [l[i] = v] *)
Definition setitem {A : Type} (l : list A) (i : Z) (v : A) : result (list A) :=
  bind (index (len l) i) (fun k => Ok (update l k v)).

(** [str(n)] for an integer. *)
Definition str (n : Z) : string := NilZero.string_of_int (Z.to_int n).

(** [sep.join(l)] *)
Fixpoint join (sep : string) (l : list string) : string :=
  match l with
  | [] => ""
  | [s] => s
  | s :: t => (s ++ sep ++ join sep t)%string
  end.

(** Dictionaries with string keys, in insertion order. *)
Definition dict (V : Type) : Type := list (string * V).

(** [d[k]] *)
Fixpoint dict_get {V : Type} (d : dict V) (k : string) : result V :=
  match d with
  | [] => Raise KeyError
  | (k', v) :: t => if String.eqb k' k then Ok v else dict_get t k
  end.

(** [d[k] = v]: an existing key keeps its place, a new key goes last. *)
Fixpoint dict_set {V : Type} (d : dict V) (k : string) (v : V) : dict V :=
  match d with
  | [] => [(k, v)]
  | (k', v') :: t =>
      if String.eqb k' k then (k', v) :: t else (k', v') :: dict_set t k v
  end.

(** [{k: v for k in keys}] *)
Definition dict_fromkeys {V : Type} (keys : list string) (v : V) : dict V :=
  fold_left (fun d k => dict_set d k v) keys [].

Definition dict_keys {V : Type} (d : dict V) : list string := map fst d.

(** A [for] loop whose body may raise: the state is threaded through the
    elements in order and the first exception ends the loop. *)
Fixpoint for_each {A S : Type} (l : list A) (body : S -> A -> result S) (s : S)
  : result S :=
  match l with
  | [] => Ok s
  | a :: t => bind (body s a) (for_each t body)
  end.

(** A list comprehension whose element expression may raise. *)
Fixpoint traverse {A B : Type} (f : A -> result B) (l : list A) : result (list B) :=
  match l with
  | [] => Ok []
  | a :: t => bind (f a) (fun b => bind (traverse f t) (fun bs => Ok (b :: bs)))
  end.

End Py.

Notation "x <- m ;; k" := (Py.bind m (fun x => k))
  (at level 61, m at next level, right associativity).

(** ** Column names of the per-motif table ([process_tfbs], "Set header in
    overview") *)

Definition tfbs_columns : list string :=
  ["TFBS_chr"; "TFBS_start"; "TFBS_end"; "TFBS_name"; "TFBS_score"; "TFBS_strand"].

Definition score_columns (cond_names : list string) : list string :=
  map (fun condition => (condition ++ "_score")%string) cond_names.

Definition additional (num : Z) : string :=
  ("additional_" ++ Py.str (num + 1))%string.

(** The header list built for a table of [no_cols] columns.  The last step,
    [bed_table.columns = header], raises [ValueError] when the list does not
    have one name per column. *)
Definition set_header (no_cols : Z) (peak_header_list : option (list string))
           (cond_names : list string) : Py.result (list string) :=
  let no_cond := Py.len cond_names in
  let header := repeat "" (Z.to_nat no_cols) in
  let header := Py.slice_assign header None (Some 6) tfbs_columns in
  let header :=
    match peak_header_list with
    | Some phl => Py.slice_assign header (Some 6) (Some (6 + Py.len phl)) phl
    | None =>
        let no_peak_col := Py.len (Py.slice header (Some 6) None) in
        Py.slice_assign header (Some 6) (Some (6 + no_peak_col))
          (["peak_chr"; "peak_start"; "peak_end"]
             ++ map additional (Py.range (no_peak_col - 3)))
    end in
  let header := Py.slice_assign header (Some (- no_cond)) None
                                (score_columns cond_names) in
  header <- Py.setitem header (- no_cond - 1) "GC" ;;
  if Py.len header =? no_cols then Py.Ok header else Py.Raise Py.ValueError.

(** The names the design gives to [p] peak columns. *)
Definition peak_columns (p : Z) : list string :=
  ["peak_chr"; "peak_start"; "peak_end"] ++ map additional (Py.range (p - 3)).

(** ** numpy and scipy on real numbers *)

Module Np.

Local Open Scope R_scope.

(** [np.rint]: the nearest integer, a tie going to the even neighbour. *)
Definition rint (x : R) : Z :=
  let f := (up x - 1)%Z in
  let d := x - IZR f in
  if Rlt_dec d (1 / 2) then f
  else if Rlt_dec (1 / 2) d then (f + 1)%Z
  else if Z.even f then f else (f + 1)%Z.

(** [np.round(x, decimals)], also [Series.round(decimals)] and Python's
    [round] on a numpy float: scale, [rint], scale back. *)
Definition round (x : R) (decimals : nat) : R :=
  IZR (rint (x * 10 ^ decimals)) / 10 ^ decimals.

(** [np.log2] *)
Definition log2 (x : R) : R := ln x / ln 2.

Definition sum (l : list R) : R := fold_right Rplus 0 l.

(** [np.mean].  The mean of an empty array is [nan] in numpy, and so is
    the fit of an empty sample: both are outside the model, where they are
    numbers without meaning.  The theorems about the fit of a comparison
    carry the side condition that an occurrence enters it. *)
Definition mean (l : list R) : R := sum l / INR (List.length l).

(** [np.nan_to_num] on the values a track returns, where [None] stands for
    the not-a-number sentinel. *)
Definition nan_to_num (l : list (option R)) : list R :=
  map (fun v => match v with Some r => r | None => 0 end) l.

(** [x > y] on floats, as a boolean. *)
Definition gtb (x y : R) : bool := if Rlt_dec y x then true else false.

(** [scipy.stats.norm.fit]: the maximum-likelihood location and scale of a
    sample, that is its mean and its (population) standard deviation. *)
Definition norm_fit (data : list R) : R * R :=
  let loc := mean data in
  (loc, sqrt (mean (map (fun x => (x - loc) ^ 2) data))).

End Np.

(** [scipy.stats.ttest_ind_from_stats(mean1, std1, nobs1, mean2, std2, nobs2,
    equal_var)], which returns the pair (statistic, pvalue).  The test is
    scipy's; the pipeline only chooses its arguments. *)
Definition ttest_ind_from_stats_t : Type :=
  R -> R -> Z -> R -> R -> Z -> bool -> R * R.

(** ** Sorting *)

(** A stable insertion sort: an element goes in front of the first element
    it is less than or equal to, so elements with equal keys keep their
    input order. *)
Fixpoint insert_sorted {A : Type} (leb : A -> A -> bool) (x : A) (l : list A)
  : list A :=
  match l with
  | [] => [x]
  | y :: t => if leb x y then x :: y :: t else y :: insert_sorted leb x t
  end.

Fixpoint stable_sort {A : Type} (leb : A -> A -> bool) (l : list A) : list A :=
  match l with
  | [] => []
  | x :: t => insert_sorted leb x (stable_sort leb t)
  end.

(** The order on (chromosome, start, end): chromosome names compare as
    strings, coordinates as integers. *)
Definition loc_leb (a b : string * Z * Z) : bool :=
  let '(c1, s1, e1) := a in
  let '(c2, s2, e2) := b in
  match String.compare c1 c2 with
  | Lt => true
  | Gt => false
  | Eq => if s1 <? s2 then true
          else if s2 <? s1 then false
          else e1 <=? e2
  end.

(** ** Regions and motif occurrences ([tobias.utils.regions]) *)

(** A value in a column of a region: BED columns are strings or integers,
    appended GC values are floats, and appended signal scores are the
    strings ["{0:.5f}".format(score)], kept as the score they print. *)
Inductive cell : Type :=
| Str (s : string)
| Int (z : Z)
| Float (r : R)
| Fmt5 (r : R).

(** [OneRegion]: a list [chrom, start, end, ...] with named access to its
    first three entries. *)
Record OneRegion : Type := mkRegion {
  chrom : string;
  start : Z;
  end_ : Z;
  extra_columns : list cell
}.

(** The region as the list of its columns. *)
Definition region_columns (r : OneRegion) : list cell :=
  Str (chrom r) :: Int (start r) :: Int (end_ r) :: extra_columns r.

(** A motif occurrence as the scanner returns it: a [OneRegion]
    [chrom, start, end, name, score, strand], to which [scan_and_score]
    appends columns. *)
Record TFBS : Type := mkTFBS {
  tfbs_chrom : string;
  tfbs_start : Z;
  tfbs_end : Z;
  tfbs_name : string;
  tfbs_score : R;
  tfbs_strand : string;
  tfbs_extra : list cell
}.

Definition tfbs_loc (t : TFBS) : string * Z * Z :=
  (tfbs_chrom t, tfbs_start t, tfbs_end t).

(** [TFBS.extend(columns)] and [TFBS.append(column)] *)
Definition tfbs_extend (t : TFBS) (cols : list cell) : TFBS :=
  mkTFBS (tfbs_chrom t) (tfbs_start t) (tfbs_end t) (tfbs_name t)
         (tfbs_score t) (tfbs_strand t) (tfbs_extra t ++ cols).

Definition tfbs_append (t : TFBS) (col : cell) : TFBS := tfbs_extend t [col].

(** Modelled from the spec: [OneRegion.get_length] is defined in
    [tobias/utils/regions.py]; the region model gives [length()] of the
    interval from [start] to [end]. *)
Definition get_length (r : OneRegion) : Z := end_ r - start r.

(** Modelled from the spec: the overlap test of the region model, a
    half-open interval intersection on one chromosome. *)
Definition overlaps (a b : string * Z * Z) : bool :=
  let '(c1, s1, e1) := a in
  let '(c2, s2, e2) := b in
  String.eqb c1 c2 && (s1 <? e2) && (s2 <? e1).

(** Which of two overlapping occurrences the resolver retains: the higher
    match score, and on an exact tie the one that came first in the input
    ([i], [j] are the input positions). *)
Definition prefer (a b : nat * TFBS) : nat * TFBS :=
  if Rlt_dec (tfbs_score (snd a)) (tfbs_score (snd b)) then b
  else if Rlt_dec (tfbs_score (snd b)) (tfbs_score (snd a)) then a
  else if (fst a <=? fst b)%nat then a else b.

(** The sweep over the coordinate-sorted occurrences: [kept] holds the
    retained occurrences, last one first. *)
Fixpoint sweep (kept : list (nat * TFBS)) (l : list (nat * TFBS))
  : list (nat * TFBS) :=
  match l with
  | [] => List.rev kept
  | t :: rest =>
      match kept with
      | k :: ks =>
          if overlaps (tfbs_loc (snd k)) (tfbs_loc (snd t))
          then sweep (prefer k t :: ks) rest
          else sweep (t :: kept) rest
      | [] => sweep [t] rest
      end
  end.

(** Modelled from the spec: [RegionList.resolve_overlaps] is defined in
    [tobias/utils/regions.py].  The overlap resolver sorts by coordinate and
    sweeps, keeping of two overlapping occurrences the one with the higher
    match score, and on an exact tie the one that is first in the input. *)
Definition resolve_overlaps (l : list TFBS) : list TFBS :=
  let indexed := combine (seq 0 (List.length l)) l in
  map snd (sweep [] (stable_sort (fun a b => loc_leb (tfbs_loc (snd a))
                                                     (tfbs_loc (snd b)))
                                 indexed)).

(** ** The log *)

(** The [logger.error] calls of the two functions. *)
Inductive log_entry : Type :=
| ErrorReadingFootprints (region : OneRegion)
| ErrorRemovingTemporaryFile (filename : string).

(** ** Collaborators of the scan stage *)

Module Scan.

(** Python's [random] module, as far as the scan uses it.  [seed a] is the
    generator state after [random.seed(a)]: it depends on [a] alone.
    [sample st n k] is [random.sample(range(n), k)] run in state [st]: it
    returns [k] distinct elements of the population and the next state, and
    raises [ValueError] when the sample is larger than the population or
    negative. *)
Record PyRandom : Type := mkPyRandom {
  rng_state : Type;
  seed : Z -> rng_state;
  sample : rng_state -> Z -> Z -> Py.result (list Z * rng_state);
  sample_returns : forall st n k,
    0 <= k <= Z.max n 0 ->
    exists l st', sample st n k = Py.Ok (l, st')
                  /\ Py.len l = k /\ NoDup l /\ Forall (fun p => 0 <= p < n) l;
  sample_raises : forall st n k,
    k < 0 \/ Z.max n 0 < k -> sample st n k = Py.Raise Py.ValueError
}.

(** What [scan_and_score] is given and what it opens: the condition names,
    one signal track per condition, the genome and the motif list.
    - [bigwig_values condition region] is
      [pybw[condition].values(region.chrom, region.start, region.end)],
      which may raise; [None] is a not-a-number entry.
    - [gc_profile region] is the array [gc] of the region: the rolling mean
      of the GC indicator over the extended region, cut back to the region
      ([nuc_to_num], [fast_rolling_math] and the region's [extend_reg] and
      [check_boundary] are not part of this file).
    - [scan_sequence region] is [motifs_obj.scan_sequence(seq, region)].
    - [count_overlaps] is [RegionList.count_overlaps]. *)
Record scan_env : Type := mkScanEnv {
  cond_names : list string;
  bigwig_values : string -> OneRegion -> Py.result (list (option R));
  gc_profile : OneRegion -> list R;
  motif_names : list string;
  scan_sequence : OneRegion -> list TFBS;
  resolve : list TFBS -> list TFBS;
  overlap_t : Type;
  count_overlaps : list TFBS -> overlap_t
}.

(** [background_signal]: [{"gc": [...], "signal": {condition: [...]}}] *)
Record background : Type := mkBackground {
  bg_gc : list R;
  bg_signal : Py.dict (list R)
}.

(** ** [scan_and_score] *)

Section ScanAndScore.

Variable rnd : PyRandom.
Variable env : scan_env.

Definition rand_window : Z := 500.

(** The state the loop over the regions carries: the generator of the
    [random] module, the background sample, the sites found so far per
    motif, and the log. *)
Record scan_state : Type := mkScanState {
  rng : rng_state rnd;
  background_signal : background;
  all_TFBS : Py.dict (list TFBS);
  log : list log_entry
}.

(** "Random positions for sampling": the generator is seeded with the
    region length and asked for one position in every 500 bp, at least
    one. *)
Definition rand_positions (reglen : Z) : Py.result (list Z * rng_state rnd) :=
  sample rnd (seed rnd reglen) reglen (Z.max 1 (Py.int_div reglen rand_window)).

(** "Read footprints in region", for one condition: a failed read is logged
    and the condition is skipped; otherwise the values at the random
    positions go to the background sample of the condition. *)
Definition read_footprints (region : OneRegion) (positions : list Z)
           (s : Py.dict (list R) * Py.dict (list R) * list log_entry)
           (condition : string)
  : Py.result (Py.dict (list R) * Py.dict (list R) * list log_entry) :=
  let '(footprints, signal, log) := s in
  match bigwig_values env condition region with
  | Py.Raise _ => Py.Ok (footprints, signal, log ++ [ErrorReadingFootprints region])
  | Py.Ok values =>
      let footprints := Py.dict_set footprints condition (Np.nan_to_num values) in
      signal <- Py.for_each positions
                  (fun signal pos =>
                     fp <- Py.dict_get footprints condition ;;
                     v <- Py.getitem fp pos ;;
                     samples <- Py.dict_get signal condition ;;
                     Py.Ok (Py.dict_set signal condition (samples ++ [v])))
                  signal ;;
      Py.Ok (footprints, signal, log)
  end.

(** "Extend all TFBS with extra columns from peaks and bigwigs" *)
Definition annotate (region : OneRegion) (gc : list R)
           (footprints : Py.dict (list R)) (t : TFBS) : Py.result TFBS :=
  let motif_length := tfbs_end t - tfbs_start t in
  let pos := tfbs_start t - start region + Py.int_div motif_length 2 in
  let t := tfbs_extend t (region_columns region) in
  g <- Py.getitem gc pos ;;
  let t := tfbs_append t (Float g) in
  Py.for_each (cond_names env)
    (fun t bigwig =>
       fp <- Py.dict_get footprints bigwig ;;
       bigwig_score <- Py.getitem fp pos ;;
       Py.Ok (tfbs_append t (Fmt5 bigwig_score)))
    t.

(** "Split regions to single TFs": [all_TFBS[TFBS.name].append(TFBS)] *)
Definition split_to_TF (all : Py.dict (list TFBS)) (t : TFBS)
  : Py.result (Py.dict (list TFBS)) :=
  sites <- Py.dict_get all (tfbs_name t) ;;
  Py.Ok (Py.dict_set all (tfbs_name t) (sites ++ [t])).

(** The body of the loop over the regions. *)
Definition scan_region (s : scan_state) (region : OneRegion) : Py.result scan_state :=
  let reglen := get_length region in
  sampled <- rand_positions reglen ;;
  let '(positions, rng') := sampled in
  read <- Py.for_each (cond_names env) (read_footprints region positions)
            ([], bg_signal (background_signal s), log s) ;;
  let '(footprints, signal, log') := read in
  let gc := gc_profile env region in
  gc_samples <- Py.traverse (Py.getitem gc) positions ;;
  let gc_background := bg_gc (background_signal s) ++ gc_samples in
  region_TFBS <- Py.traverse (annotate region gc footprints)
                   (scan_sequence env region) ;;
  all <- Py.for_each region_TFBS split_to_TF (all_TFBS s) ;;
  Py.Ok (mkScanState rng' (mkBackground gc_background signal) all log').

(** "Sent sites to writer": a message [(name, bed_content)] on the queue of
    [name]; the bed text of the batch is kept as the list of its sites. *)
Definition message : Type := string * list TFBS.

Definition send_sites (all : Py.dict (list TFBS)) : list message :=
  map (fun entry => (fst entry, resolve env (snd entry))) all.

Definition initial_state (rng0 : rng_state rnd) : scan_state :=
  mkScanState rng0
    (mkBackground [] (Py.dict_fromkeys (cond_names env) []))
    (Py.dict_fromkeys (motif_names env) [])
    [].

Record scan_result : Type := mkScanResult {
  returned_background : background;
  returned_overlap : overlap_t env;
  sent : list message;
  logged : list log_entry
}.

(** [scan_and_score(regions, motifs_obj, args, log_q, qs)], run with the
    [random] module in state [rng0]. *)
Definition scan_and_score (rng0 : rng_state rnd) (regions : list OneRegion)
  : Py.result scan_result :=
  s <- Py.for_each regions scan_region (initial_state rng0) ;;
  let messages := send_sites (all_TFBS s) in
  let global_TFBS := List.concat (map snd messages) in
  Py.Ok (mkScanResult (background_signal s) (count_overlaps env global_TFBS)
                      messages (log s)).

End ScanAndScore.

(** *** What one region adds

    The loop body read as two steps: compute what the region adds, which
    depends on the region alone, then append it to the state. *)

Section RegionAdditions.

Variable rnd : PyRandom.
Variable env : scan_env.

(** [d[k].extend(vs)] for a key that is present; other dictionaries are
    left as they are. *)
Definition dict_extend (d : Py.dict (list R)) (k : string) (vs : list R)
  : Py.dict (list R) :=
  match Py.dict_get d k with
  | Py.Ok old => Py.dict_set d k (old ++ vs)
  | Py.Raise _ => d
  end.

(** The footprints read in a region, the samples they add per condition,
    in the order of the conditions, and the log entries of failed reads. *)
Fixpoint footprint_additions (region : OneRegion) (positions : list Z)
         (conditions : list string) (footprints : Py.dict (list R))
  : Py.result (Py.dict (list R) * list (string * list R) * list log_entry) :=
  match conditions with
  | [] => Py.Ok (footprints, [], [])
  | condition :: rest =>
      match bigwig_values env condition region with
      | Py.Raise _ =>
          r <- footprint_additions region positions rest footprints ;;
          let '(footprints', added, logs) := r in
          Py.Ok (footprints', added, ErrorReadingFootprints region :: logs)
      | Py.Ok values =>
          let fp := Np.nan_to_num values in
          samples <- Py.traverse (Py.getitem fp) positions ;;
          r <- footprint_additions region positions rest
                 (Py.dict_set footprints condition fp) ;;
          let '(footprints', added, logs) := r in
          Py.Ok (footprints', (condition, samples) :: added, logs)
      end
  end.

Record additions : Type := mkAdditions {
  next_rng : rng_state rnd;
  positions_used : list Z;
  added_gc : list R;
  added_signal : list (string * list R);
  added_sites : list TFBS;
  added_log : list log_entry
}.

Definition region_additions (region : OneRegion) : Py.result additions :=
  sampled <- rand_positions rnd (get_length region) ;;
  let '(positions, rng') := sampled in
  read <- footprint_additions region positions (cond_names env) [] ;;
  let '(footprints, signal, logs) := read in
  let gc := gc_profile env region in
  gc_samples <- Py.traverse (Py.getitem gc) positions ;;
  sites <- Py.traverse (annotate env region gc footprints)
             (scan_sequence env region) ;;
  Py.Ok (mkAdditions rng' positions gc_samples signal sites logs).

Definition extend_signal (signal : Py.dict (list R))
           (added : list (string * list R)) : Py.dict (list R) :=
  fold_left (fun d entry => dict_extend d (fst entry) (snd entry)) added signal.

Definition apply_additions (s : scan_state rnd) (a : additions)
  : Py.result (scan_state rnd) :=
  all <- Py.for_each (added_sites a) split_to_TF (all_TFBS s) ;;
  Py.Ok (mkScanState rnd (next_rng a)
           (mkBackground (bg_gc (background_signal s) ++ added_gc a)
                         (extend_signal (bg_signal (background_signal s))
                                        (added_signal a)))
           all
           (log s ++ added_log a)).

End RegionAdditions.

(** The sites of a region as they are stored: the occurrences the scanner
    finds in the region, with the columns [scan_and_score] appends.  A
    region that cannot be processed has none. *)
Definition region_sites (rnd : PyRandom) (env : scan_env) (region : OneRegion)
  : list TFBS :=
  match region_additions rnd env region with
  | Py.Ok a => added_sites a
  | Py.Raise _ => []
  end.

(** The sites of one motif among a list of sites. *)
Definition sites_of (name : string) (sites : list TFBS) : list TFBS :=
  filter (fun t => String.eqb (tfbs_name t) name) sites.

End Scan.

(** ** [process_tfbs] *)

Module Stats.

(** A row of the temporary file of a motif, as [np.genfromtxt] types it:
    the six occurrence columns, the columns of the peak, the GC value and
    one signal score per condition. *)
Record file_row : Type := mkFileRow {
  f_chr : string;
  f_start : Z;
  f_end : Z;
  f_name : string;
  f_score : R;
  f_strand : string;
  f_peak_chr : string;
  f_peak_start : Z;
  f_peak_end : Z;
  f_peak_additional : list cell;
  f_gc : R;
  f_signal : list R
}.

Definition f_loc (r : file_row) : string * Z * Z := (f_chr r, f_start r, f_end r).

(** The number of columns of the table ([bed_table.shape]). *)
Definition width (r : file_row) : Z :=
  6 + (3 + Py.len (f_peak_additional r)) + 1 + Py.len (f_signal r).

Definition shape (arr : list file_row) : Z * Z :=
  (Py.len arr, match arr with [] => 0 | r :: _ => width r end).

(** A row of [bed_table]: the columns of the file under their names, then
    the columns the function adds, [<condition>_bound] and
    [<cond1>_<cond2>_log2fc]. *)
Record bed_row : Type := mkBedRow {
  TFBS_chr : string;
  TFBS_start : Z;
  TFBS_end : Z;
  TFBS_name : string;
  TFBS_score : R;
  TFBS_strand : string;
  peak_chr : string;
  peak_start : Z;
  peak_end : Z;
  peak_additional : list cell;
  GC : R;
  scores : Py.dict R;
  bound : Py.dict Z;
  log2fc : Py.dict R
}.

Definition TFBS_loc (r : bed_row) : string * Z * Z :=
  (TFBS_chr r, TFBS_start r, TFBS_end r).

(** [bed_table.columns = header] for a row of the file: the last columns
    are the score columns of the conditions. *)
Definition name_columns (cond_names : list string) (r : file_row) : bed_row :=
  mkBedRow (f_chr r) (f_start r) (f_end r) (f_name r) (f_score r) (f_strand r)
           (f_peak_chr r) (f_peak_start r) (f_peak_end r) (f_peak_additional r)
           (f_gc r)
           (combine (score_columns cond_names) (f_signal r)) [] [].

Definition set_scores (r : bed_row) (s : Py.dict R) : bed_row :=
  mkBedRow (TFBS_chr r) (TFBS_start r) (TFBS_end r) (TFBS_name r) (TFBS_score r)
           (TFBS_strand r) (peak_chr r) (peak_start r) (peak_end r)
           (peak_additional r) (GC r) s (bound r) (log2fc r).

Definition set_bound (r : bed_row) (b : Py.dict Z) : bed_row :=
  mkBedRow (TFBS_chr r) (TFBS_start r) (TFBS_end r) (TFBS_name r) (TFBS_score r)
           (TFBS_strand r) (peak_chr r) (peak_start r) (peak_end r)
           (peak_additional r) (GC r) (scores r) b (log2fc r).

Definition set_log2fc (r : bed_row) (l : Py.dict R) : bed_row :=
  mkBedRow (TFBS_chr r) (TFBS_start r) (TFBS_end r) (TFBS_name r) (TFBS_score r)
           (TFBS_strand r) (peak_chr r) (peak_start r) (peak_end r)
           (peak_additional r) (GC r) (scores r) (bound r) l.

(** [args], as far as [process_tfbs] reads it. *)
Record Args : Type := mkArgs {
  outdir : string;
  cond_names : list string;
  comparisons : list (string * string);
  thresholds : Py.dict R;
  pseudo : R;
  peak_header_list : option (list string)
}.

(** [log2fc_params]: a dictionary from the pair of conditions of a
    comparison to the (mean, std) of the background fit. *)
Definition params : Type := list ((string * string) * (R * R)).

Fixpoint params_get (d : params) (k : string * string) : Py.result (R * R) :=
  match d with
  | [] => Py.Raise Py.KeyError
  | (k', v) :: t =>
      if String.eqb (fst k') (fst k) && String.eqb (snd k') (snd k)
      then Py.Ok v else params_get t k
  end.

(** [os.path.join] of relative path components. *)
Definition path_join (parts : list string) : string := Py.join "/" parts.

(** *** The files and the output of a task *)

(** The file system as the task meets it: what reading the temporary file
    gives, and which writes and removals succeed. *)
Record filesystem : Type := mkFilesystem {
  genfromtxt : string -> Py.result (list file_row);
  csv_writable : string -> bool;
  excel_writable : string -> bool;
  removable : string -> bool
}.

Inductive event : Type :=
| ToCsv (path : string)
| ToExcel (path : string)
| Print (msg : string)
| Log (entry : log_entry)
| Remove (path : string).

(** A computation that leaves a trace of events and returns or raises. *)
Definition io (A : Type) : Type := list event * Py.result A.

Definition ret {A : Type} (a : A) : io A := ([], Py.Ok a).

Definition lift {A : Type} (r : Py.result A) : io A := ([], r).

Definition emit (e : event) : io unit := ([e], Py.Ok tt).

Definition raise {A : Type} (e : Py.exn) : io A := ([], Py.Raise e).

Definition io_bind {A B : Type} (m : io A) (k : A -> io B) : io B :=
  match m with
  | (t, Py.Ok a) => let '(t', r) := k a in (t ++ t', r)
  | (t, Py.Raise e) => (t, Py.Raise e)
  end.

(** [DataFrame.to_csv(path, ...)] *)
Definition to_csv (fs : filesystem) (path : string) : io unit :=
  if csv_writable fs path then emit (ToCsv path) else raise Py.OSError.

(** *** Statistics of one table *)

(** [bed_table[name]] for a score column. *)
Definition score_column (bed_table : list bed_row) (name : string)
  : Py.result (list R) :=
  Py.traverse (fun row => Py.dict_get (scores row) name) bed_table.

(** [bed_table.sort_values(["TFBS_chr", "TFBS_start", "TFBS_end"])] *)
Definition sort_values (bed_table : list bed_row) : list bed_row :=
  stable_sort (fun a b => loc_leb (TFBS_loc a) (TFBS_loc b)) bed_table.

(** [bed_table[condition + "_score"].round(5)], for every condition. *)
Definition round_score (bed_table : list bed_row) (condition : string)
  : Py.result (list bed_row) :=
  let name := (condition ++ "_score")%string in
  Py.traverse (fun row =>
                 v <- Py.dict_get (scores row) name ;;
                 Py.Ok (set_scores row (Py.dict_set (scores row) name (Np.round v 5))))
              bed_table.

(** The dictionary-like [info_table]: one value per column of the overview
    row of the motif. *)
Definition info_columns (args : Args) : list string :=
  ["total_tfbs"]
    ++ flat_map (fun cond => [(cond ++ "_mean_score")%string; (cond ++ "_bound")%string])
                (cond_names args)
    ++ flat_map (fun comparison =>
                   let base := (fst comparison ++ "_" ++ snd comparison)%string in
                   [(base ++ "_change")%string; (base ++ "_pvalue")%string])
                (comparisons args).

(** "Estimate bound/unbound split", for one condition. *)
Definition bound_split (args : Args) (s : list bed_row * Py.dict R)
           (condition : string) : Py.result (list bed_row * Py.dict R) :=
  let '(bed_table, info_table) := s in
  threshold <- Py.dict_get (thresholds args) condition ;;
  values <- score_column bed_table (condition ++ "_score") ;;
  let flags := map (fun v => if Np.gtb v threshold then 1 else 0) values in
  let bed_table :=
    map (fun rf => set_bound (fst rf)
                     (Py.dict_set (bound (fst rf)) (condition ++ "_bound") (snd rf)))
        (combine bed_table flags) in
  let info_table :=
    Py.dict_set info_table (condition ++ "_mean_score") (Np.round (Np.mean values) 5) in
  let info_table :=
    Py.dict_set info_table (condition ++ "_bound") (IZR (fold_right Z.add 0 flags)) in
  Py.Ok (bed_table, info_table).

(** *** One comparison *)

(** The log2 fold change of an occurrence, as stored in the column
    [<cond1>_<cond2>_log2fc]: computed, then rounded to five decimals. *)
Definition log2fc_value (pseudo v1 v2 : R) : R :=
  Np.round (Np.log2 ((v1 + pseudo) / (v2 + pseudo))) 5.

(** The mask [included]: at least one of the two scores is above zero. *)
Definition included (v1 v2 : R) : bool := Np.gtb v1 0 || Np.gtb v2 0.

(** The [peak_id] of a row: ["_".join([chrom, str(start), str(end)])] *)
Definition peak_id (row : bed_row) : string :=
  Py.join "_" [peak_chr row; Py.str (peak_start row); Py.str (peak_end row)].

(** [groupby(key)[value].mean()]: one entry per key, the keys in sorted
    order, each with the mean of the values of its group. *)
Definition groupby_mean (entries : list (string * R)) : list (string * R) :=
  let keys := stable_sort String.leb (nodup string_dec (map fst entries)) in
  map (fun k =>
         (k, Np.mean (map snd (filter (fun e => String.eqb (fst e) k) entries))))
      keys.

(** The column of log2 fold changes of a comparison. *)
Definition log2fc_column (args : Args) (bed_table : list bed_row)
           (cond1 cond2 : string) : Py.result (list R) :=
  cond1_values <- score_column bed_table (cond1 ++ "_score") ;;
  cond2_values <- score_column bed_table (cond2 ++ "_score") ;;
  Py.Ok (map (fun v => log2fc_value (pseudo args) (fst v) (snd v))
             (combine cond1_values cond2_values)).

(** The entries (peak_id, log2fc) of the rows of [subset]. *)
Definition subset_entries (args : Args) (bed_table : list bed_row)
           (cond1 cond2 : string) : Py.result (list (string * R)) :=
  cond1_values <- score_column bed_table (cond1 ++ "_score") ;;
  cond2_values <- score_column bed_table (cond2 ++ "_score") ;;
  log2fcs <- log2fc_column args bed_table cond1 cond2 ;;
  let rows := combine bed_table (combine (combine cond1_values cond2_values) log2fcs) in
  let subset := filter (fun r => included (fst (fst (snd r))) (snd (fst (snd r)))) rows in
  Py.Ok (map (fun r => (peak_id (fst r), snd (snd r))) subset).

(** [observed_log2fcs]: one value per peak. *)
Definition observed_log2fcs (args : Args) (bed_table : list bed_row)
           (cond1 cond2 : string) : Py.result (list R) :=
  entries <- subset_entries args bed_table cond1 cond2 ;;
  Py.Ok (map snd (groupby_mean entries)).

(** The effect size of a comparison whose observed and background means
    differ. *)
Definition effect_size (obs_mean obs_std bg_mean bg_std : R) : R :=
  Np.round ((obs_mean - bg_mean) / Np.mean [obs_std; bg_std]) 5.

(** The cap on the number of observations. *)
Definition obs_cap : Z := 50000.

(** The values written to [<base>_change] and [<base>_pvalue]. *)
Definition change_and_pvalue (ttest : ttest_ind_from_stats_t)
           (obs_params : R * R) (obs_len : Z) (bg_params : R * R) : R * R :=
  let '(obs_mean, obs_std) := obs_params in
  let '(bg_mean, bg_std) := bg_params in
  let obs_no := Z.min obs_len obs_cap in
  if Req_dec_T obs_mean bg_mean
  then (0%R, 1%R)
  else (effect_size obs_mean obs_std bg_mean bg_std,
        snd (ttest obs_mean obs_std obs_no bg_mean bg_std obs_no false)).

(** "Calculate statistical test in comparison to background", for one
    comparison: the pair (change, pvalue). *)
Definition compare_to_background (ttest : ttest_ind_from_stats_t) (args : Args)
           (log2fc_params : params) (bed_table : list bed_row)
           (cond1 cond2 : string) : Py.result (R * R) :=
  observed <- observed_log2fcs args bed_table cond1 cond2 ;;
  bg_params <- params_get log2fc_params (cond1, cond2) ;;
  let obs_params := Np.norm_fit observed in
  Py.Ok (change_and_pvalue ttest obs_params (Py.len observed) bg_params).

(** The columns of the peak that the loop reads by name:
    [subset["peak_chr"]], [subset["peak_start"]] and [subset["peak_end"]]. *)
Definition peak_id_columns : list string := ["peak_chr"; "peak_start"; "peak_end"].

(** The three columns are found when the header of the table names them; a
    name that is not in the header raises [KeyError].  [header] is the list
    that "Set header in overview" assigns to [bed_table.columns]; the
    values are those of the region, which [file_row] has in the first three
    columns after the occurrence, where the scan stage writes them. *)
Definition read_peak_columns (header : list string) : Py.result unit :=
  if forallb (fun name => existsb (String.eqb name) header) peak_id_columns
  then Py.Ok tt
  else Py.Raise Py.KeyError.

(** The body of the loop over the comparisons, for a table with the column
    names [header]: the log2fc column is added to the table and the two
    values are written to the overview row. *)
Definition comparison_step (ttest : ttest_ind_from_stats_t) (args : Args)
           (log2fc_params : params) (header : list string)
           (s : list bed_row * Py.dict R)
           (comparison : string * string) : Py.result (list bed_row * Py.dict R) :=
  let '(bed_table, info_table) := s in
  let '(cond1, cond2) := comparison in
  let base := (cond1 ++ "_" ++ cond2)%string in
  log2fcs <- log2fc_column args bed_table cond1 cond2 ;;
  _ <- read_peak_columns header ;;
  result <- compare_to_background ttest args log2fc_params bed_table cond1 cond2 ;;
  let bed_table :=
    map (fun rv => set_log2fc (fst rv)
                     (Py.dict_set (log2fc (fst rv)) (base ++ "_log2fc") (snd rv)))
        (combine bed_table log2fcs) in
  let info_table := Py.dict_set info_table (base ++ "_change") (fst result) in
  let info_table := Py.dict_set info_table (base ++ "_pvalue") (snd result) in
  Py.Ok (bed_table, info_table).

(** *** Notions used to state what a comparison computes *)

(** The value of a row in a score column. *)
Definition score (row : bed_row) (name : string) : R :=
  match Py.dict_get (scores row) name with
  | Py.Ok v => v
  | Py.Raise _ => 0%R
  end.

(** The peak a row comes from. *)
Definition peak_loc (row : bed_row) : string * Z * Z :=
  (peak_chr row, peak_start row, peak_end row).

Definition loc_eqb (a b : string * Z * Z) : bool :=
  let '(c1, s1, e1) := a in
  let '(c2, s2, e2) := b in
  String.eqb c1 c2 && (s1 =? s2) && (e1 =? e2).

(** The log2 fold change stored for a row, and whether the row enters the
    fit, for the comparison of [cond1] with [cond2]. *)
Definition row_log2fc (args : Args) (cond1 cond2 : string) (row : bed_row) : R :=
  log2fc_value (pseudo args) (score row (cond1 ++ "_score"))
               (score row (cond2 ++ "_score")).

Definition row_included (cond1 cond2 : string) (row : bed_row) : bool :=
  included (score row (cond1 ++ "_score")) (score row (cond2 ++ "_score")).

(** *** The task *)

(** "Set header in overview": the column names of the table read from
    the temporary file. *)
Definition table_header (args : Args) (arr : list file_row)
  : Py.result (list string) :=
  set_header (snd (shape arr)) (peak_header_list args) (cond_names args).

(** "Set header in overview" and "Sort and format": the table that is
    classified.  The header is assigned to the columns here, which raises
    when it does not have one name per column; the loop over the comparisons
    reads it again, see [table_header] and [read_peak_columns]. *)
Definition format_bed_table (args : Args) (arr : list file_row)
  : Py.result (list bed_row) :=
  _ <- table_header args arr ;;
  let bed_table := sort_values (map (name_columns (cond_names args)) arr) in
  Py.for_each (cond_names args) round_score bed_table.

(** The pairs [(condition, state)] of the bound/unbound files. *)
Definition bound_files (bed_outdir TF_name : string) (args : Args) : list string :=
  flat_map (fun condition =>
              map (fun state =>
                     path_join [bed_outdir;
                                (TF_name ++ "_" ++ condition ++ "_" ++ state ++ ".bed")%string])
                  ["bound"; "unbound"])
           (cond_names args).

Fixpoint io_for_each {A : Type} (l : list A) (body : A -> io unit) : io unit :=
  match l with
  | [] => ret tt
  | a :: t => io_bind (body a) (fun _ => io_for_each t body)
  end.

(** The paths of a task. *)
Definition bed_outdir (args : Args) (TF_name : string) : string :=
  path_join [outdir args; TF_name; "beds"].

Definition tmp_filename (args : Args) (TF_name : string) : string :=
  path_join [bed_outdir args TF_name; (TF_name ++ ".tmp")%string].

Definition all_bed (args : Args) (TF_name : string) : string :=
  path_join [bed_outdir args TF_name; (TF_name ++ "_all.bed")%string].

Definition overview_txt (args : Args) (TF_name : string) : string :=
  path_join [outdir args; TF_name; (TF_name ++ "_overview.txt")%string].

Definition overview_excel (args : Args) (TF_name : string) : string :=
  path_join [outdir args; TF_name; (TF_name ++ "_overview.xlsx")%string].

(** The table after "Estimate bound/unbound split", with the overview row
    so far. *)
Definition classify (args : Args) (TF_name : string) (arr : list file_row)
  : Py.result (list bed_row * Py.dict R) :=
  let info_table := map (fun c => (c, 0%R)) (info_columns args) in
  let info_table := Py.dict_set info_table "total_tfbs" (IZR (fst (shape arr))) in
  bed_table <- format_bed_table args arr ;;
  Py.for_each (cond_names args) (bound_split args) (bed_table, info_table).

(** The task up to and including the text overview: everything before
    "Write xlsx overview".  The loop over the comparisons reads the peak
    columns by the names of the header.  The figure of each comparison is
    drawn from the values computed here and is not part of the model. *)
Definition statistics (fs : filesystem) (ttest : ttest_ind_from_stats_t)
           (TF_name : string) (args : Args) (log2fc_params : params)
  : io (Py.dict R) :=
  io_bind (lift (genfromtxt fs (tmp_filename args TF_name))) (fun arr =>
  io_bind (lift (format_bed_table args arr)) (fun _ =>
  io_bind (to_csv fs (all_bed args TF_name)) (fun _ =>
  io_bind (lift (classify args TF_name arr)) (fun s =>
  io_bind (io_for_each (bound_files (bed_outdir args TF_name) TF_name args)
                       (to_csv fs)) (fun _ =>
  io_bind (lift (table_header args arr)) (fun header =>
  io_bind (lift (Py.for_each (comparisons args)
                             (comparison_step ttest args log2fc_params header) s))
          (fun s =>
  io_bind (to_csv fs (overview_txt args TF_name)) (fun _ =>
  ret (snd s))))))))).

(** "Write xlsx overview": any failure prints a message and exits. *)
Definition write_excel (fs : filesystem) (TF_name : string) (args : Args) : io unit :=
  if excel_writable fs (overview_excel args TF_name)
  then emit (ToExcel (overview_excel args TF_name))
  else io_bind (emit (Print ("Error writing excelfile for TF " ++ TF_name)%string))
               (fun _ => raise Py.SystemExit).

(** "Remove temporary file": a failure is logged and nothing else. *)
Definition remove_temporary (fs : filesystem) (TF_name : string) (args : Args)
  : io unit :=
  if removable fs (tmp_filename args TF_name)
  then emit (Remove (tmp_filename args TF_name))
  else emit (Log (ErrorRemovingTemporaryFile (tmp_filename args TF_name))).

(** [process_tfbs(TF_name, args, log2fc_params)] *)
Definition process_tfbs (fs : filesystem) (ttest : ttest_ind_from_stats_t)
           (TF_name : string) (args : Args) (log2fc_params : params)
  : io (Py.dict R) :=
  io_bind (statistics fs ttest TF_name args log2fc_params) (fun info_table =>
  io_bind (write_excel fs TF_name args) (fun _ =>
  io_bind (remove_temporary fs TF_name args) (fun _ =>
  ret info_table))).

End Stats.

(** ** Inputs used in examples *)

Module Example.

Local Open Scope R_scope.

(** A stand-in for the t-test: it returns the difference of the means as
    the statistic and a p-value of 1/2. *)
Definition ttest : ttest_ind_from_stats_t :=
  fun mean1 _ _ mean2 _ _ _ => (mean1 - mean2, 1 / 2).

(** A second stand-in, whose p-value depends on its arguments: on the
    squared difference of the means, the standard deviations and the
    sample sizes. *)
Definition welch : ttest_ind_from_stats_t :=
  fun mean1 std1 nobs1 mean2 std2 nobs2 _ =>
    (mean1 - mean2,
     (mean1 - mean2) * (mean1 - mean2) + std1 + std2 + IZR nobs1 + IZR nobs2).

(** Two conditions, one comparison, bound threshold 0.3, pseudocount 1. *)
Definition args : Stats.Args :=
  Stats.mkArgs "out" ["WT"; "KO"] [("WT", "KO")]
               [("WT", 3 / 10); ("KO", 3 / 10)] 1 None.

(** A file system on which the temporary file of no motif can be read. *)
Definition no_files : Stats.filesystem :=
  Stats.mkFilesystem (fun _ => Py.Raise Py.OSError)
                     (fun _ => true) (fun _ => true) (fun _ => true).

(** A generator that always draws the first [k] positions of the
    population.  It satisfies the contract of [random.sample] and serves to
    run the scan on examples. *)
Definition first_k (n k : Z) : Py.result (list Z * unit) :=
  if (0 <=? k)%Z && (k <=? Z.max n 0)%Z
  then Py.Ok (Py.range k, tt)
  else Py.Raise Py.ValueError.

Lemma first_k_returns (st : unit) (n k : Z) :
  (0 <= k <= Z.max n 0)%Z ->
  exists l st', first_k n k = Py.Ok (l, st')
                /\ Py.len l = k /\ NoDup l /\ Forall (fun p => (0 <= p < n)%Z) l.
Proof.
  intros [H0 Hk]. unfold first_k.
  destruct (Z.leb_spec 0 k); [|lia]. destruct (Z.leb_spec k (Z.max n 0)); [|lia].
  exists (Py.range k), tt. simpl. split; [reflexivity|].
  unfold Py.range, Py.len. split; [|split].
  - rewrite length_map, length_seq. lia.
  - generalize (seq_NoDup (Z.to_nat k) 0). generalize (seq 0 (Z.to_nat k)).
    induction 1 as [|i l Hi Hl IH]; simpl; constructor; [|assumption].
    rewrite in_map_iff. intros [j [Hj Hin]]. apply Nat2Z.inj in Hj. now subst.
  - apply Forall_forall. intros p Hp. apply in_map_iff in Hp.
    destruct Hp as [i [<- Hi]]. apply in_seq in Hi. lia.
Qed.

Lemma first_k_raises (st : unit) (n k : Z) :
  (k < 0 \/ Z.max n 0 < k)%Z -> first_k n k = Py.Raise Py.ValueError.
Proof.
  intros H. unfold first_k.
  destruct (Z.leb_spec 0 k); [|reflexivity].
  destruct (Z.leb_spec k (Z.max n 0)); [lia | reflexivity].
Qed.

Definition first_positions : Scan.PyRandom :=
  Scan.mkPyRandom (fun _ => tt) (fun _ => first_k) first_k_returns first_k_raises.

(** Two overlapping peaks on chr1 and a third, short one on chr2. *)
Definition peak1 : OneRegion := mkRegion "chr1" 0 10 [].
Definition peak2 : OneRegion := mkRegion "chr1" 5 15 [].
Definition peak3 : OneRegion := mkRegion "chr2" 100 200 [].

(** One occurrence of the motif in each of the two peaks on chr1; the two
    occurrences overlap. *)
Definition site1 : TFBS := mkTFBS "chr1" 2 8 "CTCF" 5 "+" [].
Definition site2 : TFBS := mkTFBS "chr1" 6 12 "CTCF" 7 "+" [].

(** One condition whose track is 1 everywhere, a GC profile of 1/2
    everywhere, and a scanner that finds [site1] in [peak1] and [site2] in
    [peak2]. *)
Definition scan_env : Scan.scan_env :=
  Scan.mkScanEnv
    ["WT"]
    (fun _ region => Py.Ok (repeat (Some 1) (Z.to_nat (get_length region))))
    (fun region => repeat (1 / 2) (Z.to_nat (get_length region)))
    ["CTCF"]
    (fun region =>
       if String.eqb (chrom region) "chr1"
       then if (start region =? 0)%Z then [site1] else [site2]
       else [])
    resolve_overlaps
    (fun sites => List.length sites).

(** The two sites as they are stored after scanning: with the columns of
    their peak, the GC value and the score of the condition. *)
Definition stored1 : TFBS :=
  mkTFBS "chr1" 2 8 "CTCF" 5 "+"
         [Str "chr1"; Int 0; Int 10; Float (1 / 2); Fmt5 1].
Definition stored2 : TFBS :=
  mkTFBS "chr1" 6 12 "CTCF" 7 "+"
         [Str "chr1"; Int 5; Int 15; Float (1 / 2); Fmt5 1].

(** The temporary file of a motif with two overlapping occurrences, found
    in one peak: chr1:15-25 and chr1:10-20, with signal scores for WT and
    KO. *)
Definition occurrences : list Stats.file_row :=
  [Stats.mkFileRow "chr1" 15 25 "CTCF" 9 "+" "chr1" 0 100 [] (1 / 2) [1 / 5; 1 / 2];
   Stats.mkFileRow "chr1" 10 20 "CTCF" 8 "+" "chr1" 0 100 [] (1 / 2) [1 / 2; 1 / 5]].

(** A table of one occurrence with the scores 2 for WT and 0 for KO. *)
Definition fold_table : list Stats.bed_row :=
  map (Stats.name_columns ["WT"; "KO"])
      [Stats.mkFileRow "chr1" 10 20 "CTCF" 8 "+" "chr1" 0 100 [] (1 / 2) [2; 0]].

(** A table of one occurrence with the same score, 1, in WT and KO, and
    background fits that are mirrored for the two directions of the
    comparison. *)
Definition even_table : list Stats.bed_row :=
  map (Stats.name_columns ["WT"; "KO"])
      [Stats.mkFileRow "chr1" 10 20 "CTCF" 8 "+" "chr1" 0 100 [] (1 / 2) [1; 1]].

Definition mirrored_params : Stats.params :=
  [(("WT", "KO"), (1, 2)); (("KO", "WT"), (- (1), 2))].

(** A table of four occurrences in two peaks: two occurrences of the peak
    chr1:0-100, with scores in one or both conditions, and two of the peak
    chr1:200-300, of which the first has no score in either condition. *)
Definition peak_rows : list Stats.file_row :=
  [Stats.mkFileRow "chr1" 10 20 "CTCF" 8 "+" "chr1" 0 100 [] (1 / 2) [2; 0];
   Stats.mkFileRow "chr1" 30 40 "CTCF" 9 "-" "chr1" 0 100 [] (1 / 2) [1; 3];
   Stats.mkFileRow "chr1" 210 220 "CTCF" 7 "+" "chr1" 200 300 [] (2 / 5) [0; 0];
   Stats.mkFileRow "chr1" 250 260 "CTCF" 8 "+" "chr1" 200 300 [] (2 / 5) [3; 1]].

Definition peak_table : list Stats.bed_row :=
  map (Stats.name_columns ["WT"; "KO"]) peak_rows.

End Example.


(** * The other functions

    [get_gc_content] and the data of the figure that [plot_bindetect]
    draws, from the same module, and [find_version] from [setup.py]. *)

(** ** [get_gc_content] *)

Module Gc.

Local Open Scope R_scope.

(** What a call raises: the division by a total length of zero, or the
    exception of [fasta_obj.fetch]. *)
Inductive error : Type :=
| ZeroDivisionError
| FetchError (e : Py.exn).

Inductive outcome : Type :=
| Returns (gc_content : R)
| Raises (e : error).

(** [d.get(k, default)] on a dictionary with character keys. *)
Fixpoint get {V : Type} (d : list (ascii * V)) (k : ascii) (default : V) : V :=
  match d with
  | [] => default
  | (k', v) :: t => if Ascii.eqb k' k then v else get t k default
  end.

Definition nuc_count : list (ascii * R) :=
  [("T"%char, 0); ("t"%char, 0); ("A"%char, 0); ("a"%char, 0);
   ("G"%char, 1); ("g"%char, 1); ("C"%char, 1); ("c"%char, 1)].

(** [sum([nuc_count.get(nuc, 0.5) for nuc in seq])] *)
Definition seq_gc (seq : string) : R :=
  Np.sum (map (fun nuc => get nuc_count nuc (1 / 2)) (list_ascii_of_string seq)).

(** [fasta_obj.fetch(chrom, start, end)] of the opened genome. *)
Definition fetch_t : Type := string -> Z -> Z -> Py.result string.

(** The body of the loop over the regions, on the pair [(gc, total)]. *)
Definition add_region (fetch : fetch_t) (s : R * Z) (region : OneRegion)
  : Py.result (R * Z) :=
  let '(gc, total) := s in
  seq <- fetch (chrom region) (start region) (end_ region) ;;
  Py.Ok (gc + seq_gc seq, (total + (end_ region - start region))%Z).

(** [get_gc_content(regions, fasta)], with the genome opened as [fetch]. *)
Definition get_gc_content (fetch : fetch_t) (regions : list OneRegion) : outcome :=
  match Py.for_each regions (add_region fetch) (0, 0%Z) with
  | Py.Raise e => Raises (FetchError e)
  | Py.Ok (gc, total) =>
      if (total =? 0)%Z then Raises ZeroDivisionError
      else Returns (gc / IZR total)
  end.

End Gc.

(** ** [plot_bindetect]: which motifs the volcano plot labels and colours

    The model covers the data of the figure: "Link information from motifs /
    clusters", "Define the TFs to plot IDs for" and "Color points and set
    labels in volcano".  The drawing calls between them are matplotlib's. *)

Module Plot.

Local Open Scope R_scope.

(** A motif of the list, as far as the plot reads it. *)
Record motif : Type := mkMotif {
  name : string;
  alt_name : string;
  id : string;
  change : R;
  pvalue : R
}.

(** The dictionary [diff_scores[TF]].  The keys ["show"] and ["color"] are
    set by the loop over the motifs; [None] is a key that is not set. *)
Record entry : Type := mkEntry {
  e_change : R;
  e_pvalue : R;
  log10pvalue : R;
  volcano_label : string;
  overview_label : string;
  show : option bool;
  color : option string
}.

(** [np.log10] *)
Definition log10 (x : R) : R := ln x / ln 10.

(** The float literals [1e-308] and [1e-300] are the reals they denote. *)
Definition smallest : R := / 10 ^ 308.

Definition y_cutoff : R := - log10 (/ 10 ^ 300).

Definition link_motif (m : motif) : entry :=
  mkEntry (change m) (pvalue m)
          (if Np.gtb (pvalue m) 0 then - log10 (pvalue m) else - log10 smallest)
          (alt_name m)
          (alt_name m ++ " (" ++ id m ++ ")")%string
          None None.

(** "Link information from motifs / clusters" *)
Definition link (motifs : list motif) : Py.dict entry :=
  fold_left (fun diff_scores m => Py.dict_set diff_scores (name m) (link_motif m))
            motifs [].

(** [np.percentile(a, q)] *)
Definition percentile_t : Type := list R -> R -> R.

Definition xvalues (diff_scores : Py.dict entry) : list R :=
  map (fun kv => e_change (snd kv)) diff_scores.

Definition yvalues (diff_scores : Py.dict entry) : list R :=
  map (fun kv => log10pvalue (snd kv)) diff_scores.

Definition y_min (percentile : percentile_t) (diff_scores : Py.dict entry) : R :=
  percentile (filter (fun y => Np.gtb y_cutoff y) (yvalues diff_scores)) 95.

Definition x_min (percentile : percentile_t) (diff_scores : Py.dict entry) : R :=
  percentile (xvalues diff_scores) 5.

Definition x_max (percentile : percentile_t) (diff_scores : Py.dict entry) : R :=
  percentile (xvalues diff_scores) 95.

Definition set_show (e : entry) (b : bool) : entry :=
  mkEntry (e_change e) (e_pvalue e) (log10pvalue e) (volcano_label e)
          (overview_label e) (Some b) (color e).

Definition set_color (e : entry) (c : string) : entry :=
  mkEntry (e_change e) (e_pvalue e) (log10pvalue e) (volcano_label e)
          (overview_label e) (show e) (Some c).

(** The body of the loop "for TF in diff_scores": outside the band of the
    changes or above the p-value line a motif is shown, and coloured by the
    sign of its change. *)
Definition decide_show (xmin xmax ymin : R) (e : entry) : entry :=
  if Np.gtb xmin (e_change e) || Np.gtb (e_change e) xmax
     || Np.gtb (log10pvalue e) ymin
  then
    let e := set_show e true in
    if Np.gtb 0 (e_change e) then set_color e "blue"
    else if Np.gtb (e_change e) 0 then set_color e "red"
    else e
  else set_color (set_show e false) "black".

(** "Define the TFs to plot IDs for" *)
Definition define_shown (percentile : percentile_t) (diff_scores : Py.dict entry)
  : Py.dict entry :=
  let ymin := y_min percentile diff_scores in
  let xmin := x_min percentile diff_scores in
  let xmax := x_max percentile diff_scores in
  map (fun kv => (fst kv, decide_show xmin xmax ymin (snd kv))) diff_scores.

(** What the last loop draws on the volcano plot: a point
    [ax1.scatter(x, y, color=...)] per motif, and a text
    [ax1.text(x, y, label)] per motif that is shown. *)
Record volcano : Type := mkVolcano {
  points : list (R * R * string);
  txts : list (R * R * string)
}.

(** [d[k]] for a key that may not be set. *)
Definition key {A : Type} (field : option A) : Py.result A :=
  match field with
  | Some a => Py.Ok a
  | None => Py.Raise Py.KeyError
  end.

(** The body of the last loop. *)
Definition color_point (v : volcano) (kv : string * entry) : Py.result volcano :=
  let e := snd kv in
  c <- key (color e) ;;
  let pts := points v ++ [(e_change e, log10pvalue e, c)] in
  s <- key (show e) ;;
  Py.Ok (mkVolcano pts
           (if s then txts v ++ [(e_change e, log10pvalue e, volcano_label e)]
            else txts v)).

(** "Color points and set labels in volcano" *)
Definition color_points (diff_scores : Py.dict entry) : Py.result volcano :=
  Py.for_each diff_scores color_point (mkVolcano [] []).

(** The volcano plot of [plot_bindetect(motifs, clusters, conditions, args)]. *)
Definition plot_bindetect (percentile : percentile_t) (motifs : list motif)
  : Py.result volcano :=
  color_points (define_shown percentile (link motifs)).

End Plot.

(** ** [setup.py]: [find_version] *)

Module Setup.

Definition squote : ascii := "'"%char.
Definition dquote : ascii := "034"%char.
Definition newline : ascii := "010"%char.

(** The character class of the two quote characters. *)
Definition is_quote (c : ascii) : bool := Ascii.eqb c squote || Ascii.eqb c dquote.

(** [s] without the literal [p] at its front, when it starts with it. *)
Fixpoint strip_prefix (p s : string) : option string :=
  match p with
  | EmptyString => Some s
  | String a p' =>
      match s with
      | EmptyString => None
      | String b s' => if Ascii.eqb a b then strip_prefix p' s' else None
      end
  end.

(** The group of the pattern and the quote that closes it: the group is the
    longest run of characters that are not quotes, and it has to be followed
    by a quote.  A run that reaches the end of the text gives no match, and
    neither does a shorter run, which is followed by a character that is not
    a quote. *)
Fixpoint until_quote (s : string) : option string :=
  match s with
  | EmptyString => None
  | String c t =>
      if is_quote c then Some EmptyString
      else match until_quote t with
           | Some v => Some (String c v)
           | None => None
           end
  end.

(** The literal at the front of the pattern. *)
Definition version_literal : string := "__version__ = ".

(** The pattern without its anchor, matched at the front of [s]: the group
    of the match. *)
Definition match_here (s : string) : option string :=
  match strip_prefix version_literal s with
  | Some (String q rest) => if is_quote q then until_quote rest else None
  | _ => None
  end.

(** [re.search(pattern, s, re.M)]: the first position, from the left, where
    the pattern matches.  The anchor holds at the start of the text and
    after every newline; [bol] tells whether it holds at the front of [s]. *)
Fixpoint search (bol : bool) (s : string) : option string :=
  match (if bol then match_here s else None) with
  | Some v => Some v
  | None =>
      match s with
      | EmptyString => None
      | String c t => search (Ascii.eqb c newline) t
      end
  end.

Inductive error : Type :=
| RuntimeError
| OpenError (e : Py.exn).

Inductive outcome : Type :=
| Returns (version : string)
| Raises (e : error).

(** [find_version(init_file)], where [read path] is [open(path).read()]. *)
Definition find_version (read : string -> Py.result string) (init_file : string)
  : outcome :=
  match read init_file with
  | Py.Raise e => Raises (OpenError e)
  | Py.Ok version_file =>
      match search true version_file with
      | Some version => Returns version
      | None => Raises RuntimeError
      end
  end.

End Setup.

(** *** Notions used to state what [get_gc_content] computes *)

(** The sequences of the regions, in order. *)
Definition fetched (fetch : Gc.fetch_t) (regions : list OneRegion)
  : Py.result (list string) :=
  Py.traverse (fun region => fetch (chrom region) (start region) (end_ region))
              regions.

(** The summed length of the regions. *)
Definition span (regions : list OneRegion) : Z :=
  fold_right (fun region n => (end_ region - start region + n)%Z) 0%Z regions.

(** The GC count of a list of sequences. *)
Definition gc_of (seqs : list string) : R := Np.sum (map Gc.seq_gc seqs).

(** A sequence in lower case, as in a soft-masked genome. *)
Definition lower_char (c : ascii) : ascii :=
  let n := nat_of_ascii c in
  if (65 <=? n)%nat && (n <=? 90)%nat then ascii_of_nat (n + 32) else c.

Fixpoint lower (s : string) : string :=
  match s with
  | EmptyString => EmptyString
  | String c t => String (lower_char c) (lower t)
  end.

(** ** More inputs used in examples *)

Module GcExample.

(** A genome of one chromosome, chr1. *)
Definition chr1 : string := "ACGTNNggcc".

Definition fetch : Gc.fetch_t :=
  fun chrom start end_ =>
    if String.eqb chrom "chr1"
    then Py.Ok (String.substring (Z.to_nat start) (Z.to_nat (end_ - start)) chr1)
    else Py.Raise Py.KeyError.

Definition first_four : OneRegion := mkRegion "chr1" 0 4 [].
Definition last_four : OneRegion := mkRegion "chr1" 6 10 [].
Definition nothing : OneRegion := mkRegion "chr1" 3 3 [].

End GcExample.

(** *** Notions used to state what the volcano plot shows *)

(** Whether a motif is shown, and the colour of its point, for the
    thresholds [xmin], [xmax] and [ymin]. *)
Definition shown (xmin xmax ymin : R) (m : Plot.motif) : bool :=
  Np.gtb xmin (Plot.change m) || Np.gtb (Plot.change m) xmax
  || Np.gtb (Plot.log10pvalue (Plot.link_motif m)) ymin.

Definition colour_of (xmin xmax ymin : R) (m : Plot.motif) : string :=
  if shown xmin xmax ymin m
  then if Np.gtb 0 (Plot.change m) then "blue" else "red"
  else "black".

Definition point_of (xmin xmax ymin : R) (m : Plot.motif) : R * R * string :=
  (Plot.change m, Plot.log10pvalue (Plot.link_motif m), colour_of xmin xmax ymin m).

Definition text_of (m : Plot.motif) : R * R * string :=
  (Plot.change m, Plot.log10pvalue (Plot.link_motif m), Plot.alt_name m).

Module PlotExample.

Local Open Scope R_scope.

(** A stand-in for [np.percentile]: the q-th percentile is q / 100. *)
Definition percentile : Plot.percentile_t := fun _ q => q / 100.

Definition unchanged : Plot.motif := Plot.mkMotif "CTCF" "CTCF" "MA0139.1" 0 1.
Definition up : Plot.motif := Plot.mkMotif "SP1" "SP1" "MA0079.3" 1 1.
Definition down : Plot.motif := Plot.mkMotif "KLF4" "KLF4" "MA0039.2" (- (1)) 1.

(** A motif whose p-value has underflowed to zero. *)
Definition underflow : Plot.motif := Plot.mkMotif "REST" "REST" "MA0138.2" 2 0.

End PlotExample.

(** *** Notions used to state what [find_version] finds *)

(** No character of [s] satisfies [p]. *)
Fixpoint no_char (p : ascii -> bool) (s : string) : bool :=
  match s with
  | EmptyString => true
  | String c t => negb (p c) && no_char p t
  end.

(** A text without quotes; a text without a newline. *)
Definition quote_free (s : string) : bool := no_char Setup.is_quote s.

Definition one_line (s : string) : bool :=
  no_char (fun c => Ascii.eqb c Setup.newline) s.

(** A line that does not start with the literal of the pattern. *)
Definition plain_line (l : string) : Prop :=
  one_line l = true /\ Setup.strip_prefix Setup.version_literal l = None.

(** The text of a list of lines, each ended by a newline. *)
Fixpoint unlines (lines : list string) : string :=
  match lines with
  | [] => EmptyString
  | l :: t => (l ++ String Setup.newline (unlines t))%string
  end.

(** The assignment [__version__ = <q1>v<q2>] followed by [rest]. *)
Definition version_assignment (q1 : ascii) (v : string) (q2 : ascii) (rest : string)
  : string :=
  (Setup.version_literal ++ String q1 (v ++ String q2 rest))%string.

(** [pre] is empty or ends with a newline: a line starts after it. *)
Definition ends_line (pre : string) : Prop :=
  pre = EmptyString \/ exists p, pre = (p ++ String Setup.newline EmptyString)%string.

Module SetupExample.

(** A package file that assigns the version 0.5.1 on its third line, and
    one without a version. *)
Definition init_py : string :=
  (unlines ["# TOBIAS"; "import os"]
   ++ version_assignment Setup.dquote "0.5.1" Setup.dquote
                         (String Setup.newline EmptyString))%string.

Definition empty_init_py : string := (unlines ["# TOBIAS"] ++ "import os")%string.

Definition read : string -> Py.result string :=
  fun path =>
    if String.eqb path "tobias/__init__.py" then Py.Ok init_py
    else if String.eqb path "other/__init__.py" then Py.Ok empty_init_py
    else Py.Raise Py.OSError.

End SetupExample.

Module ScanExample.

Local Open Scope R_scope.

(** An empty region, and a scan in which the track of KO cannot be read:
    with a scanner that finds a site in every region, and with one that
    finds none. *)
Definition empty_peak : OneRegion := mkRegion "chr1" 5 5 [].

Definition unread_env (sites : list TFBS) : Scan.scan_env :=
  Scan.mkScanEnv
    ["WT"; "KO"]
    (fun condition region =>
       if String.eqb condition "KO" then Py.Raise Py.OSError
       else Py.Ok (repeat (Some 1) (Z.to_nat (get_length region))))
    (fun region => repeat (1 / 2) (Z.to_nat (get_length region)))
    ["CTCF"]
    (fun _ => sites)
    (fun sites => sites)
    (fun sites => List.length sites).

End ScanExample.

(** *** Notions used to state what a scan logs and samples *)

(** The conditions whose track cannot be read in a region, in the order of
    the conditions. *)
Definition unread (env : Scan.scan_env) (region : OneRegion) : list string :=
  filter (fun condition =>
            negb (Py.is_ok (Scan.bigwig_values env condition region)))
         (Scan.cond_names env).

(** The number of positions sampled in a region: one in every 500 bp, at
    least one. *)
Definition no_samples (region : OneRegion) : Z :=
  Z.max 1 (Py.int_div (get_length region) Scan.rand_window).

(** The position of the middle of a site in its region:
    [TFBS.start - region.start + int(motif_length / 2.0)]. *)
Definition site_middle (region : OneRegion) (t : TFBS) : Z :=
  tfbs_start t - start region + Py.int_div (tfbs_end t - tfbs_start t) 2.

Module StatsExample.

Local Open Scope R_scope.

(** A file system that holds the temporary file of every motif, with the
    two occurrences of [Example.occurrences], and on which every write and
    removal succeeds. *)
Definition files : Stats.filesystem :=
  Stats.mkFilesystem (fun _ => Py.Ok Example.occurrences)
                     (fun _ => true) (fun _ => true) (fun _ => true).

(** Arguments without conditions. *)
Definition no_conditions : Stats.Args := Stats.mkArgs "out" [] [] [] 1 None.

(** The background fit of the comparison of WT with KO. *)
Definition background : Stats.params := [(("WT", "KO"), (0, 1))].

End StatsExample.

(** The last character of a text. *)
Fixpoint last_char (s : string) : option ascii :=
  match s with
  | EmptyString => None
  | String c EmptyString => Some c
  | String _ t => last_char t
  end.

(** The value of a result, or [default] when it is an exception. *)
Definition result_value {A : Type} (default : A) (m : Py.result A) : A :=
  match m with
  | Py.Ok a => a
  | Py.Raise _ => default
  end.

(** The value a computation returns, or [default] when it raises. *)
Definition returned {A : Type} (default : A) (m : Stats.io A) : A :=
  match snd m with
  | Py.Ok a => a
  | Py.Raise _ => default
  end.

(** ** Inputs of the loop over the comparisons *)

Module ComparisonExample.

Local Open Scope R_scope.

(** The column names of a table with three peak columns and the conditions
    WT and KO. *)
Definition header : list string :=
  tfbs_columns ++ peak_columns 3 ++ ["GC"] ++ score_columns ["WT"; "KO"].

(** The overview row before the loop over the comparisons. *)
Definition info_table : Py.dict R :=
  map (fun c => (c, 0)) (Stats.info_columns Example.args).

(** The occurrence found in the [i]-th of a series of peaks of 100 bases on
    chr1, with the score 1 in WT and in KO. *)
Definition peak_row (i : nat) : Stats.bed_row :=
  Stats.name_columns ["WT"; "KO"]
    (Stats.mkFileRow "chr1" (100 * Z.of_nat i + 10) (100 * Z.of_nat i + 20)
                     "CTCF" 8 "+"
                     "chr1" (100 * Z.of_nat i) (100 * Z.of_nat i + 100) []
                     (1 / 2) [1; 1]).

(** A table with one occurrence in each of [n] peaks. *)
Definition peaks_table (n : nat) : list Stats.bed_row := map peak_row (seq 0 n).

(** The number of peaks of a table that exceeds the cap on the number of
    observations by one. *)
Definition above_cap : nat := Z.to_nat (Stats.obs_cap + 1).

(** Arguments with a peak header that names the three columns of the peak
    chr, start and end. *)
Definition renamed_args : Stats.Args :=
  Stats.mkArgs "out" ["WT"; "KO"] [("WT", "KO")]
               [("WT", 3 / 10); ("KO", 3 / 10)] 1 (Some ["chr"; "start"; "end"]).

End ComparisonExample.

(** * Properties *)

Unset Implicit Arguments.

(** ** Column names *)

Example set_header_bed3 :
  set_header 12 None ["WT"; "KO"]
  = Py.Ok (tfbs_columns ++ ["peak_chr"; "peak_start"; "peak_end"]
             ++ ["GC"; "WT_score"; "KO_score"]).
Proof. reflexivity. Qed.

Example set_header_bed5 :
  set_header 13 None ["WT"]
  = Py.Ok (tfbs_columns
             ++ ["peak_chr"; "peak_start"; "peak_end"; "additional_1"; "additional_2"]
             ++ ["GC"; "WT_score"]).
Proof. reflexivity. Qed.

Example set_header_too_narrow : set_header 8 None ["WT"] = Py.Raise Py.ValueError.
Proof. reflexivity. Qed.

Lemma len_app {A : Type} (l1 l2 : list A) : Py.len (l1 ++ l2) = Py.len l1 + Py.len l2.
Proof. unfold Py.len. rewrite length_app. lia. Qed.

Lemma len_nonneg {A : Type} (l : list A) : 0 <= Py.len l.
Proof. unfold Py.len. lia. Qed.

Lemma range_of_nat (k : nat) : Py.range (Z.of_nat k) = map Z.of_nat (seq 0 k).
Proof. unfold Py.range. now rewrite Nat2Z.id. Qed.

Lemma range_succ (k : nat) :
  Py.range (Z.of_nat (S k)) = Py.range (Z.of_nat k) ++ [Z.of_nat k].
Proof. rewrite !range_of_nat, seq_S, map_app. reflexivity. Qed.

Lemma range_length (k : nat) : List.length (Py.range (Z.of_nat k)) = k.
Proof. rewrite range_of_nat, length_map, length_seq. reflexivity. Qed.

Lemma range_firstn (k j : nat) :
  firstn k (Py.range (Z.of_nat (k + j))) = Py.range (Z.of_nat k).
Proof.
  rewrite !range_of_nat, seq_app, map_app, firstn_app.
  rewrite length_map, length_seq, Nat.sub_diag, firstn_O, app_nil_r.
  apply firstn_all2. rewrite length_map, length_seq. lia.
Qed.

Lemma update_middle {A : Type} (l1 l2 : list A) (x v : A) :
  Py.update (l1 ++ x :: l2) (List.length l1) v = l1 ++ v :: l2.
Proof. induction l1 as [|h t IH]; simpl; [reflexivity | now rewrite IH]. Qed.

Lemma update_length {A : Type} (l : list A) (k : nat) (v : A) :
  List.length (Py.update l k v) = List.length l.
Proof.
  revert k; induction l as [|h t IH]; intros [|k]; simpl; auto.
Qed.

(** Slices of a list that is given as a concatenation. *)
Lemma slice_assign_prefix {A : Type} (l1 l2 rhs : list A) :
  Py.slice_assign (l1 ++ l2) None (Some (Py.len l1)) rhs = rhs ++ l2.
Proof.
  unfold Py.slice_assign, Py.slice_start, Py.slice_stop, Py.clamp.
  rewrite len_app. pose proof (len_nonneg l1). pose proof (len_nonneg l2).
  destruct (Z.ltb_spec (Py.len l1) 0); [lia|].
  rewrite Z.min_l, Z.max_r by lia.
  change (Z.to_nat 0) with 0%nat. simpl firstn. simpl app.
  unfold Py.len. rewrite Nat2Z.id, skipn_app, skipn_all, Nat.sub_diag.
  reflexivity.
Qed.

Lemma slice_suffix {A : Type} (l1 l2 : list A) :
  Py.slice (l1 ++ l2) (Some (Py.len l1)) None = l2.
Proof.
  unfold Py.slice, Py.slice_start, Py.slice_stop, Py.clamp.
  rewrite len_app. pose proof (len_nonneg l1). pose proof (len_nonneg l2).
  destruct (Z.ltb_spec (Py.len l1) 0); [lia|].
  rewrite Z.min_l, Z.max_r by lia.
  replace (Py.len l1 + Py.len l2 - Py.len l1) with (Py.len l2) by lia.
  unfold Py.len. rewrite !Nat2Z.id, skipn_app, skipn_all, Nat.sub_diag.
  simpl. apply firstn_all.
Qed.

Lemma slice_assign_suffix {A : Type} (l1 l2 rhs : list A) :
  Py.slice_assign (l1 ++ l2) (Some (Py.len l1)) (Some (Py.len l1 + Py.len l2)) rhs
  = l1 ++ rhs.
Proof.
  unfold Py.slice_assign, Py.slice_start, Py.slice_stop, Py.clamp.
  rewrite len_app. pose proof (len_nonneg l1). pose proof (len_nonneg l2).
  destruct (Z.ltb_spec (Py.len l1) 0); [lia|].
  destruct (Z.ltb_spec (Py.len l1 + Py.len l2) 0); [lia|].
  rewrite !Z.min_l, Z.max_r by lia.
  rewrite <- len_app. unfold Py.len. rewrite !Nat2Z.id.
  rewrite skipn_all, app_nil_r, firstn_app, firstn_all, Nat.sub_diag.
  simpl. now rewrite app_nil_r.
Qed.

Lemma slice_assign_last {A : Type} (l1 l2 rhs : list A) :
  l2 <> [] ->
  Py.slice_assign (l1 ++ l2) (Some (- Py.len l2)) None rhs = l1 ++ rhs.
Proof.
  intros Hne.
  assert (0 < Py.len l2) by (destruct l2; [congruence | unfold Py.len; simpl; lia]).
  unfold Py.slice_assign, Py.slice_start, Py.slice_stop, Py.clamp.
  rewrite len_app. pose proof (len_nonneg l1).
  destruct (Z.ltb_spec (- Py.len l2) 0); [|lia].
  replace (- Py.len l2 + (Py.len l1 + Py.len l2)) with (Py.len l1) by lia.
  rewrite !Z.max_l by lia. rewrite Z.max_r by lia.
  rewrite <- len_app. unfold Py.len. rewrite !Nat2Z.id.
  rewrite skipn_all, app_nil_r, firstn_app, firstn_all, Nat.sub_diag.
  simpl. now rewrite app_nil_r.
Qed.

Lemma setitem_from_end {A : Type} (l1 l2 : list A) (x v : A) :
  Py.setitem (l1 ++ x :: l2) (- Py.len l2 - 1) v = Py.Ok (l1 ++ v :: l2).
Proof.
  unfold Py.setitem, Py.index. rewrite len_app.
  pose proof (len_nonneg l1). pose proof (len_nonneg l2).
  assert (Hx : Py.len (x :: l2) = Py.len l2 + 1) by (unfold Py.len; simpl; lia).
  rewrite Hx.
  destruct (Z.ltb_spec (- Py.len l2 - 1) 0); [|lia].
  replace (- Py.len l2 - 1 + (Py.len l1 + (Py.len l2 + 1))) with (Py.len l1) by lia.
  destruct (Z.leb_spec 0 (Py.len l1)); [|lia].
  destruct (Z.ltb_spec (Py.len l1) (Py.len l1 + (Py.len l2 + 1))); [|lia].
  simpl. unfold Py.len. now rewrite Nat2Z.id, update_middle.
Qed.

(** The header of a table that has the six occurrence columns, [3 + q] peak
    columns, the GC column and one score column per condition. *)
Lemma set_header_nat (q : nat) (c0 : string) (cs : list string) :
  set_header (6 + (3 + Z.of_nat q) + 1 + Py.len (c0 :: cs)) None (c0 :: cs)
  = Py.Ok (tfbs_columns ++ peak_columns (3 + Z.of_nat q) ++ ["GC"]
             ++ score_columns (c0 :: cs)).
Proof.
  set (conds := c0 :: cs).
  set (m := List.length conds).
  assert (Hc : Py.len conds = Z.of_nat m) by reflexivity.
  assert (Hs : Py.len (score_columns conds) = Z.of_nat m).
  { unfold Py.len, score_columns. now rewrite length_map. }
  unfold set_header.
  set (n := 6 + (3 + Z.of_nat q) + 1 + Py.len conds).
  set (k := (3 + (S q + m))%nat).
  assert (Hn : Z.to_nat n = (6 + k)%nat) by lia.
  rewrite Hn, repeat_app.
  (* header[:6] *)
  rewrite (slice_assign_prefix (repeat "" 6) (repeat "" k) tfbs_columns
           : Py.slice_assign _ None (Some 6) _ = _).
  (* the peak names *)
  rewrite (slice_suffix tfbs_columns (repeat "" k)
           : Py.slice _ (Some 6) None = _).
  assert (Hk : Py.len (repeat "" k) = Z.of_nat k).
  { unfold Py.len. now rewrite repeat_length. }
  rewrite Hk.
  rewrite <- Hk at 1.
  rewrite (slice_assign_suffix tfbs_columns (repeat "" k) _
           : Py.slice_assign _ (Some 6) (Some (6 + _)) _ = _).
  replace (Z.of_nat k - 3) with (Z.of_nat (S q + m)) by lia.
  (* header[-no_cond:] *)
  rewrite range_of_nat, seq_app, map_app, map_app, <- !range_of_nat.
  rewrite range_succ, map_app.
  set (tail := map additional (map Z.of_nat (seq (0 + S q) m))).
  assert (Ht : Py.len tail = Z.of_nat m).
  { unfold Py.len, tail. now rewrite !length_map, length_seq. }
  rewrite <- Ht in Hc. rewrite Hc.
  replace (tfbs_columns ++ ["peak_chr"; "peak_start"; "peak_end"]
             ++ (map additional (Py.range (Z.of_nat q))
                   ++ map additional [Z.of_nat q]) ++ tail)
    with ((tfbs_columns ++ ["peak_chr"; "peak_start"; "peak_end"]
             ++ map additional (Py.range (Z.of_nat q))
             ++ map additional [Z.of_nat q]) ++ tail)
    by (now rewrite <- !app_assoc).
  rewrite slice_assign_last by (unfold tail, m, conds; simpl; congruence).
  (* header[-no_cond-1] = "GC" *)
  rewrite Ht, <- Hs.
  replace ((tfbs_columns ++ ["peak_chr"; "peak_start"; "peak_end"]
              ++ map additional (Py.range (Z.of_nat q))
              ++ map additional [Z.of_nat q]) ++ score_columns conds)
    with ((tfbs_columns ++ ["peak_chr"; "peak_start"; "peak_end"]
              ++ map additional (Py.range (Z.of_nat q)))
            ++ additional (Z.of_nat q) :: score_columns conds)
    by (now rewrite <- !app_assoc).
  rewrite setitem_from_end. cbn [Py.bind].
  replace (Py.len _ =? n) with true.
  - unfold peak_columns.
    replace (3 + Z.of_nat q - 3) with (Z.of_nat q) by lia.
    now rewrite <- !app_assoc.
  - symmetry. apply Z.eqb_eq.
    rewrite !len_app. unfold Py.len at 1 2 3.
    rewrite length_map, range_length.
    replace (Py.len ("GC" :: score_columns conds)) with (1 + Z.of_nat m)
      by (rewrite <- Hs; unfold Py.len; simpl List.length; lia).
    simpl List.length. unfold n. rewrite <- Ht in *. lia.
Qed.

(** C10.  When no peak header is supplied, a table with the six occurrence
    columns, [p >= 3] peak columns, the GC column and one score column per
    condition gets the names TFBS_chr .. TFBS_strand, then peak_chr,
    peak_start, peak_end, additional_1 .. additional_(p-3), then GC, then
    <condition>_score for each condition in order. *)
Theorem header_without_peak_header (p : Z) (cond_names : list string) :
  3 <= p ->
  cond_names <> [] ->
  set_header (6 + p + 1 + Py.len cond_names) None cond_names
  = Py.Ok (["TFBS_chr"; "TFBS_start"; "TFBS_end"; "TFBS_name"; "TFBS_score";
            "TFBS_strand"]
             ++ (["peak_chr"; "peak_start"; "peak_end"]
                   ++ map (fun num => ("additional_" ++ Py.str (num + 1))%string)
                          (Py.range (p - 3)))
             ++ ["GC"]
             ++ map (fun condition => (condition ++ "_score")%string) cond_names).
Proof.
  intros Hp Hne.
  destruct cond_names as [|c0 cs]; [congruence|].
  replace p with (3 + Z.of_nat (Z.to_nat (p - 3))) by lia.
  apply set_header_nat.
Qed.

Lemma header_without_peak_header_witness :
  set_header (6 + 5 + 1 + Py.len ["WT"; "KO"]) None ["WT"; "KO"]
  = Py.Ok (["TFBS_chr"; "TFBS_start"; "TFBS_end"; "TFBS_name"; "TFBS_score";
            "TFBS_strand"]
             ++ (["peak_chr"; "peak_start"; "peak_end"]
                   ++ map (fun num => ("additional_" ++ Py.str (num + 1))%string)
                          (Py.range (5 - 3)))
             ++ ["GC"]
             ++ map (fun condition => (condition ++ "_score")%string) ["WT"; "KO"]).
Proof.
  apply (header_without_peak_header 5 ["WT"; "KO"]); [lia | discriminate].
Defined.

Example additional_names :
  map (fun num => ("additional_" ++ Py.str (num + 1))%string) (Py.range (5 - 3))
  = ["additional_1"; "additional_2"].
Proof. reflexivity. Qed.

(** ** Rounding *)

Section Rounding.

Local Open Scope R_scope.

Lemma floor_spec (x : R) : IZR (up x - 1) <= x < IZR (up x - 1) + 1.
Proof.
  destruct (archimed x) as [H1 H2]. rewrite minus_IZR. lra.
Qed.

Lemma floor_unique (x : R) (z : Z) : IZR z <= x < IZR z + 1 -> (up x - 1)%Z = z.
Proof.
  intros [H1 H2].
  assert (H : (z + 1)%Z = up x).
  { apply tech_up; rewrite plus_IZR; lra. }
  lia.
Qed.

Lemma rint_IZR (n : Z) : Np.rint (IZR n) = n.
Proof.
  unfold Np.rint.
  rewrite (floor_unique (IZR n) n) by lra.
  destruct (Rlt_dec (IZR n - IZR n) (1 / 2)); [reflexivity | lra].
Qed.

Lemma rint_opp (x : R) : Np.rint (- x) = (- Np.rint x)%Z.
Proof.
  unfold Np.rint.
  pose proof (floor_spec x) as Hx.
  set (f := (up x - 1)%Z) in *.
  destruct (Req_dec (x - IZR f) 0) as [Hint | Hfrac].
  - (* x is an integer *)
    rewrite (floor_unique (- x) (- f)) by (rewrite opp_IZR; lra).
    rewrite opp_IZR.
    destruct (Rlt_dec (- x - - IZR f) (1 / 2)); [|lra].
    destruct (Rlt_dec (x - IZR f) (1 / 2)); [reflexivity | lra].
  - rewrite (floor_unique (- x) (- f - 1)) by (rewrite minus_IZR, opp_IZR; lra).
    rewrite minus_IZR, opp_IZR.
    destruct (Rlt_dec (x - IZR f) (1 / 2)) as [Hlo | Hlo].
    + destruct (Rlt_dec (- x - (- IZR f - 1)) (1 / 2)); [lra|].
      destruct (Rlt_dec (1 / 2) (- x - (- IZR f - 1))); [lia | lra].
    + destruct (Rlt_dec (1 / 2) (x - IZR f)) as [Hhi | Hhi].
      * destruct (Rlt_dec (- x - (- IZR f - 1)) (1 / 2)); [lia | lra].
      * destruct (Rlt_dec (- x - (- IZR f - 1)) (1 / 2)); [lra|].
        destruct (Rlt_dec (1 / 2) (- x - (- IZR f - 1))); [lra|].
        replace (- f - 1)%Z with (- Z.succ f)%Z by lia.
        rewrite Z.even_opp, Z.even_succ, <- Z.negb_even.
        destruct (Z.even f); simpl; lia.
Qed.

Lemma pow10_pos (d : nat) : 0 < 10 ^ d.
Proof. apply pow_lt. lra. Qed.

(** Rounding commutes with negation: ties go to the even neighbour on
    both sides of zero. *)
Lemma round_opp (x : R) (d : nat) : Np.round (- x) d = - Np.round x d.
Proof.
  unfold Np.round.
  replace (- x * 10 ^ d) with (- (x * 10 ^ d)) by ring.
  rewrite rint_opp, opp_IZR. field.
  pose proof (pow10_pos d). lra.
Qed.

(** A number with at most [d] decimals is a fixed point of rounding. *)
Lemma round_decimal (n : Z) (d : nat) : Np.round (IZR n / 10 ^ d) d = IZR n / 10 ^ d.
Proof.
  unfold Np.round.
  replace (IZR n / 10 ^ d * 10 ^ d) with (IZR n)
    by (field; pose proof (pow10_pos d); lra).
  now rewrite rint_IZR.
Qed.

Lemma round_IZR (n : Z) (d : nat) : Np.round (IZR n) d = IZR n.
Proof.
  unfold Np.round.
  replace (10 ^ d) with (IZR (10 ^ Z.of_nat d)).
  - rewrite <- mult_IZR, rint_IZR, mult_IZR. field.
    apply not_0_IZR. apply Z.pow_nonzero; lia.
  - rewrite <- pow_IZR. reflexivity.
Qed.

(** A rounded value has at most [d] decimals. *)
Lemma round_is_decimal (x : R) (d : nat) :
  exists n : Z, Np.round x d * 10 ^ d = IZR n.
Proof.
  exists (Np.rint (x * 10 ^ d)). unfold Np.round. field.
  pose proof (pow10_pos d). lra.
Qed.

End Rounding.

Section RoundingValues.

Local Open Scope R_scope.

(** The two ways a number strictly between two integers rounds. *)
Lemma rint_down (x : R) (f : Z) : IZR f <= x < IZR f + 1 / 2 -> Np.rint x = f.
Proof.
  intros H. unfold Np.rint.
  rewrite (floor_unique x f) by lra.
  destruct (Rlt_dec (x - IZR f) (1 / 2)); [reflexivity | lra].
Qed.

Lemma rint_up (x : R) (f : Z) : IZR f + 1 / 2 < x < IZR f + 1 -> Np.rint x = (f + 1)%Z.
Proof.
  intros H. unfold Np.rint.
  rewrite (floor_unique x f) by lra.
  destruct (Rlt_dec (x - IZR f) (1 / 2)); [lra|].
  destruct (Rlt_dec (1 / 2) (x - IZR f)); [reflexivity | lra].
Qed.

Lemma mean_pair (a b : R) : Np.mean [a; b] = (a + b) / 2.
Proof. unfold Np.mean, Np.sum. simpl. field. Qed.

Lemma mean_singleton (a : R) : Np.mean [a] = a.
Proof. unfold Np.mean, Np.sum. simpl. field. Qed.

End RoundingValues.

(** ** Effect size and p-value of one comparison *)

Section Comparison.

Local Open Scope R_scope.

Variable ttest : ttest_ind_from_stats_t.

Lemma change_and_pvalue_equal (m obs_std bg_std : R) (obs_len : Z) :
  Stats.change_and_pvalue ttest (m, obs_std) obs_len (m, bg_std) = (0, 1).
Proof.
  unfold Stats.change_and_pvalue.
  destruct (Req_dec_T m m) as [_ | Hne]; [reflexivity | now destruct Hne].
Qed.

Lemma change_and_pvalue_differ (obs_mean obs_std bg_mean bg_std : R) (obs_len : Z) :
  obs_mean <> bg_mean ->
  Stats.change_and_pvalue ttest (obs_mean, obs_std) obs_len (bg_mean, bg_std)
  = (Stats.effect_size obs_mean obs_std bg_mean bg_std,
     snd (ttest obs_mean obs_std (Z.min obs_len Stats.obs_cap)
                bg_mean bg_std (Z.min obs_len Stats.obs_cap) false)).
Proof.
  intros Hne. unfold Stats.change_and_pvalue.
  destruct (Req_dec_T obs_mean bg_mean) as [Heq | _]; [contradiction | reflexivity].
Qed.

End Comparison.

Section ComparisonClaims.

Local Open Scope R_scope.

(** C2, the claim as stated fails: with observed fit (1, 1) and background
    fit (0, 2) the quotient is 2/3, and the reported change is 0.66667. *)
Lemma reported_change_is_rounded :
  fst (Stats.change_and_pvalue (fun _ _ _ _ _ _ _ => (0, 1)) (1, 1) 10 (0, 2))
  = 66667 / 100000
  /\ (1 - 0) / Np.mean [1; 2] = 2 / 3
  /\ 66667 / 100000 <> 2 / 3.
Proof.
  split; [|split].
  - rewrite change_and_pvalue_differ by lra. cbn [fst].
    unfold Stats.effect_size, Np.round. rewrite mean_pair.
    rewrite (rint_up _ 66666) by (simpl pow; lra).
    simpl pow. change (66666 + 1)%Z with 66667%Z. lra.
  - rewrite mean_pair. lra.
  - lra.
Qed.

End ComparisonClaims.

(** ** Failures of a per-motif task *)

Section Failures.

Variable fs : Stats.filesystem.
Variable ttest : ttest_ind_from_stats_t.
Variable TF_name : string.
Variable args : Stats.Args.
Variable log2fc_params : Stats.params.

Lemma io_bind_raise {A B : Type} (t : list Stats.event) (e : Py.exn)
      (k : A -> Stats.io B) :
  Stats.io_bind (t, Py.Raise e) k = (t, Py.Raise e).
Proof. reflexivity. Qed.

(** Without its temporary file the task raises at once: nothing is
    written, printed or logged. *)
Lemma unreadable_file_raises (e : Py.exn) :
  Stats.genfromtxt fs (Stats.tmp_filename args TF_name) = Py.Raise e ->
  Stats.process_tfbs fs ttest TF_name args log2fc_params = ([], Py.Raise e).
Proof.
  intros H. unfold Stats.process_tfbs, Stats.statistics, Stats.lift.
  rewrite H. reflexivity.
Qed.

(** The task raises whenever its statistics part does. *)
Lemma statistics_raises (t : list Stats.event) (e : Py.exn) :
  Stats.statistics fs ttest TF_name args log2fc_params = (t, Py.Raise e) ->
  Stats.process_tfbs fs ttest TF_name args log2fc_params = (t, Py.Raise e).
Proof. intros H. unfold Stats.process_tfbs. rewrite H. reflexivity. Qed.

(** A text table that cannot be written makes the statistics part raise. *)
Lemma unwritable_csv_raises (arr : list Stats.file_row) :
  Stats.genfromtxt fs (Stats.tmp_filename args TF_name) = Py.Ok arr ->
  Stats.csv_writable fs (Stats.all_bed args TF_name) = false ->
  exists e, Stats.process_tfbs fs ttest TF_name args log2fc_params = ([], Py.Raise e).
Proof.
  intros Hread Hcsv.
  unfold Stats.process_tfbs, Stats.statistics, Stats.lift. rewrite Hread.
  cbn [Stats.io_bind].
  destruct (Stats.format_bed_table args arr) as [bed | e].
  - exists Py.OSError. cbn [Stats.io_bind].
    unfold Stats.to_csv. rewrite Hcsv. reflexivity.
  - exists e. reflexivity.
Qed.

(** When the workbook cannot be written the task prints its message and
    exits; the row it has computed is not returned. *)
Lemma unwritable_excel_exits (t : list Stats.event) (info_table : Py.dict R) :
  Stats.statistics fs ttest TF_name args log2fc_params = (t, Py.Ok info_table) ->
  Stats.excel_writable fs (Stats.overview_excel args TF_name) = false ->
  Stats.process_tfbs fs ttest TF_name args log2fc_params
  = (t ++ [Stats.Print ("Error writing excelfile for TF " ++ TF_name)%string],
     Py.Raise Py.SystemExit).
Proof.
  intros Hstat Hxl. unfold Stats.process_tfbs. rewrite Hstat.
  unfold Stats.write_excel. rewrite Hxl. reflexivity.
Qed.

(** A temporary file that cannot be removed is the one failure the task
    absorbs: it is logged and the row is returned. *)
Lemma unremovable_file_is_logged (t : list Stats.event) (info_table : Py.dict R) :
  Stats.statistics fs ttest TF_name args log2fc_params = (t, Py.Ok info_table) ->
  Stats.excel_writable fs (Stats.overview_excel args TF_name) = true ->
  Stats.removable fs (Stats.tmp_filename args TF_name) = false ->
  Stats.process_tfbs fs ttest TF_name args log2fc_params
  = (t ++ [Stats.ToExcel (Stats.overview_excel args TF_name);
           Stats.Log (ErrorRemovingTemporaryFile (Stats.tmp_filename args TF_name))],
     Py.Ok info_table).
Proof.
  intros Hstat Hxl Hrm. unfold Stats.process_tfbs. rewrite Hstat.
  unfold Stats.write_excel, Stats.remove_temporary. rewrite Hxl, Hrm.
  reflexivity.
Qed.

(** C3 (as amended).  A failure of a per-motif task is not absorbed by
    [process_tfbs]: when the temporary file cannot be read the exception of
    the read leaves the function with nothing logged; when the all-sites
    table cannot be written the function raises; when the xlsx overview
    cannot be written the message is printed and the task exits through
    [sys.exit()].  In none of these cases a row is returned.  Only a failure
    to remove the temporary file is logged while the row is returned. *)
Theorem per_motif_failures :
  (forall e,
      Stats.genfromtxt fs (Stats.tmp_filename args TF_name) = Py.Raise e ->
      Stats.process_tfbs fs ttest TF_name args log2fc_params = ([], Py.Raise e))
  /\ (forall arr,
         Stats.genfromtxt fs (Stats.tmp_filename args TF_name) = Py.Ok arr ->
         Stats.csv_writable fs (Stats.all_bed args TF_name) = false ->
         exists e,
           Stats.process_tfbs fs ttest TF_name args log2fc_params = ([], Py.Raise e))
  /\ (forall t info_table,
         Stats.statistics fs ttest TF_name args log2fc_params = (t, Py.Ok info_table) ->
         Stats.excel_writable fs (Stats.overview_excel args TF_name) = false ->
         Stats.process_tfbs fs ttest TF_name args log2fc_params
         = (t ++ [Stats.Print ("Error writing excelfile for TF " ++ TF_name)%string],
            Py.Raise Py.SystemExit))
  /\ (forall t info_table,
         Stats.statistics fs ttest TF_name args log2fc_params = (t, Py.Ok info_table) ->
         Stats.excel_writable fs (Stats.overview_excel args TF_name) = true ->
         Stats.removable fs (Stats.tmp_filename args TF_name) = false ->
         Stats.process_tfbs fs ttest TF_name args log2fc_params
         = (t ++ [Stats.ToExcel (Stats.overview_excel args TF_name);
                  Stats.Log (ErrorRemovingTemporaryFile
                               (Stats.tmp_filename args TF_name))],
            Py.Ok info_table)).
Proof.
  split; [|split; [|split]].
  - apply unreadable_file_raises.
  - apply unwritable_csv_raises.
  - apply unwritable_excel_exits.
  - apply unremovable_file_is_logged.
Qed.

End Failures.

(** C3, the claim as stated fails: when the temporary file of a motif is
    missing, [process_tfbs] logs nothing and returns nothing; the exception
    of the read ends the task. *)
Lemma missing_file_ends_task :
  Stats.process_tfbs Example.no_files Example.ttest "CTCF" Example.args []
  = ([], Py.Raise Py.OSError).
Proof. apply unreadable_file_raises. reflexivity. Qed.

(** ** Dictionaries *)

Section Dictionaries.

Context {V : Type}.

Lemma dict_get_set_same (d : Py.dict V) (k : string) (v : V) :
  Py.dict_get (Py.dict_set d k v) k = Py.Ok v.
Proof.
  induction d as [|[k' v'] t IH]; simpl.
  - now rewrite String.eqb_refl.
  - destruct (String.eqb k' k) eqn:E; simpl; rewrite E; auto.
Qed.

Lemma dict_get_set_other (d : Py.dict V) (k k' : string) (v : V) :
  k <> k' -> Py.dict_get (Py.dict_set d k v) k' = Py.dict_get d k'.
Proof.
  intros Hne. induction d as [|[k0 v0] t IH]; simpl.
  - destruct (String.eqb_spec k k'); [contradiction | reflexivity].
  - destruct (String.eqb_spec k0 k) as [-> | Hk]; simpl.
    + destruct (String.eqb_spec k k'); [contradiction | reflexivity].
    + destruct (String.eqb k0 k'); auto.
Qed.

Lemma dict_set_keys (d : Py.dict V) (k : string) (v v' : V) :
  Py.dict_get d k = Py.Ok v -> map fst (Py.dict_set d k v') = map fst d.
Proof.
  induction d as [|[k0 v0] t IH]; simpl; [discriminate|].
  destruct (String.eqb k0 k); simpl; intros H; [reflexivity | now rewrite IH].
Qed.

Lemma dict_set_get (d : Py.dict V) (k : string) (v : V) :
  Py.dict_get d k = Py.Ok v -> Py.dict_set d k v = d.
Proof.
  induction d as [|[k0 v0] t IH]; simpl; [discriminate|].
  destruct (String.eqb k0 k); intros H.
  - now inversion H.
  - now rewrite IH.
Qed.

Lemma dict_set_set (d : Py.dict V) (k : string) (v v' : V) :
  Py.dict_set (Py.dict_set d k v) k v' = Py.dict_set d k v'.
Proof.
  induction d as [|[k0 v0] t IH]; simpl.
  - now rewrite String.eqb_refl.
  - destruct (String.eqb k0 k) eqn:E; simpl; rewrite E; [reflexivity | now rewrite IH].
Qed.

(** A key is present when looking it up does not raise. *)
Lemma dict_get_In (d : Py.dict V) (k : string) :
  In k (map fst d) <-> exists v, Py.dict_get d k = Py.Ok v.
Proof.
  induction d as [|[k0 v0] t IH]; simpl.
  - split; [tauto | intros [v H]; discriminate].
  - destruct (String.eqb_spec k0 k) as [-> | Hne].
    + split; eauto.
    + rewrite <- IH. split; [intros [H | H]; [contradiction | exact H] | auto].
Qed.

Lemma dict_fromkeys_keys (keys : list string) (v : V) (k : string) :
  In k (map fst (Py.dict_fromkeys keys v)) <-> In k keys.
Proof.
  unfold Py.dict_fromkeys.
  assert (H : forall d, In k (map fst (fold_left (fun d k => Py.dict_set d k v) keys d))
                        <-> In k (map fst d) \/ In k keys).
  { induction keys as [|k0 ks IH]; intros d; simpl; [tauto|].
    rewrite IH. clear IH.
    assert (Hset : In k (map fst (Py.dict_set d k0 v)) <-> In k (map fst d) \/ k0 = k).
    { induction d as [|[k1 v1] t IHd]; simpl; [tauto|].
      destruct (String.eqb_spec k1 k0) as [-> | Hne]; simpl; [tauto|].
      rewrite IHd. tauto. }
    rewrite Hset. tauto. }
  rewrite H. simpl. tauto.
Qed.

End Dictionaries.

Lemma bind_ok {A B : Type} (m : Py.result A) (k : A -> Py.result B) (b : B) :
  Py.bind m k = Py.Ok b -> exists a, m = Py.Ok a /\ k a = Py.Ok b.
Proof. destruct m as [a | e]; simpl; [eauto | discriminate]. Qed.

Lemma traverse_length {A B : Type} (f : A -> Py.result B) (l : list A) (bs : list B) :
  Py.traverse f l = Py.Ok bs -> List.length bs = List.length l.
Proof.
  revert bs. induction l as [|a t IH]; simpl; intros bs H.
  - now inversion H.
  - destruct (f a) as [b | e]; simpl in H; [|discriminate].
    destruct (Py.traverse f t) as [bs' | e]; simpl in H; [|discriminate].
    inversion H. simpl. now rewrite (IH bs').
Qed.

(** ** The loop body of the scan, region by region *)

Section ScanBody.

Variable rnd : Scan.PyRandom.
Variable env : Scan.scan_env.

(** Every condition has its list in the background sample. *)
Definition has_conditions (signal : Py.dict (list R)) (conditions : list string) : Prop :=
  forall c, In c conditions -> In c (map fst signal).

Lemma dict_extend_keys (d : Py.dict (list R)) (k : string) (vs : list R) :
  map fst (Scan.dict_extend d k vs) = map fst d.
Proof.
  unfold Scan.dict_extend.
  destruct (Py.dict_get d k) as [old | e] eqn:E; [|reflexivity].
  now apply dict_set_keys with (v := old).
Qed.

Lemma dict_extend_nil (d : Py.dict (list R)) (k : string) :
  Scan.dict_extend d k [] = d.
Proof.
  unfold Scan.dict_extend.
  destruct (Py.dict_get d k) as [old | e] eqn:E; [|reflexivity].
  rewrite app_nil_r. now apply dict_set_get.
Qed.

Lemma dict_extend_app (d : Py.dict (list R)) (k : string) (a b : list R) :
  Scan.dict_extend (Scan.dict_extend d k a) k b = Scan.dict_extend d k (a ++ b).
Proof.
  unfold Scan.dict_extend.
  destruct (Py.dict_get d k) as [old | e] eqn:E.
  - rewrite dict_get_set_same, dict_set_set, app_assoc. reflexivity.
  - now rewrite E.
Qed.

Lemma extend_signal_keys (added : list (string * list R)) (signal : Py.dict (list R)) :
  map fst (Scan.extend_signal signal added) = map fst signal.
Proof.
  revert signal. induction added as [|[c vs] t IH]; intros signal; simpl.
  - reflexivity.
  - unfold Scan.extend_signal in *. simpl. rewrite IH. apply dict_extend_keys.
Qed.

(** The inner loop over the random positions appends, to the list of the
    condition, the footprint values at the positions. *)
Lemma sample_loop (condition : string) (fp : list R) (footprints : Py.dict (list R))
      (positions : list Z) (signal : Py.dict (list R)) :
  Py.dict_get footprints condition = Py.Ok fp ->
  In condition (map fst signal) ->
  Py.for_each positions
    (fun signal pos =>
       fp <- Py.dict_get footprints condition ;;
       v <- Py.getitem fp pos ;;
       samples <- Py.dict_get signal condition ;;
       Py.Ok (Py.dict_set signal condition (samples ++ [v])))
    signal
  = (samples <- Py.traverse (Py.getitem fp) positions ;;
     Py.Ok (Scan.dict_extend signal condition samples)).
Proof.
  intros Hfp. rewrite Hfp. cbn [Py.bind]. revert signal.
  induction positions as [|pos rest IH]; intros signal Hkey; simpl.
  - now rewrite dict_extend_nil.
  - destruct (Py.getitem fp pos) as [v | e]; simpl; [|reflexivity].
    apply dict_get_In in Hkey. destruct Hkey as [old Hold].
    rewrite Hold. simpl.
    replace (Py.dict_set signal condition (old ++ [v]))
      with (Scan.dict_extend signal condition [v])
      by (unfold Scan.dict_extend; now rewrite Hold).
    rewrite IH by (rewrite dict_extend_keys; apply dict_get_In; eauto).
    destruct (Py.traverse (Py.getitem fp) rest) as [vs | e]; simpl; [|reflexivity].
    now rewrite dict_extend_app.
Qed.

(** The loop over the conditions. *)
Lemma read_loop (region : OneRegion) (positions : list Z) (conditions : list string) :
  forall footprints signal log,
    has_conditions signal conditions ->
    Py.for_each conditions (Scan.read_footprints env region positions)
                (footprints, signal, log)
    = (r <- Scan.footprint_additions env region positions conditions footprints ;;
       let '(footprints', added, logs) := r in
       Py.Ok (footprints', Scan.extend_signal signal added, log ++ logs)).
Proof.
  induction conditions as [|c rest IH]; intros footprints signal log Hkeys; simpl.
  - now rewrite app_nil_r.
  - assert (Hrest : forall sig', map fst sig' = map fst signal ->
                                 has_conditions sig' rest).
    { intros sig' Heq c' Hin. rewrite Heq. apply Hkeys. now right. }
    destruct (Scan.bigwig_values env c region) as [values | e]; simpl.
    + rewrite sample_loop with (fp := Np.nan_to_num values);
        [| apply dict_get_set_same | apply Hkeys; now left].
      destruct (Py.traverse (Py.getitem (Np.nan_to_num values)) positions)
        as [samples | e1]; simpl; [|reflexivity].
      rewrite IH by (apply Hrest, dict_extend_keys).
      destruct (Scan.footprint_additions env region positions rest
                  (Py.dict_set footprints c (Np.nan_to_num values)))
        as [[[fp' added] logs] | e2]; simpl; reflexivity.
    + rewrite IH by (now apply Hrest).
      destruct (Scan.footprint_additions env region positions rest footprints)
        as [[[fp' added] logs] | e2]; simpl; [|reflexivity].
      now rewrite <- app_assoc.
Qed.

(** The loop body: what the region adds, appended to the state. *)
Lemma scan_region_additions (s : Scan.scan_state rnd) (region : OneRegion) :
  has_conditions (Scan.bg_signal (Scan.background_signal s)) (Scan.cond_names env) ->
  Scan.scan_region env s region
  = (a <- Scan.region_additions rnd env region ;; Scan.apply_additions s a).
Proof.
  intros Hkeys. unfold Scan.scan_region, Scan.region_additions.
  destruct (Scan.rand_positions rnd (get_length region)) as [[positions rng'] | e];
    simpl; [|reflexivity].
  rewrite read_loop by assumption.
  destruct (Scan.footprint_additions env region positions (Scan.cond_names env) [])
    as [[[fp added] logs] | e]; simpl; [|reflexivity].
  destruct (Py.traverse (Py.getitem (Scan.gc_profile env region)) positions)
    as [gc_samples | e]; simpl; [|reflexivity].
  destruct (Py.traverse (Scan.annotate env region (Scan.gc_profile env region) fp)
                        (Scan.scan_sequence env region))
    as [sites | e]; simpl; reflexivity.
Qed.

End ScanBody.

Section ScanLoop.

Variable rnd : Scan.PyRandom.
Variable env : Scan.scan_env.

Lemma sites_of_app (name : string) (l1 l2 : list TFBS) :
  Scan.sites_of name (l1 ++ l2) = Scan.sites_of name l1 ++ Scan.sites_of name l2.
Proof. apply filter_app. Qed.

(** "Split regions to single TFs" succeeds exactly when every site carries
    the name of a motif of the list, and appends each site to the list of
    its motif. *)
Lemma split_loop (sites : list TFBS) :
  forall all : Py.dict (list TFBS),
    Forall (fun t => In (tfbs_name t) (map fst all)) sites ->
    exists all',
      Py.for_each sites Scan.split_to_TF all = Py.Ok all'
      /\ map fst all' = map fst all
      /\ forall name old,
          Py.dict_get all name = Py.Ok old ->
          Py.dict_get all' name = Py.Ok (old ++ Scan.sites_of name sites).
Proof.
  induction sites as [|t rest IH]; intros all Hnames; simpl.
  - exists all. repeat split; auto. intros name old H. now rewrite app_nil_r.
  - inversion Hnames as [|? ? Ht Hrest]; subst.
    apply dict_get_In in Ht. destruct Ht as [old_t Hold_t].
    unfold Scan.split_to_TF at 1. rewrite Hold_t. simpl.
    set (all1 := Py.dict_set all (tfbs_name t) (old_t ++ [t])).
    assert (Hkeys1 : map fst all1 = map fst all)
      by (apply dict_set_keys with (v := old_t); assumption).
    destruct (IH all1) as [all' [Hrun [Hkeys Hget]]].
    { rewrite Hkeys1. assumption. }
    exists all'. split; [assumption|]. split; [congruence|].
    intros name old Hold.
    destruct (String.eqb_spec (tfbs_name t) name) as [Heq | Hne].
    + subst name. rewrite Hold in Hold_t. inversion Hold_t; subst old_t.
      rewrite (Hget (tfbs_name t) (old ++ [t])) by apply dict_get_set_same.
      now rewrite <- app_assoc.
    + apply Hget. unfold all1. now rewrite dict_get_set_other.
Qed.

Lemma split_loop_names (sites : list TFBS) :
  forall all all' : Py.dict (list TFBS),
    Py.for_each sites Scan.split_to_TF all = Py.Ok all' ->
    Forall (fun t => In (tfbs_name t) (map fst all)) sites.
Proof.
  induction sites as [|t rest IH]; intros all all' H; [constructor|].
  simpl in H. unfold Scan.split_to_TF at 1 in H.
  destruct (Py.dict_get all (tfbs_name t)) as [old | e] eqn:E; [|discriminate].
  simpl in H. constructor.
  - apply dict_get_In. eauto.
  - apply IH in H. rewrite (dict_set_keys _ _ _ _ E) in H. exact H.
Qed.

Lemma split_loop_app (l1 l2 : list TFBS) (all : Py.dict (list TFBS)) :
  Py.for_each (l1 ++ l2) Scan.split_to_TF all
  = (all1 <- Py.for_each l1 Scan.split_to_TF all ;;
     Py.for_each l2 Scan.split_to_TF all1).
Proof.
  revert all. induction l1 as [|t rest IH]; intros all; simpl; [reflexivity|].
  destruct (Scan.split_to_TF all t) as [all1 | e]; simpl; [apply IH | reflexivity].
Qed.

Lemma extend_signal_app (signal : Py.dict (list R)) (a b : list (string * list R)) :
  Scan.extend_signal signal (a ++ b)
  = Scan.extend_signal (Scan.extend_signal signal a) b.
Proof. unfold Scan.extend_signal. apply fold_left_app. Qed.

(** What a region adds, when the region can be processed. *)
Definition adds (region : OneRegion) (a : Scan.additions rnd) : Prop :=
  Scan.region_additions rnd env region = Py.Ok a.

(** The loop over the regions appends what the regions add, in the order
    of the regions. *)
Lemma scan_loop (regions : list OneRegion) :
  forall s s' : Scan.scan_state rnd,
    has_conditions (Scan.bg_signal (Scan.background_signal s)) (Scan.cond_names env) ->
    Py.for_each regions (Scan.scan_region env) s = Py.Ok s' ->
    exists added : list (Scan.additions rnd),
      Forall2 adds regions added
      /\ Scan.bg_gc (Scan.background_signal s')
         = Scan.bg_gc (Scan.background_signal s)
             ++ List.concat (map (@Scan.added_gc rnd) added)
      /\ Scan.bg_signal (Scan.background_signal s')
         = Scan.extend_signal (Scan.bg_signal (Scan.background_signal s))
                              (List.concat (map (@Scan.added_signal rnd) added))
      /\ Scan.log s' = Scan.log s ++ List.concat (map (@Scan.added_log rnd) added)
      /\ Py.for_each (List.concat (map (@Scan.added_sites rnd) added))
                     Scan.split_to_TF (Scan.all_TFBS s)
         = Py.Ok (Scan.all_TFBS s').
Proof.
  induction regions as [|region rest IH]; intros s s' Hkeys Hrun; simpl in Hrun.
  - inversion Hrun; subst s'. exists []. simpl.
    rewrite !app_nil_r. repeat split; constructor.
  - apply bind_ok in Hrun. destruct Hrun as [s1 [Hstep Hrest]].
    rewrite scan_region_additions in Hstep by assumption.
    apply bind_ok in Hstep. destruct Hstep as [a [Ha Happly]].
    unfold Scan.apply_additions in Happly.
    apply bind_ok in Happly. destruct Happly as [all1 [Hsplit Hs1]].
    inversion Hs1; subst s1; clear Hs1.
    apply IH in Hrest.
    + destruct Hrest as [added [Hadds [Hgc [Hsig [Hlog Hsites]]]]].
      simpl in Hgc, Hsig, Hlog, Hsites.
      exists (a :: added). simpl.
      split; [constructor; assumption|].
      split; [now rewrite Hgc, <- app_assoc|].
      split; [now rewrite Hsig, extend_signal_app|].
      split; [now rewrite Hlog, <- app_assoc|].
      rewrite split_loop_app, Hsplit. exact Hsites.
    + simpl. intros c Hc. rewrite extend_signal_keys. now apply Hkeys.
Qed.

(** Conversely, regions that can be processed one by one are processed by
    the loop, provided their sites carry names of the motif list. *)
Lemma scan_loop_runs (regions : list OneRegion) (added : list (Scan.additions rnd)) :
  forall s : Scan.scan_state rnd,
    has_conditions (Scan.bg_signal (Scan.background_signal s)) (Scan.cond_names env) ->
    Forall2 adds regions added ->
    Forall (fun t => In (tfbs_name t) (map fst (Scan.all_TFBS s)))
           (List.concat (map (@Scan.added_sites rnd) added)) ->
    exists s', Py.for_each regions (Scan.scan_region env) s = Py.Ok s'.
Proof.
  revert added. induction regions as [|region rest IH]; intros added s Hkeys Hadds Hnames.
  - exists s. reflexivity.
  - inversion Hadds as [|? a ? added' Ha Hrest]; subst. simpl in Hnames.
    apply Forall_app in Hnames. destruct Hnames as [Hn1 Hn2].
    destruct (split_loop _ _ Hn1) as [all1 [Hsplit [Hk1 _]]].
    simpl. rewrite scan_region_additions by assumption.
    unfold adds in Ha. rewrite Ha. simpl.
    unfold Scan.apply_additions. rewrite Hsplit. simpl.
    apply IH with (added := added').
    + simpl. intros c Hc. rewrite extend_signal_keys. now apply Hkeys.
    + assumption.
    + simpl. rewrite Hk1. assumption.
Qed.

End ScanLoop.

(** ** The background sample of a scan *)

Section BackgroundSample.

Variable rnd : Scan.PyRandom.
Variable env : Scan.scan_env.

(** The samples of a condition among the additions of the regions. *)
Definition samples_of (c : string) (added : list (string * list R)) : list R :=
  flat_map (fun e => if String.eqb (fst e) c then snd e else []) added.

Lemma extend_signal_get (added : list (string * list R)) :
  forall (signal : Py.dict (list R)) (c : string) (old : list R),
    Py.dict_get signal c = Py.Ok old ->
    Py.dict_get (Scan.extend_signal signal added) c
    = Py.Ok (old ++ samples_of c added).
Proof.
  induction added as [|[k vs] rest IH]; intros signal c old Hold; simpl.
  - now rewrite app_nil_r.
  - unfold Scan.extend_signal. simpl. fold (Scan.extend_signal (Scan.dict_extend signal k vs) rest).
    destruct (String.eqb_spec k c) as [-> | Hne].
    + rewrite (IH _ c (old ++ vs)).
      * now rewrite <- app_assoc.
      * unfold Scan.dict_extend. rewrite Hold. apply dict_get_set_same.
    + apply IH. unfold Scan.dict_extend.
      destruct (Py.dict_get signal k); [|assumption].
      now rewrite dict_get_set_other.
Qed.

Lemma initial_has_conditions (rng0 : Scan.rng_state rnd) :
  has_conditions
    (Scan.bg_signal (Scan.background_signal (Scan.initial_state rnd env rng0)))
    (Scan.cond_names env).
Proof. intros c Hc. simpl. now apply dict_fromkeys_keys. Qed.

(** A scan that returns has processed every region, and its result is made
    of what the regions add, in the order of the regions. *)
Lemma scan_and_score_returns (rng0 : Scan.rng_state rnd) (regions : list OneRegion)
      (r : Scan.scan_result env) :
  Scan.scan_and_score rnd env rng0 regions = Py.Ok r ->
  exists (added : list (Scan.additions rnd)) (all : Py.dict (list TFBS)),
    Forall2 (adds rnd env) regions added
    /\ Py.for_each (List.concat (map (@Scan.added_sites rnd) added))
                   Scan.split_to_TF (Py.dict_fromkeys (Scan.motif_names env) [])
       = Py.Ok all
    /\ r = Scan.mkScanResult env
             (Scan.mkBackground
                (List.concat (map (@Scan.added_gc rnd) added))
                (Scan.extend_signal (Py.dict_fromkeys (Scan.cond_names env) [])
                                    (List.concat (map (@Scan.added_signal rnd) added))))
             (Scan.count_overlaps env
                (List.concat (map snd (Scan.send_sites env all))))
             (Scan.send_sites env all)
             (List.concat (map (@Scan.added_log rnd) added)).
Proof.
  unfold Scan.scan_and_score. intros H.
  apply bind_ok in H. destruct H as [s [Hloop Hr]].
  apply scan_loop in Hloop; [|apply initial_has_conditions].
  destruct Hloop as [added [Hadds [Hgc [Hsig [Hlog Hsites]]]]].
  simpl in Hgc, Hsig, Hlog, Hsites.
  exists added, (Scan.all_TFBS s). split; [assumption|]. split; [assumption|].
  inversion Hr. destruct s as [rng1 [gc sig] all lg]. simpl in *. subst.
  reflexivity.
Qed.

(** Conversely, the scan returns when every region can be processed and
    every site carries the name of a motif of the list. *)
Lemma scan_and_score_runs (rng0 : Scan.rng_state rnd) (regions : list OneRegion)
      (added : list (Scan.additions rnd)) :
  Forall2 (adds rnd env) regions added ->
  Forall (fun t => In (tfbs_name t) (Scan.motif_names env))
         (List.concat (map (@Scan.added_sites rnd) added)) ->
  exists r, Scan.scan_and_score rnd env rng0 regions = Py.Ok r.
Proof.
  intros Hadds Hnames.
  destruct (scan_loop_runs rnd env regions added (Scan.initial_state rnd env rng0))
    as [s' Hs'].
  - apply initial_has_conditions.
  - assumption.
  - simpl. eapply Forall_impl; [|exact Hnames].
    intros t Ht. now apply dict_fromkeys_keys.
  - unfold Scan.scan_and_score. rewrite Hs'. simpl. eauto.
Qed.

End BackgroundSample.

Section BackgroundDeterminism.

Variable rnd : Scan.PyRandom.
Variable env : Scan.scan_env.

Lemma adds_functional (regions : list OneRegion) :
  forall added1 added2 : list (Scan.additions rnd),
    Forall2 (adds rnd env) regions added1 ->
    Forall2 (adds rnd env) regions added2 ->
    added1 = added2.
Proof.
  induction regions as [|region rest IH]; intros added1 added2 H1 H2;
    inversion H1; inversion H2; subst; [reflexivity|].
  f_equal; [unfold adds in *; congruence | now apply IH].
Qed.

(** The positions sampled in a region are a function of its length. *)
Lemma positions_by_length (region1 region2 : OneRegion)
      (a1 a2 : Scan.additions rnd) :
  get_length region1 = get_length region2 ->
  adds rnd env region1 a1 -> adds rnd env region2 a2 ->
  Scan.positions_used a1 = Scan.positions_used a2.
Proof.
  unfold adds, Scan.region_additions. intros Hlen H1 H2. rewrite Hlen in H1.
  destruct (Scan.rand_positions rnd (get_length region2)) as [[positions rng']|e];
    simpl in H1, H2; [|discriminate].
  destruct (Scan.footprint_additions env region1 positions (Scan.cond_names env) [])
    as [[[fp1 sig1] lg1]|e]; simpl in H1; [|discriminate].
  destruct (Py.traverse (Py.getitem (Scan.gc_profile env region1)) positions)
    as [g1|e]; simpl in H1; [|discriminate].
  destruct (Py.traverse _ (Scan.scan_sequence env region1)) as [t1|e];
    simpl in H1; [|discriminate].
  destruct (Scan.footprint_additions env region2 positions (Scan.cond_names env) [])
    as [[[fp2 sig2] lg2]|e]; simpl in H2; [|discriminate].
  destruct (Py.traverse (Py.getitem (Scan.gc_profile env region2)) positions)
    as [g2|e]; simpl in H2; [|discriminate].
  destruct (Py.traverse _ (Scan.scan_sequence env region2)) as [t2|e];
    simpl in H2; [|discriminate].
  inversion H1. inversion H2. reflexivity.
Qed.

Lemma samples_of_perm (c : string) (l l' : list (string * list R)) :
  Permutation l l' -> Permutation (samples_of c l) (samples_of c l').
Proof. intros H. unfold samples_of. now apply Permutation_flat_map. Qed.

(** C4.  The positions sampled in a region are derived from the length of
    the region alone, so the background sample of a scan does not depend on
    the state of the generator before the scan, and scanning the same
    regions in another order yields the same samples: the same GC values
    and, for every condition, the same signal values, up to their order;
    in the same order the background sample is identical. *)
Theorem background_sample_is_deterministic :
  (forall region1 region2 a1 a2,
      get_length region1 = get_length region2 ->
      Scan.region_additions rnd env region1 = Py.Ok a1 ->
      Scan.region_additions rnd env region2 = Py.Ok a2 ->
      Scan.positions_used a1 = Scan.positions_used a2)
  /\ (forall (rng0 rng0' : Scan.rng_state rnd) (regions regions' : list OneRegion)
             (r : Scan.scan_result env),
         Permutation regions regions' ->
         Scan.scan_and_score rnd env rng0 regions = Py.Ok r ->
         exists r' : Scan.scan_result env,
           Scan.scan_and_score rnd env rng0' regions' = Py.Ok r'
           /\ Permutation (Scan.bg_gc (Scan.returned_background r))
                          (Scan.bg_gc (Scan.returned_background r'))
           /\ (forall c, In c (Scan.cond_names env) ->
                         exists l l',
                           Py.dict_get (Scan.bg_signal (Scan.returned_background r)) c
                           = Py.Ok l
                           /\ Py.dict_get (Scan.bg_signal (Scan.returned_background r')) c
                              = Py.Ok l'
                           /\ Permutation l l')
           /\ (regions' = regions ->
               Scan.returned_background r' = Scan.returned_background r)).
Proof.
  split; [exact positions_by_length|].
  intros rng0 rng0' regions regions' r Hperm Hrun.
  apply scan_and_score_returns in Hrun.
  destruct Hrun as [added [all [Hadds [Hsplit Hr]]]].
  destruct (@Permutation_Forall2 _ _ (adds rnd env) _ _ _ Hperm Hadds)
    as [added' [Hperm' Hadds']].
  assert (Hnames : Forall (fun t => In (tfbs_name t) (Scan.motif_names env))
                          (List.concat (map (@Scan.added_sites rnd) added'))).
  { apply split_loop_names in Hsplit.
    rewrite <- flat_map_concat_map in *.
    eapply Permutation_Forall.
    - apply Permutation_flat_map. exact Hperm'.
    - eapply Forall_impl; [|exact Hsplit].
      intros t Ht. now apply dict_fromkeys_keys in Ht. }
  destruct (scan_and_score_runs rnd env rng0' regions' added' Hadds' Hnames)
    as [r' Hr'].
  exists r'. split; [assumption|].
  apply scan_and_score_returns in Hr'.
  destruct Hr' as [added'' [all' [Hadds'' [Hsplit' Hr']]]].
  assert (added'' = added') by (eapply adds_functional; eassumption). subst added''.
  subst r r'. simpl.
  split; [|split].
  - rewrite <- !flat_map_concat_map. now apply Permutation_flat_map.
  - intros c Hc.
    assert (Hget : Py.dict_get (Py.dict_fromkeys (Scan.cond_names env) ([] : list R)) c
                   = Py.Ok []).
    { assert (Hin : In c (map fst (Py.dict_fromkeys (Scan.cond_names env) ([] : list R))))
        by now apply dict_fromkeys_keys.
      apply dict_get_In in Hin. destruct Hin as [v Hv]. rewrite Hv. f_equal.
      clear - Hv. unfold Py.dict_fromkeys in Hv.
      assert (Hall : forall keys (d : Py.dict (list R)),
                 (forall k v, Py.dict_get d k = Py.Ok v -> v = []) ->
                 forall k v,
                   Py.dict_get (fold_left (fun d k => Py.dict_set d k []) keys d) k
                   = Py.Ok v -> v = []).
      { induction keys as [|k0 ks IH]; intros d Hd k v0 H; simpl in H; [eauto|].
        eapply IH; [|exact H]. intros k1 v1 H1.
        destruct (String.eqb_spec k0 k1) as [-> | Hne].
        - rewrite dict_get_set_same in H1. now inversion H1.
        - rewrite dict_get_set_other in H1 by assumption. eauto. }
      eapply Hall; [|exact Hv]. intros k v0 H0. discriminate. }
    exists ([] ++ samples_of c (List.concat (map (@Scan.added_signal rnd) added))),
           ([] ++ samples_of c (List.concat (map (@Scan.added_signal rnd) added'))).
    split; [now apply extend_signal_get|]. split; [now apply extend_signal_get|].
    simpl. apply samples_of_perm.
    rewrite <- !flat_map_concat_map. now apply Permutation_flat_map.
  - intros ->.
    assert (added' = added) by (eapply adds_functional; eassumption).
    now subst.
Qed.

End BackgroundDeterminism.

(** ** Short regions *)

Section ShortRegions.

Local Open Scope R_scope.

Variable rnd : Scan.PyRandom.
Variable env : Scan.scan_env.

(** In a region shorter than the sampling window one position is drawn. *)
Lemma rand_positions_short (reglen : Z) :
  (1 <= reglen < 500)%Z ->
  exists p rng', Scan.rand_positions rnd reglen = Py.Ok ([p], rng')
                 /\ (0 <= p < reglen)%Z.
Proof.
  intros Hlen. unfold Scan.rand_positions, Scan.rand_window, Py.int_div.
  rewrite Z.quot_small by lia. change (Z.max 1 0) with 1%Z.
  destruct (@Scan.sample_returns rnd (Scan.seed rnd reglen) reglen 1%Z)
    as [l [rng' [Hs [Hl [_ Hall]]]]]; [lia|].
  destruct l as [|p [|q l]]; try (unfold Py.len in Hl; simpl in Hl; lia).
  exists p, rng'. split; [assumption|]. now inversion Hall.
Qed.

Lemma footprint_additions_lengths (region : OneRegion) (positions : list Z)
      (conditions : list string) :
  forall footprints footprints' added logs,
    Scan.footprint_additions env region positions conditions footprints
    = Py.Ok (footprints', added, logs) ->
    Forall (fun e => List.length (snd e) = List.length positions) added.
Proof.
  induction conditions as [|c rest IH]; intros fp fp' added logs H; simpl in H.
  - inversion H. constructor.
  - destruct (Scan.bigwig_values env c region) as [values | e].
    + apply bind_ok in H. destruct H as [samples [Hs H]].
      apply bind_ok in H. destruct H as [[[fp1 added1] logs1] [Hrest H]].
      inversion H; subst. constructor.
      * simpl. now apply traverse_length in Hs.
      * eapply IH; eassumption.
    + apply bind_ok in H. destruct H as [[[fp1 added1] logs1] [Hrest H]].
      inversion H; subst. eapply IH; eassumption.
Qed.

(** What a region adds to the background sample: one GC value per sampled
    position and, for every condition that could be read, one signal value
    per sampled position. *)
Lemma additions_sizes (region : OneRegion) (a : Scan.additions rnd) :
  Scan.region_additions rnd env region = Py.Ok a ->
  (exists rng', Scan.rand_positions rnd (get_length region)
                = Py.Ok (Scan.positions_used a, rng'))
  /\ List.length (Scan.added_gc a) = List.length (Scan.positions_used a)
  /\ Forall (fun e => List.length (snd e) = List.length (Scan.positions_used a))
            (Scan.added_signal a).
Proof.
  unfold Scan.region_additions. intros H.
  apply bind_ok in H. destruct H as [[positions rng'] [Hpos H]].
  apply bind_ok in H. destruct H as [[[fp added] logs] [Hfp H]].
  apply bind_ok in H. destruct H as [gc_samples [Hgc H]].
  apply bind_ok in H. destruct H as [sites [Hsites H]].
  inversion H; subst; simpl.
  split; [eauto|]. split.
  - now apply traverse_length in Hgc.
  - eapply footprint_additions_lengths; eassumption.
Qed.

(** C9 (as amended).  A pathologically short region, of 1 to 499 bp, never
    yields zero sampled positions: exactly one position of the region is
    drawn, and drawing it does not raise.  When the region is processed it
    contributes exactly one GC sample and, for every condition whose track
    could be read, one signal sample; a scan of the region alone returns a
    background sample with one GC value; and the loop continues with the
    next region. *)
Theorem short_region_samples_once (region : OneRegion) :
  (1 <= get_length region < 500)%Z ->
  (exists p rng',
      Scan.rand_positions rnd (get_length region) = Py.Ok ([p], rng')
      /\ (0 <= p < get_length region)%Z)
  /\ (forall a,
         Scan.region_additions rnd env region = Py.Ok a ->
         List.length (Scan.positions_used a) = 1%nat
         /\ List.length (Scan.added_gc a) = 1%nat
         /\ Forall (fun e => List.length (snd e) = 1%nat) (Scan.added_signal a))
  /\ (forall rng0 r,
         Scan.scan_and_score rnd env rng0 [region] = Py.Ok r ->
         List.length (Scan.bg_gc (Scan.returned_background r)) = 1%nat)
  /\ (forall (s s' : Scan.scan_state rnd) rest,
         Scan.scan_region env s region = Py.Ok s' ->
         Py.for_each (region :: rest) (Scan.scan_region env) s
         = Py.for_each rest (Scan.scan_region env) s').
Proof.
  intros Hlen.
  destruct (rand_positions_short _ Hlen) as [p [rng' [Hpos Hp]]].
  assert (Hadd : forall a,
             Scan.region_additions rnd env region = Py.Ok a ->
             List.length (Scan.positions_used a) = 1%nat
             /\ List.length (Scan.added_gc a) = 1%nat
             /\ Forall (fun e => List.length (snd e) = 1%nat) (Scan.added_signal a)).
  { intros a Ha. apply additions_sizes in Ha.
    destruct Ha as [[rng1 Hpos1] [Hgc Hsig]].
    rewrite Hpos in Hpos1. inversion Hpos1 as [[Hp1 Hr1]].
    rewrite <- Hp1 in *. simpl in *. auto. }
  split; [eauto|]. split; [exact Hadd|]. split.
  - intros rng0 r Hrun. apply scan_and_score_returns in Hrun.
    destruct Hrun as [added [all [Hadds [_ Hr]]]].
    inversion Hadds as [|? a ? rest Ha Hrest]; subst. inversion Hrest; subst.
    simpl. rewrite app_nil_r. now apply Hadd.
  - intros s s' rest Hstep. simpl. now rewrite Hstep.
Qed.

(** C9, the claim as stated fails: a region of 100 bp is far shorter than
    the sampling window of 500 bp, and the scan draws one position in it:
    the region contributes one GC sample and one signal sample, not none. *)
Lemma short_region_contributes_one_sample :
  Scan.scan_and_score Example.first_positions Example.scan_env tt [Example.peak3]
  = Py.Ok (Scan.mkScanResult Example.scan_env
             (Scan.mkBackground [1 / 2] [("WT", [1])])
             0%nat [("CTCF", [])] []).
Proof. reflexivity. Qed.

End ShortRegions.

Lemma short_region_samples_once_witness :
  (exists p rng',
      Scan.rand_positions Example.first_positions (get_length Example.peak3)
      = Py.Ok ([p], rng')
      /\ (0 <= p < get_length Example.peak3)%Z)
  /\ (forall a,
         Scan.region_additions Example.first_positions Example.scan_env Example.peak3
         = Py.Ok a ->
         List.length (Scan.positions_used a) = 1%nat
         /\ List.length (Scan.added_gc a) = 1%nat
         /\ Forall (fun e => List.length (snd e) = 1%nat) (Scan.added_signal a))
  /\ (forall rng0 r,
         Scan.scan_and_score Example.first_positions Example.scan_env rng0
                             [Example.peak3] = Py.Ok r ->
         List.length (Scan.bg_gc (Scan.returned_background r)) = 1%nat)
  /\ (forall (s s' : Scan.scan_state Example.first_positions) rest,
         Scan.scan_region Example.scan_env s Example.peak3 = Py.Ok s' ->
         Py.for_each (Example.peak3 :: rest) (Scan.scan_region Example.scan_env) s
         = Py.for_each rest (Scan.scan_region Example.scan_env) s').
Proof.
  apply (short_region_samples_once Example.first_positions Example.scan_env
                                   Example.peak3).
  unfold get_length. simpl. lia.
Defined.

(** ** The messages of a scan *)

Section Messages.

Variable rnd : Scan.PyRandom.
Variable env : Scan.scan_env.

Lemma dict_set_NoDup {V : Type} (d : Py.dict V) (k : string) (v : V) :
  NoDup (map fst d) -> NoDup (map fst (Py.dict_set d k v)).
Proof.
  induction d as [|[k0 v0] t IH]; simpl; intros H.
  - constructor; [intros [] | constructor].
  - destruct (String.eqb_spec k0 k) as [-> | Hne]; simpl; [assumption|].
    inversion H as [|? ? Hnotin Ht]; subst. constructor; [|now apply IH].
    intros Hin. apply Hnotin.
    assert (Hset : In k0 (map fst (Py.dict_set t k v)) -> In k0 (map fst t) \/ k = k0).
    { clear. induction t as [|[k1 v1] t IHt]; simpl; [tauto|].
      destruct (String.eqb_spec k1 k) as [-> | Hne]; simpl; tauto. }
    destruct (Hset Hin) as [H0 | H0]; [assumption | congruence].
Qed.

Lemma dict_fromkeys_NoDup {V : Type} (keys : list string) (v : V) :
  NoDup (map fst (Py.dict_fromkeys keys v)).
Proof.
  unfold Py.dict_fromkeys.
  assert (H : forall d : Py.dict V,
             NoDup (map fst d) ->
             NoDup (map fst (fold_left (fun d k => Py.dict_set d k v) keys d))).
  { induction keys as [|k ks IH]; intros d Hd; simpl; [assumption|].
    apply IH. now apply dict_set_NoDup. }
  apply H. constructor.
Qed.

(** A dictionary is its keys, each with the value found under it. *)
Lemma dict_entries {V : Type} (d : Py.dict V) (f : string -> V) :
  NoDup (map fst d) ->
  (forall k, In k (map fst d) -> Py.dict_get d k = Py.Ok (f k)) ->
  d = map (fun k => (k, f k)) (map fst d).
Proof.
  induction d as [|[k0 v0] t IH]; simpl; intros Hnd Hget; [reflexivity|].
  inversion Hnd as [|? ? Hnotin Ht]; subst.
  pose proof (Hget k0 (or_introl eq_refl)) as H0.
  rewrite String.eqb_refl in H0. inversion H0 as [Hv]. f_equal.
  apply IH; [assumption|].
  intros k Hk. specialize (Hget k (or_intror Hk)).
  destruct (String.eqb_spec k0 k) as [-> | Hne]; [contradiction | exact Hget].
Qed.

Lemma fromkeys_get_nil {V : Type} (keys : list string) (k : string) (l : list V) :
  Py.dict_get (Py.dict_fromkeys keys ([] : list V)) k = Py.Ok l -> l = [].
Proof.
  unfold Py.dict_fromkeys.
  assert (Hall : forall keys (d : Py.dict (list V)),
             (forall k v, Py.dict_get d k = Py.Ok v -> v = []) ->
             forall k v,
               Py.dict_get (fold_left (fun d k => Py.dict_set d k []) keys d) k
               = Py.Ok v -> v = []).
  { clear. induction keys as [|k0 ks IH]; intros d Hd k v0 H; simpl in H; [eauto|].
    eapply IH; [|exact H]. intros k1 v1 H1.
    destruct (String.eqb_spec k0 k1) as [-> | Hne].
    - rewrite dict_get_set_same in H1. now inversion H1.
    - rewrite dict_get_set_other in H1 by assumption. eauto. }
  apply Hall. intros k0 v0 H0. discriminate.
Qed.

Lemma adds_region_sites (regions : list OneRegion) (added : list (Scan.additions rnd)) :
  Forall2 (adds rnd env) regions added ->
  List.concat (map (@Scan.added_sites rnd) added)
  = flat_map (Scan.region_sites rnd env) regions.
Proof.
  induction 1 as [|region a regions added Ha _ IH]; simpl; [reflexivity|].
  unfold Scan.region_sites at 1. unfold adds in Ha. rewrite Ha. now rewrite IH.
Qed.

(** C7 (as amended).  During scanning the occurrences of a motif are
    collected over all the regions of the call; when every region has been
    scanned, overlap resolution is applied once per motif to the collected
    occurrences, across the regions, and each motif's resolved occurrences
    are sent to that motif's queue as a single message: one message per
    motif and call, whatever the number of regions. *)
Theorem sites_are_sent_once_per_motif (rng0 : Scan.rng_state rnd)
        (regions : list OneRegion) (r : Scan.scan_result env) :
  Scan.scan_and_score rnd env rng0 regions = Py.Ok r ->
  Scan.sent r
  = map (fun name =>
           (name,
            Scan.resolve env
              (Scan.sites_of name (flat_map (Scan.region_sites rnd env) regions))))
        (Py.dict_keys (Py.dict_fromkeys (Scan.motif_names env) ([] : list TFBS))).
Proof.
  intros Hrun. apply scan_and_score_returns in Hrun.
  destruct Hrun as [added [all [Hadds [Hsplit Hr]]]]. subst r. simpl.
  rewrite (adds_region_sites _ _ Hadds) in Hsplit.
  set (sites := flat_map (Scan.region_sites rnd env) regions) in *.
  set (all0 := Py.dict_fromkeys (Scan.motif_names env) ([] : list TFBS)) in *.
  pose proof (split_loop_names _ _ _ Hsplit) as Hnames.
  destruct (split_loop sites all0 Hnames) as [all' [Hrun' [Hkeys Hget]]].
  rewrite Hsplit in Hrun'. inversion Hrun'; subst all'. clear Hrun'.
  assert (Hall : all = map (fun k => (k, Scan.sites_of k sites)) (map fst all)).
  { apply dict_entries.
    - rewrite Hkeys. apply dict_fromkeys_NoDup.
    - intros k Hk. rewrite Hkeys in Hk. apply dict_get_In in Hk.
      destruct Hk as [old Hold]. rewrite (Hget k old Hold).
      apply fromkeys_get_nil in Hold. now subst old. }
  unfold Scan.send_sites, Py.dict_keys. rewrite Hall at 1.
  rewrite map_map, Hkeys. reflexivity.
Qed.

End Messages.

Section MessagesExample.

Local Open Scope R_scope.

Lemma prefer_higher (i j : nat) (a b : TFBS) :
  tfbs_score a < tfbs_score b -> prefer (i, a) (j, b) = (j, b).
Proof.
  intros H. unfold prefer. simpl.
  destruct (Rlt_dec (tfbs_score a) (tfbs_score b)); [reflexivity | contradiction].
Qed.

Example resolve_single : resolve_overlaps [Example.stored1] = [Example.stored1].
Proof. reflexivity. Qed.

Example resolve_pair :
  resolve_overlaps [Example.stored1; Example.stored2] = [Example.stored2].
Proof.
  unfold resolve_overlaps. cbn -[prefer].
  rewrite prefer_higher by (simpl; lra). reflexivity.
Qed.

Example region_sites_peak1 :
  Scan.region_sites Example.first_positions Example.scan_env Example.peak1
  = [Example.stored1].
Proof. reflexivity. Qed.

Example region_sites_peak2 :
  Scan.region_sites Example.first_positions Example.scan_env Example.peak2
  = [Example.stored2].
Proof. reflexivity. Qed.

Example scan_two_peaks :
  Scan.scan_and_score Example.first_positions Example.scan_env tt
                      [Example.peak1; Example.peak2]
  = Py.Ok (Scan.mkScanResult Example.scan_env
             (Scan.mkBackground [1 / 2; 1 / 2] [("WT", [1; 1])])
             1%nat [("CTCF", [Example.stored2])] []).
Proof.
  transitivity
    (Py.Ok (Scan.mkScanResult Example.scan_env
              (Scan.mkBackground [1 / 2; 1 / 2] [("WT", [1; 1])])
              (List.length (resolve_overlaps [Example.stored1; Example.stored2] ++ []))
              [("CTCF", resolve_overlaps [Example.stored1; Example.stored2])] [])).
  - reflexivity.
  - now rewrite resolve_pair.
Qed.

(** C7, the claim as stated fails: with two overlapping peaks, each with
    one occurrence of the motif, the occurrence of the first peak is alone
    in its region, so resolution within the region would keep it; the scan
    resolves across the two regions, drops it in favour of the overlapping
    occurrence of the second peak, and sends one message for the motif, not
    one per region. *)
Lemma sites_are_resolved_across_regions :
  Scan.scan_and_score Example.first_positions Example.scan_env tt
                      [Example.peak1; Example.peak2]
  = Py.Ok (Scan.mkScanResult Example.scan_env
             (Scan.mkBackground [1 / 2; 1 / 2] [("WT", [1; 1])])
             1%nat [("CTCF", [Example.stored2])] [])
  /\ Scan.region_sites Example.first_positions Example.scan_env Example.peak1
     = [Example.stored1]
  /\ resolve_overlaps [Example.stored1] = [Example.stored1].
Proof.
  split; [exact scan_two_peaks | split; reflexivity].
Qed.

Lemma sites_are_sent_once_per_motif_witness :
  Scan.sent (Scan.mkScanResult Example.scan_env
               (Scan.mkBackground [1 / 2; 1 / 2] [("WT", [1; 1])])
               1%nat [("CTCF", [Example.stored2])] [])
  = map (fun name =>
           (name,
            Scan.resolve Example.scan_env
              (Scan.sites_of name
                 (flat_map (Scan.region_sites Example.first_positions Example.scan_env)
                           [Example.peak1; Example.peak2]))))
        (Py.dict_keys (Py.dict_fromkeys (Scan.motif_names Example.scan_env)
                                        ([] : list TFBS))).
Proof.
  apply (sites_are_sent_once_per_motif Example.first_positions Example.scan_env tt
           [Example.peak1; Example.peak2]).
  exact scan_two_peaks.
Defined.

End MessagesExample.

(** ** Sorting by location *)

Section Sorting.

Context {A : Type}.
Variable leb : A -> A -> bool.

Lemma insert_sorted_perm (x : A) (l : list A) :
  Permutation (insert_sorted leb x l) (x :: l).
Proof.
  induction l as [|y t IH]; simpl; [reflexivity|].
  destruct (leb x y); [reflexivity|].
  rewrite IH. apply perm_swap.
Qed.

Lemma stable_sort_perm (l : list A) : Permutation (stable_sort leb l) l.
Proof.
  induction l as [|x t IH]; simpl; [constructor|].
  rewrite insert_sorted_perm. now constructor.
Qed.

Hypothesis leb_total : forall a b, leb a b = true \/ leb b a = true.

Lemma insert_sorted_sorted (x : A) (l : list A) :
  Sorted (fun a b => leb a b = true) l ->
  Sorted (fun a b => leb a b = true) (insert_sorted leb x l).
Proof.
  induction l as [|y t IH]; simpl; intros Hs.
  - repeat constructor.
  - destruct (leb x y) eqn:E.
    + constructor; [assumption | constructor; assumption].
    + inversion Hs as [|? ? Ht Hhd]; subst.
      constructor; [now apply IH|].
      destruct t as [|z t']; simpl.
      * constructor. destruct (leb_total x y); congruence.
      * destruct (leb x z); constructor.
        -- destruct (leb_total x y); congruence.
        -- now inversion Hhd.
Qed.

Lemma stable_sort_sorted (l : list A) :
  Sorted (fun a b => leb a b = true) (stable_sort leb l).
Proof.
  induction l as [|x t IH]; simpl; [constructor | now apply insert_sorted_sorted].
Qed.

End Sorting.

(** Sorting by a key and reading the key commute. *)
Lemma stable_sort_map {A K : Type} (key : A -> K) (leb : K -> K -> bool) (l : list A) :
  map key (stable_sort (fun a b => leb (key a) (key b)) l)
  = stable_sort leb (map key l).
Proof.
  induction l as [|x t IH]; simpl; [reflexivity|].
  rewrite <- IH. generalize (stable_sort (fun a b => leb (key a) (key b)) t).
  intros s. induction s as [|y s IHs]; simpl; [reflexivity|].
  destruct (leb (key x) (key y)); simpl; [reflexivity | now rewrite IHs].
Qed.

Lemma loc_leb_total (a b : string * Z * Z) : loc_leb a b = true \/ loc_leb b a = true.
Proof.
  destruct a as [[c1 s1] e1], b as [[c2 s2] e2]. unfold loc_leb.
  rewrite (String.compare_antisym c2 c1).
  destruct (String.compare c1 c2); simpl; auto.
  destruct (Z.ltb_spec s1 s2); auto.
  destruct (Z.ltb_spec s2 s1); auto.
  destruct (Z.leb_spec e1 e2); auto.
  right. destruct (Z.ltb_spec s2 s1); [lia|].
  destruct (Z.ltb_spec s1 s2); [lia|]. apply Z.leb_le. lia.
Qed.

(** ** The classified table *)

Section Classification.

Lemma traverse_keeps {A B K : Type} (f : A -> Py.result B)
      (key_a : A -> K) (key_b : B -> K) :
  (forall a b, f a = Py.Ok b -> key_b b = key_a a) ->
  forall l bs, Py.traverse f l = Py.Ok bs -> map key_b bs = map key_a l.
Proof.
  intros Hf. induction l as [|a t IH]; simpl; intros bs H.
  - now inversion H.
  - apply bind_ok in H. destruct H as [b [Hb H]].
    apply bind_ok in H. destruct H as [bs' [Hbs H]].
    inversion H; subst. simpl. now rewrite (Hf a b Hb), (IH bs').
Qed.

Lemma combine_fst {A B : Type} (l : list A) (l' : list B) :
  List.length l = List.length l' -> map fst (combine l l') = l.
Proof.
  revert l'. induction l as [|a t IH]; intros [|b t'] H; simpl in *;
    try discriminate; [reflexivity|].
  f_equal. apply IH. lia.
Qed.

Lemma combine_snd {A B : Type} (l : list A) (l' : list B) :
  List.length l = List.length l' -> map snd (combine l l') = l'.
Proof.
  revert l'. induction l as [|a t IH]; intros [|b t'] H; simpl in *;
    try discriminate; [reflexivity|].
  f_equal. apply IH. lia.
Qed.

Lemma round_score_keeps_loc (condition : string) (bed_table bed_table' : list Stats.bed_row) :
  Stats.round_score bed_table condition = Py.Ok bed_table' ->
  map Stats.TFBS_loc bed_table' = map Stats.TFBS_loc bed_table.
Proof.
  unfold Stats.round_score. apply traverse_keeps.
  intros row row' H. apply bind_ok in H. destruct H as [v [_ H]].
  now inversion H.
Qed.

Lemma round_scores_keep_loc (conditions : list string) :
  forall bed_table bed_table',
    Py.for_each conditions Stats.round_score bed_table = Py.Ok bed_table' ->
    map Stats.TFBS_loc bed_table' = map Stats.TFBS_loc bed_table.
Proof.
  induction conditions as [|c rest IH]; simpl; intros bed bed' H.
  - now inversion H.
  - apply bind_ok in H. destruct H as [bed1 [H1 H]].
    rewrite (IH _ _ H). now apply round_score_keeps_loc in H1.
Qed.

Lemma bound_split_keeps_loc (args : Stats.Args) (condition : string)
      (bed_table bed_table' : list Stats.bed_row) (info info' : Py.dict R) :
  Stats.bound_split args (bed_table, info) condition = Py.Ok (bed_table', info') ->
  map Stats.TFBS_loc bed_table' = map Stats.TFBS_loc bed_table.
Proof.
  unfold Stats.bound_split. intros H.
  apply bind_ok in H. destruct H as [threshold [_ H]].
  apply bind_ok in H. destruct H as [values [Hv H]].
  inversion H; subst. clear H.
  apply traverse_length in Hv.
  rewrite map_map. simpl.
  rewrite <- (combine_fst bed_table
                (map (fun v => if Np.gtb v threshold then 1 else 0) values)) at 2
    by (now rewrite length_map).
  now rewrite map_map.
Qed.

Lemma bound_splits_keep_loc (args : Stats.Args) (conditions : list string) :
  forall bed_table bed_table' info info',
    Py.for_each conditions (Stats.bound_split args) (bed_table, info)
    = Py.Ok (bed_table', info') ->
    map Stats.TFBS_loc bed_table' = map Stats.TFBS_loc bed_table.
Proof.
  induction conditions as [|c rest IH]; simpl; intros bed bed' info info' H.
  - now inversion H.
  - apply bind_ok in H. destruct H as [[bed1 info1] [H1 H]].
    rewrite (IH _ _ _ _ H). now apply bound_split_keeps_loc in H1.
Qed.

Lemma format_keeps_loc (args : Stats.Args) (arr : list Stats.file_row)
      (bed_table : list Stats.bed_row) :
  Stats.format_bed_table args arr = Py.Ok bed_table ->
  map Stats.TFBS_loc bed_table = stable_sort loc_leb (map Stats.f_loc arr).
Proof.
  unfold Stats.format_bed_table. destruct (Stats.shape arr) as [no_rows no_cols].
  intros H. apply bind_ok in H. destruct H as [header [_ H]].
  apply round_scores_keep_loc in H. rewrite H.
  unfold Stats.sort_values. rewrite stable_sort_map, map_map. reflexivity.
Qed.

(** C1 (as amended).  The statistics pipeline sorts the occurrences of the
    motif by chromosome, start and end and classifies every one of them: no
    overlap resolution is applied between sorting and classification, so
    the classified table holds exactly the occurrences of the temporary
    file, in sorted order. *)
Theorem classified_table_is_sorted_file (args : Stats.Args) (TF_name : string)
        (arr : list Stats.file_row) (bed_table : list Stats.bed_row)
        (info_table : Py.dict R) :
  Stats.classify args TF_name arr = Py.Ok (bed_table, info_table) ->
  map Stats.TFBS_loc bed_table = stable_sort loc_leb (map Stats.f_loc arr)
  /\ Permutation (map Stats.TFBS_loc bed_table) (map Stats.f_loc arr)
  /\ Sorted (fun a b => loc_leb a b = true) (map Stats.TFBS_loc bed_table)
  /\ List.length bed_table = List.length arr.
Proof.
  unfold Stats.classify. intros H.
  apply bind_ok in H. destruct H as [bed0 [Hformat Hsplit]].
  apply bound_splits_keep_loc in Hsplit. apply format_keeps_loc in Hformat.
  assert (Hloc : map Stats.TFBS_loc bed_table
                 = stable_sort loc_leb (map Stats.f_loc arr)) by congruence.
  split; [assumption|]. rewrite Hloc.
  split; [apply stable_sort_perm|].
  split; [apply stable_sort_sorted, loc_leb_total|].
  rewrite <- (length_map Stats.TFBS_loc), Hloc, <- (length_map Stats.f_loc arr).
  apply Permutation_length, stable_sort_perm.
Qed.

End Classification.

(** C1, the claim as stated fails: a temporary file with the overlapping
    occurrences chr1:15-25 and chr1:10-20 is classified with both
    occurrences in the table. *)
Lemma overlapping_occurrences_are_classified :
  exists bed_table info_table,
    Stats.classify Example.args "CTCF" Example.occurrences
    = Py.Ok (bed_table, info_table)
    /\ map Stats.TFBS_loc bed_table = [("chr1", 10, 20); ("chr1", 15, 25)]
    /\ overlaps ("chr1", 10, 20) ("chr1", 15, 25) = true.
Proof.
  eexists. eexists. split; [reflexivity | split; reflexivity].
Qed.

Lemma classified_table_is_sorted_file_witness :
  exists bed_table info_table,
    Stats.classify Example.args "CTCF" Example.occurrences
    = Py.Ok (bed_table, info_table)
    /\ (map Stats.TFBS_loc bed_table
        = stable_sort loc_leb (map Stats.f_loc Example.occurrences)
        /\ Permutation (map Stats.TFBS_loc bed_table)
                       (map Stats.f_loc Example.occurrences)
        /\ Sorted (fun a b => loc_leb a b = true) (map Stats.TFBS_loc bed_table)
        /\ List.length bed_table = List.length Example.occurrences).
Proof.
  eexists. eexists. split; [reflexivity|].
  eapply (classified_table_is_sorted_file Example.args "CTCF" Example.occurrences).
  reflexivity.
Defined.

(** ** Peak identifiers *)

Section PeakIds.

Fixpoint has_underscore (s : string) : Prop :=
  match s with
  | EmptyString => False
  | String a t => a = "_"%char \/ has_underscore t
  end.

Lemma has_underscore_app (s t : string) :
  has_underscore (s ++ t)%string <-> has_underscore s \/ has_underscore t.
Proof. induction s as [|a s IH]; simpl; [tauto | rewrite IH; tauto]. Qed.

Lemma digits_no_underscore (d : Decimal.uint) :
  ~ has_underscore (NilEmpty.string_of_uint d).
Proof.
  induction d; simpl; try tauto;
    intros [H | H]; try discriminate; contradiction.
Qed.

Lemma str_no_underscore (z : Z) : ~ has_underscore (Py.str z).
Proof.
  unfold Py.str, NilZero.string_of_int, NilZero.string_of_uint.
  destruct (Z.to_int z) as [d | d]; destruct d; simpl;
    try (intros [H | H]; try discriminate;
         revert H; try (intros [H | H]; try discriminate; revert H);
         try tauto; apply digits_no_underscore).
Qed.

Lemma str_injective (a b : Z) : Py.str a = Py.str b -> a = b.
Proof.
  unfold Py.str. intros H.
  assert (Hnn : forall z, Z.to_int z <> Decimal.Pos Decimal.Nil
                          /\ Z.to_int z <> Decimal.Neg Decimal.Nil).
  { intros [|p|p]; simpl; split; try discriminate;
      intros E; inversion E as [E']; revert E'; apply DecimalPos.Unsigned.to_uint_nonnil. }
  assert (E : Some (Z.to_int a) = Some (Z.to_int b)).
  { rewrite <- (NilZero.isi (Z.to_int a)), <- (NilZero.isi (Z.to_int b));
      try apply Hnn. now rewrite H. }
  inversion E as [E']. apply (f_equal Z.of_int) in E'.
  now rewrite !DecimalZ.of_to in E'.
Qed.

(** Two strings cut at their last underscore. *)
Lemma split_at_last_underscore (x1 : string) :
  forall x2 y1 y2 : string,
    ~ has_underscore y1 -> ~ has_underscore y2 ->
    (x1 ++ "_" ++ y1 = x2 ++ "_" ++ y2)%string ->
    x1 = x2 /\ y1 = y2.
Proof.
  induction x1 as [|a x1 IH]; intros x2 y1 y2 H1 H2 E; destruct x2 as [|b x2];
    simpl in E.
  - inversion E. auto.
  - inversion E as [[Ha Hy]]. exfalso. apply H1. rewrite Hy.
    apply has_underscore_app. right. simpl. auto.
  - inversion E as [[Ha Hy]]. exfalso. apply H2. rewrite <- Hy.
    apply has_underscore_app. right. simpl. auto.
  - inversion E as [[Ha Hrest]]. destruct (IH x2 y1 y2 H1 H2 Hrest). now subst.
Qed.

(** The identifier of a peak differs between different peaks. *)
Lemma join_peak_injective (c1 c2 : string) (s1 s2 e1 e2 : Z) :
  Py.join "_" [c1; Py.str s1; Py.str e1] = Py.join "_" [c2; Py.str s2; Py.str e2] ->
  (c1, s1, e1) = (c2, s2, e2).
Proof.
  simpl. intros E.
  assert (E' : ((c1 ++ "_" ++ Py.str s1) ++ "_" ++ Py.str e1
                = (c2 ++ "_" ++ Py.str s2) ++ "_" ++ Py.str e2)%string).
  { clear -E. revert E.
    assert (Hassoc : forall a b c : string, ((a ++ b) ++ c = a ++ (b ++ c))%string).
    { induction a; simpl; intros; [reflexivity | now rewrite IHa]. }
    intros E. rewrite !Hassoc. exact E. }
  apply split_at_last_underscore in E'; try apply str_no_underscore.
  destruct E' as [E1 He]. apply str_injective in He.
  apply split_at_last_underscore in E1; try apply str_no_underscore.
  destruct E1 as [Hc Hs]. apply str_injective in Hs. now subst.
Qed.

End PeakIds.

(** ** The observed log2 fold changes of a comparison *)

Section Observed.

Variable args : Stats.Args.
Variable cond1 cond2 : string.

Lemma score_column_values (bed_table : list Stats.bed_row) (name : string)
      (values : list R) :
  Stats.score_column bed_table name = Py.Ok values ->
  values = map (fun row => Stats.score row name) bed_table.
Proof.
  unfold Stats.score_column. revert values.
  induction bed_table as [|row t IH]; simpl; intros values H.
  - now inversion H.
  - apply bind_ok in H. destruct H as [v [Hv H]].
    apply bind_ok in H. destruct H as [vs [Hvs H]].
    inversion H; subst. unfold Stats.score at 1. rewrite Hv.
    now rewrite (IH vs).
Qed.

Lemma combine_map {A B C : Type} (f : A -> B) (g : A -> C) (l : list A) :
  combine (map f l) (map g l) = map (fun a => (f a, g a)) l.
Proof. induction l as [|a t IH]; simpl; [reflexivity | now rewrite IH]. Qed.

Lemma combine_map_r {A B : Type} (g : A -> B) (l : list A) :
  combine l (map g l) = map (fun a => (a, g a)) l.
Proof. induction l as [|a t IH]; simpl; [reflexivity | now rewrite IH]. Qed.

Lemma filter_map_comm {A B : Type} (f : A -> B) (p : B -> bool) (l : list A) :
  filter p (map f l) = map f (filter (fun a => p (f a)) l).
Proof.
  induction l as [|a t IH]; simpl; [reflexivity|].
  destruct (p (f a)); simpl; now rewrite IH.
Qed.

(** The stored column: the rounded log2 ratio of every row. *)
Lemma log2fc_column_values (bed_table : list Stats.bed_row) (log2fcs : list R) :
  Stats.log2fc_column args bed_table cond1 cond2 = Py.Ok log2fcs ->
  log2fcs = map (Stats.row_log2fc args cond1 cond2) bed_table.
Proof.
  unfold Stats.log2fc_column. intros H.
  apply bind_ok in H. destruct H as [v1 [H1 H]].
  apply bind_ok in H. destruct H as [v2 [H2 H]].
  apply score_column_values in H1, H2. subst v1 v2.
  inversion H. rewrite combine_map, map_map. reflexivity.
Qed.

(** The rows that enter the fit, each with the identifier of its peak. *)
Lemma subset_entries_values (bed_table : list Stats.bed_row)
      (entries : list (string * R)) :
  Stats.subset_entries args bed_table cond1 cond2 = Py.Ok entries ->
  entries = map (fun row => (Stats.peak_id row, Stats.row_log2fc args cond1 cond2 row))
                (filter (Stats.row_included cond1 cond2) bed_table).
Proof.
  unfold Stats.subset_entries. intros H.
  apply bind_ok in H. destruct H as [v1 [H1 H]].
  apply bind_ok in H. destruct H as [v2 [H2 H]].
  apply bind_ok in H. destruct H as [lfc [H3 H]].
  apply score_column_values in H1, H2. apply log2fc_column_values in H3.
  subst v1 v2 lfc. inversion H. clear H.
  rewrite combine_map, combine_map, combine_map_r.
  rewrite filter_map_comm, map_map. reflexivity.
Qed.

End Observed.

Section ObservedPerPeak.

Local Open Scope R_scope.

Variable args : Stats.Args.
Variable cond1 cond2 : string.

Lemma gtb_true (x y : R) : Np.gtb x y = true <-> y < x.
Proof.
  unfold Np.gtb. destruct (Rlt_dec y x); split; auto; discriminate.
Qed.

Lemma loc_eqb_eq (a b : string * Z * Z) : Stats.loc_eqb a b = true <-> a = b.
Proof.
  destruct a as [[c1 s1] e1], b as [[c2 s2] e2]. unfold Stats.loc_eqb.
  rewrite !andb_true_iff, String.eqb_eq, !Z.eqb_eq.
  split; [intros [[-> ->] ->]; reflexivity | intros H; inversion H; auto].
Qed.

(** The identifier of a row is the identifier of its peak. *)
Definition id_of_peak (pk : string * Z * Z) : string :=
  let '(c, s, e) := pk in Py.join "_" [c; Py.str s; Py.str e].

Lemma peak_id_of_loc (row : Stats.bed_row) :
  Stats.peak_id row = id_of_peak (Stats.peak_loc row).
Proof. reflexivity. Qed.

Lemma id_of_peak_injective (a b : string * Z * Z) :
  id_of_peak a = id_of_peak b -> a = b.
Proof.
  destruct a as [[c1 s1] e1], b as [[c2 s2] e2]. apply join_peak_injective.
Qed.

Lemma same_id_same_peak (row : Stats.bed_row) (pk : string * Z * Z) :
  String.eqb (Stats.peak_id row) (id_of_peak pk)
  = Stats.loc_eqb (Stats.peak_loc row) pk.
Proof.
  rewrite peak_id_of_loc.
  destruct (String.eqb_spec (id_of_peak (Stats.peak_loc row)) (id_of_peak pk)) as [E | E].
  - apply id_of_peak_injective in E. symmetry. now apply loc_eqb_eq.
  - destruct (Stats.loc_eqb (Stats.peak_loc row) pk) eqn:El; [|reflexivity].
    apply loc_eqb_eq in El. congruence.
Qed.

Lemma NoDup_map_on {A B : Type} (f : A -> B) (l : list A) :
  NoDup l ->
  (forall a b, In a l -> In b l -> f a = f b -> a = b) ->
  NoDup (map f l).
Proof.
  induction 1 as [|x l Hx Hl IH]; intros Hinj; simpl; constructor.
  - intros Hin. apply in_map_iff in Hin. destruct Hin as [y [Hy Hyl]].
    apply Hx. rewrite (Hinj x y); simpl; auto.
  - apply IH. intros a b Ha Hb. apply Hinj; simpl; auto.
Qed.

(** The keys of a grouping: every key once. *)
Lemma group_keys (keys : list string) :
  NoDup (stable_sort String.leb (nodup string_dec keys))
  /\ forall k, In k (stable_sort String.leb (nodup string_dec keys)) <-> In k keys.
Proof.
  pose proof (stable_sort_perm String.leb (nodup string_dec keys)) as Hp.
  split.
  - eapply Permutation_NoDup; [symmetry; exact Hp | apply NoDup_nodup].
  - intros k. rewrite <- (nodup_In string_dec keys k). split; apply Permutation_in;
      [exact Hp | symmetry; exact Hp].
Qed.

(** The peak behind a key of the grouping. *)
Definition peak_of_key (rows : list Stats.bed_row) (k : string) : string * Z * Z :=
  match find (fun row => String.eqb (Stats.peak_id row) k) rows with
  | Some row => Stats.peak_loc row
  | None => (""%string, 0%Z, 0%Z)
  end.

Lemma peak_of_key_spec (rows : list Stats.bed_row) (k : string) :
  In k (map Stats.peak_id rows) ->
  id_of_peak (peak_of_key rows k) = k
  /\ exists row, In row rows /\ Stats.peak_loc row = peak_of_key rows k.
Proof.
  intros Hin. apply in_map_iff in Hin. destruct Hin as [row0 [Hid Hrow0]].
  unfold peak_of_key.
  destruct (find (fun row => String.eqb (Stats.peak_id row) k) rows) as [row|] eqn:E.
  - apply find_some in E. destruct E as [Hrow Hk]. apply String.eqb_eq in Hk.
    split; [now rewrite <- peak_id_of_loc | eauto].
  - exfalso. apply (find_none _ _ E) in Hrow0.
    rewrite Hid, String.eqb_refl in Hrow0. discriminate.
Qed.

(** C6 (as amended).  For a comparison (A, B) the stored log2 fold change
    of an occurrence is log2((scoreA + pseudocount) / (scoreB +
    pseudocount)) rounded to five decimals; only the occurrences of which
    at least one of the two scores is above zero enter the fit; and the
    occurrences that enter the fit are collapsed by peak: the fitted sample
    has exactly one value per peak, the mean of the stored log2 fold
    changes of the occurrences of that peak. *)
Theorem one_fitted_value_per_peak (bed_table : list Stats.bed_row)
        (observed : list R) :
  Stats.observed_log2fcs args bed_table cond1 cond2 = Py.Ok observed ->
  let scoreA := fun row => Stats.score row (cond1 ++ "_score") in
  let scoreB := fun row => Stats.score row (cond2 ++ "_score") in
  let log2fc := fun row =>
    Np.round (Np.log2 ((scoreA row + Stats.pseudo args)
                       / (scoreB row + Stats.pseudo args))) 5 in
  let fitted := filter (Stats.row_included cond1 cond2) bed_table in
  Stats.log2fc_column args bed_table cond1 cond2 = Py.Ok (map log2fc bed_table)
  /\ (forall row, In row fitted
                  <-> In row bed_table /\ (0 < scoreA row \/ 0 < scoreB row))
  /\ exists peaks : list (string * Z * Z),
      NoDup peaks
      /\ (forall pk, In pk peaks
                     <-> exists row, In row fitted /\ Stats.peak_loc row = pk)
      /\ observed
         = map (fun pk =>
                  Np.mean (map log2fc
                               (filter (fun row => Stats.loc_eqb (Stats.peak_loc row) pk)
                                       fitted)))
               peaks.
Proof.
  intros Hobs scoreA scoreB log2fc fitted.
  unfold Stats.observed_log2fcs in Hobs.
  apply bind_ok in Hobs. destruct Hobs as [entries [Hentries Hobs]].
  inversion Hobs as [Hobserved]. clear Hobs.
  pose proof Hentries as Hcol. unfold Stats.subset_entries in Hcol.
  apply bind_ok in Hcol. destruct Hcol as [v1 [_ Hcol]].
  apply bind_ok in Hcol. destruct Hcol as [v2 [_ Hcol]].
  apply bind_ok in Hcol. destruct Hcol as [lfc [Hcol _]].
  split.
  { rewrite Hcol. f_equal. now apply log2fc_column_values. }
  split.
  { intros row. unfold fitted. rewrite filter_In.
    unfold Stats.row_included, Stats.included.
    rewrite orb_true_iff, !gtb_true. reflexivity. }
  apply subset_entries_values in Hentries. fold fitted in Hentries.
  set (keys := stable_sort String.leb (nodup string_dec (map fst entries))).
  destruct (group_keys (map fst entries)) as [Hnd Hin]. fold keys in Hnd, Hin.
  assert (Hids : map fst entries = map Stats.peak_id fitted)
    by (rewrite Hentries, map_map; reflexivity).
  rewrite Hids in Hin.
  exists (map (peak_of_key fitted) keys). split; [|split].
  - (* one entry per peak *)
    apply NoDup_map_on; [assumption|].
    intros k k' Hk Hk' E.
    destruct (peak_of_key_spec fitted k) as [Hid _]; [now apply Hin|].
    destruct (peak_of_key_spec fitted k') as [Hid' _]; [now apply Hin|].
    congruence.
  - intros pk. rewrite in_map_iff. split.
    + intros [k [Hk Hink]]. apply Hin in Hink.
      destruct (peak_of_key_spec fitted k Hink) as [_ [row [Hrow Hloc]]].
      exists row. split; [assumption | congruence].
    + intros [row [Hrow Hloc]].
      assert (Hink : In (Stats.peak_id row) (map Stats.peak_id fitted))
        by now apply in_map.
      exists (Stats.peak_id row). split; [|now apply Hin].
      destruct (peak_of_key_spec fitted _ Hink) as [Hid _].
      rewrite peak_id_of_loc in Hid. apply id_of_peak_injective in Hid.
      rewrite peak_id_of_loc. congruence.
  - unfold Stats.groupby_mean. fold keys.
    rewrite !map_map. apply map_ext_in. intros k Hk. simpl.
    f_equal. rewrite Hentries, filter_map_comm, map_map. simpl.
    apply Hin in Hk. destruct (peak_of_key_spec fitted k Hk) as [Hid _].
    f_equal. apply filter_ext. intros row.
    change (String.eqb (Stats.peak_id row) k
            = Stats.loc_eqb (Stats.peak_loc row) (peak_of_key fitted k)).
    rewrite <- same_id_same_peak, Hid. reflexivity.
Qed.

End ObservedPerPeak.

(** ** A log2 fold change that rounding changes *)

Section Log2Of3.

Local Open Scope R_scope.

Lemma pow3_not_pow2 (k m : nat) : k <> 0%nat -> (3 ^ k <> 2 ^ m)%nat.
Proof.
  intros Hk E. destruct m as [|m].
  - pose proof (Nat.pow_gt_1 3 k). simpl in E. lia.
  - apply (f_equal Nat.odd) in E.
    rewrite Nat.odd_pow in E by assumption.
    rewrite Nat.odd_pow in E by discriminate.
    discriminate.
Qed.

Lemma ln_2_pos : 0 < ln 2.
Proof. rewrite <- ln_1. apply ln_increasing; lra. Qed.

Lemma ln_3_pos : 0 < ln 3.
Proof. rewrite <- ln_1. apply ln_increasing; lra. Qed.

(** log2(3) has no finite decimal expansion. *)
Lemma log2_3_not_decimal (d : nat) (n : Z) : Np.log2 3 * 10 ^ d <> IZR n.
Proof.
  unfold Np.log2. intros E.
  pose proof ln_2_pos as H2. pose proof ln_3_pos as H3.
  pose proof (pow10_pos d) as H10.
  assert (Hn : (0 < n)%Z).
  { apply lt_0_IZR. rewrite <- E.
    apply Rmult_lt_0_compat; [|assumption].
    apply Rdiv_lt_0_compat; assumption. }
  assert (Hmul : INR (10 ^ d) * ln 3 = INR (Z.to_nat n) * ln 2).
  { rewrite pow_INR, (INR_IZR_INZ (Z.to_nat n)), Z2Nat.id by lia.
    replace (INR 10) with 10 by (simpl; lra).
    rewrite <- E. field. lra. }
  rewrite <- !ln_pow in Hmul by lra.
  apply ln_inv in Hmul; try (apply pow_lt; lra).
  replace 3 with (INR 3) in Hmul by (simpl; lra).
  replace 2 with (INR 2) in Hmul by (simpl; lra).
  rewrite <- !pow_INR in Hmul. apply INR_eq in Hmul.
  revert Hmul. apply pow3_not_pow2.
  apply Nat.pow_nonzero. discriminate.
Qed.

Lemma round_log2_3 (d : nat) : Np.round (Np.log2 3) d <> Np.log2 3.
Proof.
  intros E. destruct (round_is_decimal (Np.log2 3) d) as [n Hn].
  rewrite E in Hn. revert Hn. apply log2_3_not_decimal.
Qed.

(** C6, the claim as stated fails: for an occurrence with the scores 2 and
    0 and the pseudocount 1 the ratio is 3; the stored log2 fold change is
    log2(3) rounded to five decimals, which is not log2(3). *)
Lemma stored_log2fc_is_rounded :
  exists v,
    Stats.log2fc_column Example.args Example.fold_table "WT" "KO" = Py.Ok [v]
    /\ v <> Np.log2 ((2 + 1) / (0 + 1)).
Proof.
  exists (Np.round (Np.log2 ((2 + 1) / (0 + 1))) 5). split; [reflexivity|].
  replace ((2 + 1) / (0 + 1)) with 3 by field.
  apply round_log2_3.
Qed.

End Log2Of3.

(** ** A comparison and its reverse *)

Section Reversal.

Local Open Scope R_scope.

Variable ttest : ttest_ind_from_stats_t.
Variable args : Stats.Args.

Lemma log2_inv (x : R) : 0 < x -> Np.log2 (/ x) = - Np.log2 x.
Proof.
  intros Hx. unfold Np.log2. rewrite ln_Rinv by assumption.
  field. pose proof ln_2_pos. lra.
Qed.

(** Reversing the comparison negates the stored log2 fold change. *)
Lemma log2fc_value_swap (p a b : R) :
  0 < a + p -> 0 < b + p ->
  Stats.log2fc_value p b a = - Stats.log2fc_value p a b.
Proof.
  intros Ha Hb. unfold Stats.log2fc_value.
  rewrite <- round_opp. f_equal. rewrite <- log2_inv.
  - f_equal. field. lra.
  - apply Rdiv_lt_0_compat; assumption.
Qed.





(** The entries of the fit, computed from the score columns. *)
Lemma subset_entries_runs (bed_table : list Stats.bed_row) (cond1 cond2 : string)
      (v1 v2 : list R) :
  Stats.score_column bed_table (cond1 ++ "_score") = Py.Ok v1 ->
  Stats.score_column bed_table (cond2 ++ "_score") = Py.Ok v2 ->
  Stats.subset_entries args bed_table cond1 cond2
  = Py.Ok (map (fun row => (Stats.peak_id row, Stats.row_log2fc args cond1 cond2 row))
               (filter (Stats.row_included cond1 cond2) bed_table)).
Proof.
  intros H1 H2.
  destruct (Stats.subset_entries args bed_table cond1 cond2) as [entries | e] eqn:E.
  - f_equal. now apply subset_entries_values.
  - exfalso. unfold Stats.subset_entries, Stats.log2fc_column in E.
    rewrite H1, H2 in E. simpl in E. discriminate.
Qed.




End Reversal.

Section ReversalClaim.

Local Open Scope R_scope.



End ReversalClaim.

Section IncludedRows.

Local Open Scope R_scope.

Lemma even_row_included (cond1 cond2 : string) (row : Stats.bed_row) :
  Stats.score row (cond1 ++ "_score") = 1 ->
  Stats.row_included cond1 cond2 row = true.
Proof.
  intros H. unfold Stats.row_included, Stats.included. rewrite H.
  apply orb_true_iff. left. apply gtb_true. lra.
Qed.

Lemma scored_row_included (cond1 cond2 : string) (row : Stats.bed_row) :
  0 < Stats.score row (cond1 ++ "_score") ->
  Stats.row_included cond1 cond2 row = true.
Proof.
  intros H. unfold Stats.row_included, Stats.included.
  apply orb_true_iff. left. now apply gtb_true.
Qed.

Lemma result_returns {A : Type} (default : A) (m : Py.result A) :
  Py.is_ok m = true -> m = Py.Ok (result_value default m).
Proof. destruct m; simpl; [reflexivity | discriminate]. Qed.

End IncludedRows.

(** ** The fitted sample of the table of four occurrences *)

Section FittedSample.

Local Open Scope R_scope.

Lemma row_included_iff (cond1 cond2 : string) (row : Stats.bed_row) :
  Stats.row_included cond1 cond2 row = true
  <-> 0 < Stats.score row (cond1 ++ "_score") \/ 0 < Stats.score row (cond2 ++ "_score").
Proof.
  unfold Stats.row_included, Stats.included.
  rewrite orb_true_iff, !gtb_true. reflexivity.
Qed.

Ltac decide_included :=
  match goal with
  | |- context [if Stats.row_included ?a ?b ?r then _ else _] =>
      let E := fresh "E" in
      destruct (Stats.row_included a b r) eqn:E;
      [ try (exfalso; apply row_included_iff in E; unfold Stats.score in E;
             simpl in E; lra)
      | try (exfalso; apply not_true_iff_false in E; apply E;
             apply row_included_iff; unfold Stats.score; simpl; lra) ]
  end.

(** The occurrence without a score is the one that is left out. *)
Lemma peak_table_fitted :
  filter (Stats.row_included "WT" "KO") Example.peak_table
  = map (Stats.name_columns ["WT"; "KO"])
        [Stats.mkFileRow "chr1" 10 20 "CTCF" 8 "+" "chr1" 0 100 [] (1 / 2) [2; 0];
         Stats.mkFileRow "chr1" 30 40 "CTCF" 9 "-" "chr1" 0 100 [] (1 / 2) [1; 3];
         Stats.mkFileRow "chr1" 250 260 "CTCF" 8 "+" "chr1" 200 300 [] (2 / 5) [3; 1]].
Proof.
  unfold Example.peak_table, Example.peak_rows. cbn [map filter].
  repeat decide_included. reflexivity.
Qed.

(** The three occurrences that enter the fit give two values, one per
    peak. *)
Lemma peak_table_observed :
  exists a b,
    Stats.observed_log2fcs Example.args Example.peak_table "WT" "KO" = Py.Ok [a; b].
Proof.
  unfold Stats.observed_log2fcs.
  erewrite subset_entries_runs; [|reflexivity|reflexivity].
  rewrite peak_table_fitted. cbn [Py.bind].
  eexists. eexists. reflexivity.
Qed.

End FittedSample.

(** C6 at the table of four occurrences in two peaks: two occurrences of
    the peak chr1:0-100 enter the fit, and of the two occurrences of the
    peak chr1:200-300 the one without a score is left out. *)
Lemma one_fitted_value_per_peak_witness :
  exists observed,
    Stats.observed_log2fcs Example.args Example.peak_table "WT" "KO" = Py.Ok observed
    /\ List.length Example.peak_table = 4%nat
    /\ List.length (filter (Stats.row_included "WT" "KO") Example.peak_table) = 3%nat
    /\ List.length observed = 2%nat
    /\ (let scoreA := fun row => Stats.score row ("WT" ++ "_score") in
        let scoreB := fun row => Stats.score row ("KO" ++ "_score") in
        let log2fc := fun row =>
          Np.round (Np.log2 ((scoreA row + Stats.pseudo Example.args)
                             / (scoreB row + Stats.pseudo Example.args))) 5 in
        let fitted := filter (Stats.row_included "WT" "KO") Example.peak_table in
        Stats.log2fc_column Example.args Example.peak_table "WT" "KO"
        = Py.Ok (map log2fc Example.peak_table)
        /\ (forall row, In row fitted
                        <-> In row Example.peak_table
                            /\ (0 < scoreA row \/ 0 < scoreB row))%R
        /\ exists peaks : list (string * Z * Z),
            NoDup peaks
            /\ (forall pk, In pk peaks
                           <-> exists row, In row fitted /\ Stats.peak_loc row = pk)
            /\ observed
               = map (fun pk =>
                        Np.mean (map log2fc
                                     (filter (fun row =>
                                                Stats.loc_eqb (Stats.peak_loc row) pk)
                                             fitted)))
                     peaks).
Proof.
  destruct peak_table_observed as [a [b Hobserved]].
  exists [a; b]. split; [exact Hobserved|].
  split; [reflexivity|].
  split; [rewrite peak_table_fitted; reflexivity|].
  split; [reflexivity|].
  apply (one_fitted_value_per_peak Example.args "WT" "KO" Example.peak_table).
  exact Hobserved.
Defined.


(** ** GC content of a set of regions *)

Section GcContent.

Local Open Scope R_scope.

Variable fetch : Gc.fetch_t.

Lemma gc_loop (regions : list OneRegion) (gc : R) (total : Z) :
  Py.for_each regions (Gc.add_region fetch) (gc, total)
  = (seqs <- fetched fetch regions ;;
     Py.Ok (gc + gc_of seqs, (total + span regions)%Z)).
Proof.
  revert gc total. induction regions as [|region rest IH]; intros gc total.
  - simpl. unfold gc_of. simpl. f_equal. f_equal; [lra | lia].
  - unfold fetched in *. simpl.
    destruct (fetch (chrom region) (start region) (end_ region)) as [seq|e];
      [|reflexivity].
    simpl. rewrite IH.
    destruct (Py.traverse _ rest) as [seqs|e]; [|reflexivity].
    simpl. unfold gc_of. simpl. f_equal. f_equal; [lra | lia].
Qed.

Lemma get_gc_content_fetched (regions : list OneRegion) (seqs : list string) :
  fetched fetch regions = Py.Ok seqs ->
  Gc.get_gc_content fetch regions
  = if (span regions =? 0)%Z then Gc.Raises Gc.ZeroDivisionError
    else Gc.Returns (gc_of seqs / IZR (span regions)).
Proof.
  intros H. unfold Gc.get_gc_content. rewrite gc_loop, H. simpl.
  rewrite Rplus_0_l. reflexivity.
Qed.

Lemma nuc_count_bounds (nuc : ascii) : 0 <= Gc.get Gc.nuc_count nuc (1 / 2) <= 1.
Proof.
  unfold Gc.get, Gc.nuc_count.
  repeat match goal with |- context [Ascii.eqb ?a ?b] => destruct (Ascii.eqb a b) end;
    lra.
Qed.

Lemma seq_gc_bounds (seq : string) : 0 <= Gc.seq_gc seq <= INR (String.length seq).
Proof.
  unfold Gc.seq_gc. induction seq as [|c t IH].
  - simpl. lra.
  - change (String.length (String c t)) with (S (String.length t)).
    rewrite S_INR. cbn [list_ascii_of_string map Np.sum fold_right].
    pose proof (nuc_count_bounds c). unfold Np.sum in IH. lra.
Qed.

Lemma fetched_app (l1 l2 : list OneRegion) :
  fetched fetch (l1 ++ l2)
  = (s1 <- fetched fetch l1 ;; s2 <- fetched fetch l2 ;; Py.Ok (s1 ++ s2)).
Proof.
  unfold fetched. induction l1 as [|r t IH]; simpl.
  - destruct (Py.traverse _ l2); reflexivity.
  - destruct (fetch _ _ _); [|reflexivity]. simpl. rewrite IH.
    destruct (Py.traverse _ t); [|reflexivity]. simpl.
    destruct (Py.traverse _ l2); reflexivity.
Qed.



End GcContent.

Section GcContentProperties.

Local Open Scope R_scope.


Lemma gc_of_bounds (regions : list OneRegion) (seqs : list string) :
  Forall2 (fun region seq =>
             Z.of_nat (String.length seq) = (end_ region - start region)%Z)
          regions seqs ->
  0 <= gc_of seqs <= IZR (span regions).
Proof.
  induction 1 as [|region seq regions seqs Hlen _ IH].
  - unfold gc_of. simpl. lra.
  - change (gc_of (seq :: seqs)) with (Gc.seq_gc seq + gc_of seqs).
    simpl span. rewrite plus_IZR, <- Hlen, <- INR_IZR_INZ.
    pose proof (seq_gc_bounds seq). lra.
Qed.

(** X1.  When the regions have a summed length of zero, in particular when
    there is no region, [get_gc_content] raises [ZeroDivisionError]. *)
Theorem gc_content_of_no_sequence (fetch : Gc.fetch_t) (regions : list OneRegion)
        (seqs : list string) :
  fetched fetch regions = Py.Ok seqs ->
  span regions = 0%Z ->
  Gc.get_gc_content fetch regions = Gc.Raises Gc.ZeroDivisionError.
Proof.
  intros Hseqs Hspan. rewrite (get_gc_content_fetched fetch regions seqs Hseqs).
  now rewrite Hspan.
Qed.

(** X2.  When every region is fetched in full and the regions are not
    empty, the GC content is a fraction between 0 and 1. *)
Theorem gc_content_is_a_fraction (fetch : Gc.fetch_t) (regions : list OneRegion)
        (seqs : list string) :
  fetched fetch regions = Py.Ok seqs ->
  Forall2 (fun region seq =>
             Z.of_nat (String.length seq) = (end_ region - start region)%Z)
          regions seqs ->
  (0 < span regions)%Z ->
  exists gc_content,
    Gc.get_gc_content fetch regions = Gc.Returns gc_content
    /\ 0 <= gc_content <= 1.
Proof.
  intros Hseqs Hlen Hspan.
  rewrite (get_gc_content_fetched fetch regions seqs Hseqs).
  destruct (Z.eqb_spec (span regions) 0) as [|_]; [lia|].
  eexists. split; [reflexivity|].
  pose proof (gc_of_bounds regions seqs Hlen) as [H0 H1].
  assert (0 < IZR (span regions)) by now apply IZR_lt.
  split.
  - apply Rmult_le_reg_r with (IZR (span regions)); [assumption|].
    unfold Rdiv. rewrite Rmult_assoc, Rinv_l by lra. lra.
  - apply Rmult_le_reg_r with (IZR (span regions)); [assumption|].
    unfold Rdiv. rewrite Rmult_assoc, Rinv_l by lra. lra.
Qed.

Lemma nuc_count_lower (c : ascii) :
  Gc.get Gc.nuc_count (lower_char c) (1 / 2) = Gc.get Gc.nuc_count c (1 / 2).
Proof.
  destruct c as [[] [] [] [] [] [] [] []]; reflexivity.
Qed.

Lemma seq_gc_lower (seq : string) : Gc.seq_gc (lower seq) = Gc.seq_gc seq.
Proof.
  unfold Gc.seq_gc. induction seq as [|c t IH]; [reflexivity|].
  cbn [lower list_ascii_of_string map Np.sum fold_right].
  rewrite nuc_count_lower. unfold Np.sum in IH. now rewrite IH.
Qed.

(** X3.  The GC content does not depend on the case of the sequence: a
    genome in lower case gives the same result. *)
Theorem gc_content_ignores_case (fetch : Gc.fetch_t) (regions : list OneRegion) :
  Gc.get_gc_content
    (fun chrom start end_ => seq <- fetch chrom start end_ ;; Py.Ok (lower seq))
    regions
  = Gc.get_gc_content fetch regions.
Proof.
  unfold Gc.get_gc_content.
  assert (H : forall s,
             Py.for_each regions
               (Gc.add_region
                  (fun chrom start end_ =>
                     seq <- fetch chrom start end_ ;; Py.Ok (lower seq))) s
             = Py.for_each regions (Gc.add_region fetch) s).
  { induction regions as [|region rest IH]; intros [gc total]; [reflexivity|].
    simpl. destruct (fetch _ _ _) as [seq|e]; [|reflexivity].
    simpl. rewrite seq_gc_lower. apply IH. }
  now rewrite H.
Qed.


End GcContentProperties.

Lemma gc_content_of_no_sequence_witness :
  Gc.get_gc_content GcExample.fetch [GcExample.nothing]
  = Gc.Raises Gc.ZeroDivisionError.
Proof.
  apply (gc_content_of_no_sequence GcExample.fetch [GcExample.nothing] [""]);
    reflexivity.
Defined.

Lemma gc_content_is_a_fraction_witness :
  exists gc_content,
    Gc.get_gc_content GcExample.fetch [GcExample.first_four; GcExample.last_four]
    = Gc.Returns gc_content
    /\ (0 <= gc_content <= 1)%R.
Proof.
  apply (gc_content_is_a_fraction
           GcExample.fetch [GcExample.first_four; GcExample.last_four]
           ["ACGT"; "ggcc"]).
  - reflexivity.
  - repeat constructor.
  - reflexivity.
Defined.


(** ** The volcano plot *)

Section Volcano.

Local Open Scope R_scope.

Lemma dict_set_fresh {V : Type} (d : Py.dict V) (k : string) (v : V) :
  ~ In k (map fst d) -> Py.dict_set d k v = d ++ [(k, v)].
Proof.
  induction d as [|[k' v'] t IH]; intros Hk; [reflexivity|].
  simpl in *. destruct (String.eqb_spec k' k) as [->|_].
  - exfalso. auto.
  - rewrite IH; auto.
Qed.

Lemma link_loop (motifs : list Plot.motif) (acc : Py.dict Plot.entry) :
  NoDup (map Plot.name motifs) ->
  (forall m, In m motifs -> ~ In (Plot.name m) (map fst acc)) ->
  fold_left (fun diff_scores m =>
               Py.dict_set diff_scores (Plot.name m) (Plot.link_motif m))
            motifs acc
  = acc ++ map (fun m => (Plot.name m, Plot.link_motif m)) motifs.
Proof.
  revert acc. induction motifs as [|m rest IH]; intros acc Hnd Hfresh.
  - simpl. now rewrite app_nil_r.
  - simpl. inversion Hnd as [|? ? Hm Hrest]. subst.
    rewrite dict_set_fresh by (apply Hfresh; now left).
    rewrite IH; [now rewrite <- app_assoc | assumption |].
    intros m' Hin. rewrite map_app, in_app_iff. simpl.
    intros [H | [H | []]].
    + apply (Hfresh m'); [now right | assumption].
    + apply Hm. rewrite H. now apply in_map.
Qed.

Lemma link_unique_names (motifs : list Plot.motif) :
  NoDup (map Plot.name motifs) ->
  Plot.link motifs = map (fun m => (Plot.name m, Plot.link_motif m)) motifs.
Proof.
  intros Hnd. unfold Plot.link. now rewrite link_loop.
Qed.

Lemma color_point_raises (v : Plot.volcano) (kv : string * Plot.entry) (e : Py.exn) :
  Plot.color_point v kv = Py.Raise e -> e = Py.KeyError.
Proof.
  unfold Plot.color_point.
  destruct (Plot.color (snd kv)); simpl; [|congruence].
  destruct (Plot.show (snd kv)); simpl; congruence.
Qed.

Lemma color_points_raise (d : Py.dict Plot.entry) (v : Plot.volcano) :
  Exists (fun kv => Plot.color (snd kv) = None) d ->
  Py.for_each d Plot.color_point v = Py.Raise Py.KeyError.
Proof.
  intros H. revert v. induction H as [kv t Hkv | kv t _ IH]; intros v; simpl.
  - unfold Plot.color_point. now rewrite Hkv.
  - destruct (Plot.color_point v kv) as [v'|e] eqn:E; simpl.
    + apply IH.
    + now rewrite (color_point_raises v kv e E).
Qed.

Lemma decide_show_zero (xmin xmax ymin : R) (m : Plot.motif) :
  Plot.change m = 0 ->
  shown xmin xmax ymin m = true ->
  Plot.color (Plot.decide_show xmin xmax ymin (Plot.link_motif m)) = None.
Proof.
  intros H0 Hs. unfold Plot.decide_show. unfold shown in Hs.
  change (Plot.e_change (Plot.link_motif m)) with (Plot.change m).
  rewrite Hs.
  change (Plot.e_change (Plot.set_show (Plot.link_motif m) true))
    with (Plot.change m).
  rewrite H0.
  unfold Np.gtb. destruct (Rlt_dec 0 0) as [H|_]; [lra|]. reflexivity.
Qed.

Lemma decide_show_nonzero (xmin xmax ymin : R) (m : Plot.motif) :
  (shown xmin xmax ymin m = true -> Plot.change m <> 0) ->
  Plot.color (Plot.decide_show xmin xmax ymin (Plot.link_motif m))
  = Some (colour_of xmin xmax ymin m)
  /\ Plot.show (Plot.decide_show xmin xmax ymin (Plot.link_motif m))
     = Some (shown xmin xmax ymin m).
Proof.
  intros Hne. unfold Plot.decide_show, colour_of.
  change (Plot.e_change (Plot.link_motif m)) with (Plot.change m).
  fold (shown xmin xmax ymin m).
  destruct (shown xmin xmax ymin m); [|split; reflexivity].
  change (Plot.e_change (Plot.set_show (Plot.link_motif m) true))
    with (Plot.change m).
  specialize (Hne eq_refl).
  unfold Np.gtb. destruct (Rlt_dec (Plot.change m) 0) as [Hneg|Hnn].
  - split; reflexivity.
  - destruct (Rlt_dec 0 (Plot.change m)) as [Hpos|Hnp]; [split; reflexivity|].
    exfalso. lra.
Qed.

End Volcano.

Section VolcanoProperties.

Local Open Scope R_scope.

Variable percentile : Plot.percentile_t.

(** X5.  A motif whose change is exactly 0 and which is shown (the band of
    the changes lies on one side of 0, or its p-value is above the line) is
    given no colour, and the loop that colours the points raises
    [KeyError]. *)
Theorem unchanged_motif_shown_raises (motifs : list Plot.motif) (m : Plot.motif) :
  NoDup (map Plot.name motifs) ->
  In m motifs ->
  Plot.change m = 0 ->
  shown (Plot.x_min percentile (Plot.link motifs))
        (Plot.x_max percentile (Plot.link motifs))
        (Plot.y_min percentile (Plot.link motifs)) m = true ->
  Plot.plot_bindetect percentile motifs = Py.Raise Py.KeyError.
Proof.
  intros Hnd Hin H0 Hs. unfold Plot.plot_bindetect, Plot.color_points.
  apply color_points_raise. unfold Plot.define_shown.
  set (xmin := Plot.x_min percentile (Plot.link motifs)) in *.
  set (xmax := Plot.x_max percentile (Plot.link motifs)) in *.
  set (ymin := Plot.y_min percentile (Plot.link motifs)) in *.
  rewrite (link_unique_names motifs Hnd), map_map. cbn [fst snd].
  apply Exists_exists.
  exists (Plot.name m, Plot.decide_show xmin xmax ymin (Plot.link_motif m)).
  split.
  - apply in_map_iff. exists m. auto.
  - now apply decide_show_zero.
Qed.

Lemma decide_show_fields (xmin xmax ymin : R) (e : Plot.entry) :
  Plot.e_change (Plot.decide_show xmin xmax ymin e) = Plot.e_change e
  /\ Plot.log10pvalue (Plot.decide_show xmin xmax ymin e) = Plot.log10pvalue e
  /\ Plot.volcano_label (Plot.decide_show xmin xmax ymin e) = Plot.volcano_label e.
Proof.
  unfold Plot.decide_show.
  destruct (_ || _ || _); [|auto].
  destruct (Np.gtb 0 _); [auto|]. destruct (Np.gtb _ 0); auto.
Qed.

Lemma color_loop (xmin xmax ymin : R) (motifs : list Plot.motif) (v : Plot.volcano) :
  (forall m, In m motifs -> shown xmin xmax ymin m = true -> Plot.change m <> 0) ->
  Py.for_each
    (map (fun m => (Plot.name m, Plot.decide_show xmin xmax ymin (Plot.link_motif m)))
         motifs)
    Plot.color_point v
  = Py.Ok (Plot.mkVolcano
             (Plot.points v ++ map (point_of xmin xmax ymin) motifs)
             (Plot.txts v ++ map text_of (filter (shown xmin xmax ymin) motifs))).
Proof.
  revert v. induction motifs as [|m rest IH]; intros v Hne.
  - simpl. rewrite !app_nil_r. now destruct v.
  - cbn [map Py.for_each]. unfold Plot.color_point at 1. cbn [snd].
    destruct (decide_show_nonzero xmin xmax ymin m) as [Hc Hs].
    { apply Hne. now left. }
    destruct (decide_show_fields xmin xmax ymin (Plot.link_motif m))
      as [-> [-> ->]].
    rewrite Hc, Hs. cbn [Plot.key Py.bind].
    rewrite IH by (intros m' Hin; apply Hne; now right).
    cbn [Plot.points Plot.txts filter].
    f_equal. f_equal.
    + rewrite <- app_assoc. reflexivity.
    + destruct (shown xmin xmax ymin m); [|reflexivity].
      rewrite <- app_assoc. reflexivity.
Qed.

(** X6.  When no shown motif has a change of exactly 0, the volcano plot
    has one point per motif, blue for a shown motif with a negative change,
    red for a shown motif with a positive change and black for a motif that
    is not shown, and one label per shown motif, in the order of the
    motifs. *)
Theorem volcano_points_and_labels (motifs : list Plot.motif) :
  NoDup (map Plot.name motifs) ->
  (forall m, In m motifs ->
             shown (Plot.x_min percentile (Plot.link motifs))
                   (Plot.x_max percentile (Plot.link motifs))
                   (Plot.y_min percentile (Plot.link motifs)) m = true ->
             Plot.change m <> 0) ->
  Plot.plot_bindetect percentile motifs
  = Py.Ok (Plot.mkVolcano
             (map (point_of (Plot.x_min percentile (Plot.link motifs))
                            (Plot.x_max percentile (Plot.link motifs))
                            (Plot.y_min percentile (Plot.link motifs))) motifs)
             (map text_of
                  (filter (shown (Plot.x_min percentile (Plot.link motifs))
                                 (Plot.x_max percentile (Plot.link motifs))
                                 (Plot.y_min percentile (Plot.link motifs)))
                          motifs))).
Proof.
  intros Hnd Hne. unfold Plot.plot_bindetect, Plot.color_points, Plot.define_shown.
  set (xmin := Plot.x_min percentile (Plot.link motifs)) in *.
  set (xmax := Plot.x_max percentile (Plot.link motifs)) in *.
  set (ymin := Plot.y_min percentile (Plot.link motifs)) in *.
  rewrite (link_unique_names motifs Hnd), map_map. cbn [fst snd].
  now rewrite (color_loop xmin xmax ymin motifs (Plot.mkVolcano [] []) Hne).
Qed.

End VolcanoProperties.

Lemma unchanged_motif_shown_raises_witness :
  Plot.plot_bindetect PlotExample.percentile [PlotExample.unchanged; PlotExample.up]
  = Py.Raise Py.KeyError.
Proof.
  apply (unchanged_motif_shown_raises
           PlotExample.percentile [PlotExample.unchanged; PlotExample.up]
           PlotExample.unchanged).
  - apply NoDup_cons; [simpl; intros [H | H]; [discriminate | contradiction]|].
    apply NoDup_cons; [simpl; tauto | apply NoDup_nil].
  - left. reflexivity.
  - reflexivity.
  - unfold shown. apply orb_true_iff. left. apply orb_true_iff. left.
    apply gtb_true. unfold Plot.x_min, PlotExample.percentile. simpl. lra.
Defined.

Lemma volcano_points_and_labels_witness :
  exists v,
    Plot.plot_bindetect PlotExample.percentile [PlotExample.up; PlotExample.down]
    = Py.Ok v
    /\ List.length (Plot.points v) = 2%nat.
Proof.
  eexists. split.
  - apply (volcano_points_and_labels
             PlotExample.percentile [PlotExample.up; PlotExample.down]).
    + apply NoDup_cons; [simpl; intros [H | H]; [discriminate | contradiction]|].
    apply NoDup_cons; [simpl; tauto | apply NoDup_nil].
    + intros m [<- | [<- | []]] _; simpl; lra.
  - reflexivity.
Defined.

Section Underflow.

Local Open Scope R_scope.

Lemma ln_10_pos : 0 < ln 10.
Proof. rewrite <- ln_1. apply ln_increasing; lra. Qed.

Lemma log10_inv_pow (n : nat) : Plot.log10 (/ 10 ^ n) = - INR n.
Proof.
  unfold Plot.log10. rewrite ln_Rinv by (apply pow_lt; lra).
  rewrite ln_pow by lra. field. pose proof ln_10_pos. lra.
Qed.

(** X7.  A motif whose p-value is zero (or negative) is plotted at the
    height 308, and this value is not part of the sample from which the line
    [y_min] is computed, whose values are all below 300. *)
Theorem underflow_pvalue_height (m : Plot.motif) :
  Plot.pvalue m <= 0 ->
  Plot.log10pvalue (Plot.link_motif m) = 308
  /\ forall ys, ~ In (Plot.log10pvalue (Plot.link_motif m))
                     (filter (fun y => Np.gtb Plot.y_cutoff y) ys).
Proof.
  intros Hp.
  assert (H308 : Plot.log10pvalue (Plot.link_motif m) = 308).
  { unfold Plot.link_motif. cbn [Plot.log10pvalue].
    unfold Np.gtb. destruct (Rlt_dec 0 (Plot.pvalue m)) as [H|_]; [lra|].
    unfold Plot.smallest. rewrite log10_inv_pow, INR_IZR_INZ. simpl. lra. }
  split; [assumption|].
  intros ys Hin. apply filter_In in Hin. destruct Hin as [_ Hlt].
  apply gtb_true in Hlt. rewrite H308 in Hlt.
  unfold Plot.y_cutoff in Hlt. rewrite log10_inv_pow, INR_IZR_INZ in Hlt.
  simpl in Hlt. lra.
Qed.

End Underflow.

Lemma underflow_pvalue_height_witness :
  Plot.log10pvalue (Plot.link_motif PlotExample.underflow) = 308%R
  /\ forall ys, ~ In (Plot.log10pvalue (Plot.link_motif PlotExample.underflow))
                     (filter (fun y => Np.gtb Plot.y_cutoff y) ys).
Proof.
  apply (underflow_pvalue_height PlotExample.underflow). simpl. lra.
Defined.

(** ** The version string of the package *)

Section FindVersion.

Local Open Scope string_scope.

Lemma string_app_assoc (a b c : string) : (a ++ b) ++ c = a ++ (b ++ c).
Proof. induction a as [|x a IH]; simpl; [reflexivity | now rewrite IH]. Qed.

Lemma strip_prefix_app (p x : string) : Setup.strip_prefix p (p ++ x) = Some x.
Proof.
  induction p as [|a p IH]; simpl; [reflexivity|].
  now rewrite Ascii.eqb_refl.
Qed.

Lemma strip_prefix_inv (p s x : string) :
  Setup.strip_prefix p s = Some x -> s = p ++ x.
Proof.
  revert s. induction p as [|a p IH]; intros s H; simpl in *.
  - congruence.
  - destruct s as [|b s]; [discriminate|].
    destruct (Ascii.eqb_spec a b) as [->|_]; [|discriminate].
    simpl. f_equal. now apply IH.
Qed.

Lemma strip_prefix_line (p l rest : string) :
  one_line p = true ->
  Setup.strip_prefix p l = None ->
  Setup.strip_prefix p (l ++ String Setup.newline rest) = None.
Proof.
  revert l. induction p as [|a p IH]; intros l Hp H; simpl in *; [discriminate|].
  unfold one_line in Hp. simpl in Hp. apply andb_true_iff in Hp.
  destruct Hp as [Ha Hp].
  destruct l as [|b l]; simpl.
  - apply negb_true_iff in Ha. now rewrite Ha.
  - destruct (Ascii.eqb a b); [|reflexivity]. now apply IH.
Qed.

Lemma until_quote_app (v rest : string) (q : ascii) :
  quote_free v = true -> Setup.is_quote q = true ->
  Setup.until_quote (v ++ String q rest) = Some v.
Proof.
  intros Hv Hq. induction v as [|c v IH]; simpl.
  - now rewrite Hq.
  - unfold quote_free in Hv. simpl in Hv. apply andb_true_iff in Hv.
    destruct Hv as [Hc Hv]. apply negb_true_iff in Hc. rewrite Hc.
    now rewrite IH.
Qed.

Lemma until_quote_inv (s v : string) :
  Setup.until_quote s = Some v ->
  exists q rest, s = v ++ String q rest
                 /\ Setup.is_quote q = true /\ quote_free v = true.
Proof.
  revert v. induction s as [|c s IH]; intros v H; simpl in H; [discriminate|].
  destruct (Setup.is_quote c) eqn:Hc.
  - injection H as <-. exists c, s. auto.
  - destruct (Setup.until_quote s) as [v'|]; [|discriminate].
    injection H as <-. destruct (IH v' eq_refl) as [q [rest [-> [Hq Hv]]]].
    exists q, rest. split; [reflexivity|]. split; [assumption|].
    unfold quote_free. simpl. now rewrite Hc.
Qed.

Lemma match_here_assignment (q1 q2 : ascii) (v rest : string) :
  Setup.is_quote q1 = true -> Setup.is_quote q2 = true -> quote_free v = true ->
  Setup.match_here (version_assignment q1 v q2 rest) = Some v.
Proof.
  intros H1 H2 Hv. unfold Setup.match_here, version_assignment.
  rewrite strip_prefix_app, H1. now apply until_quote_app.
Qed.

Lemma match_here_inv (s v : string) :
  Setup.match_here s = Some v ->
  exists q1 q2 rest, s = version_assignment q1 v q2 rest
                     /\ Setup.is_quote q1 = true /\ Setup.is_quote q2 = true
                     /\ quote_free v = true.
Proof.
  unfold Setup.match_here. intros H.
  destruct (Setup.strip_prefix Setup.version_literal s) as [[|q1 x]|] eqn:E;
    try discriminate.
  destruct (Setup.is_quote q1) eqn:H1; [|discriminate].
  apply until_quote_inv in H. destruct H as [q2 [rest [-> [H2 Hv]]]].
  apply strip_prefix_inv in E. exists q1, q2, rest. auto.
Qed.

Lemma search_match (s v : string) :
  Setup.match_here s = Some v -> Setup.search true s = Some v.
Proof.
  intros H. destruct s as [|c t].
  - discriminate H.
  - cbn [Setup.search]. now rewrite H.
Qed.

Lemma search_within_line (l s : string) :
  one_line l = true ->
  Setup.search false (l ++ String Setup.newline s) = Setup.search true s.
Proof.
  intros Hl. induction l as [|c l IH]; simpl.
  - reflexivity.
  - unfold one_line in Hl. simpl in Hl. apply andb_true_iff in Hl.
    destruct Hl as [Hc Hl]. apply negb_true_iff in Hc. rewrite Hc. now apply IH.
Qed.

Lemma search_plain_line (l s : string) :
  plain_line l ->
  Setup.search true (l ++ String Setup.newline s) = Setup.search true s.
Proof.
  intros [Hl Hp].
  assert (Hm : Setup.match_here (l ++ String Setup.newline s) = None).
  { unfold Setup.match_here. now rewrite strip_prefix_line. }
  destruct l as [|c l].
  - change ("" ++ String Setup.newline s) with (String Setup.newline s) in *.
    cbn [Setup.search]. rewrite Hm. now rewrite Ascii.eqb_refl.
  - change ((String c l) ++ String Setup.newline s)
      with (String c (l ++ String Setup.newline s)) in *.
    cbn [Setup.search]. rewrite Hm.
    unfold one_line in Hl. simpl in Hl. apply andb_true_iff in Hl.
    destruct Hl as [Hc Hl]. apply negb_true_iff in Hc. rewrite Hc.
    now apply search_within_line.
Qed.

Lemma search_plain_lines (lines : list string) (s : string) :
  Forall plain_line lines ->
  Setup.search true (unlines lines ++ s) = Setup.search true s.
Proof.
  induction 1 as [|l lines Hl _ IH]; [reflexivity|].
  simpl. rewrite string_app_assoc. simpl. now rewrite search_plain_line.
Qed.

End FindVersion.

Section FindVersionProperties.

Local Open Scope string_scope.

Variable read : string -> Py.result string.

(** X8.  When the file starts with lines that do not begin with
    [__version__ = ] and then has the assignment of a version between two
    quote characters, each a single or a double quote, [find_version]
    returns the version, whatever follows the assignment. *)
Theorem find_version_reads_assignment (init_file : string) (lines : list string)
        (q1 q2 : ascii) (v rest : string) :
  read init_file = Py.Ok (unlines lines ++ version_assignment q1 v q2 rest) ->
  Forall plain_line lines ->
  Setup.is_quote q1 = true -> Setup.is_quote q2 = true -> quote_free v = true ->
  Setup.find_version read init_file = Setup.Returns v.
Proof.
  intros Hread Hlines H1 H2 Hv. unfold Setup.find_version. rewrite Hread.
  rewrite search_plain_lines by assumption.
  now rewrite (search_match _ v (match_here_assignment q1 q2 v rest H1 H2 Hv)).
Qed.

Lemma search_rest_of_line (l : string) :
  one_line l = true -> Setup.search false l = None.
Proof.
  induction l as [|c l IH]; intros Hl; [reflexivity|].
  unfold one_line in Hl. simpl in Hl. apply andb_true_iff in Hl.
  destruct Hl as [Hc Hl]. apply negb_true_iff in Hc.
  cbn [Setup.search]. rewrite Hc. now apply IH.
Qed.

Lemma search_last_line (l : string) : plain_line l -> Setup.search true l = None.
Proof.
  intros [Hl Hp].
  assert (Hm : Setup.match_here l = None).
  { unfold Setup.match_here. now rewrite Hp. }
  destruct l as [|c l]; [reflexivity|].
  cbn [Setup.search]. rewrite Hm.
  unfold one_line in Hl. simpl in Hl. apply andb_true_iff in Hl.
  destruct Hl as [Hc Hl]. apply negb_true_iff in Hc. rewrite Hc.
  now apply search_rest_of_line.
Qed.

(** X9.  When no line of the file begins with [__version__ = ],
    [find_version] raises [RuntimeError]. *)
Theorem find_version_without_assignment (init_file : string) (lines : list string)
        (last : string) :
  read init_file = Py.Ok (unlines lines ++ last) ->
  Forall plain_line lines ->
  plain_line last ->
  Setup.find_version read init_file = Setup.Raises Setup.RuntimeError.
Proof.
  intros Hread Hlines Hlast. unfold Setup.find_version. rewrite Hread.
  rewrite search_plain_lines by assumption.
  now rewrite search_last_line.
Qed.

Lemma search_inv (s v : string) (bol : bool) :
  Setup.search bol s = Some v ->
  exists pre q1 q2 rest,
    s = pre ++ version_assignment q1 v q2 rest
    /\ ((pre = "" /\ bol = true)
        \/ exists p, pre = p ++ String Setup.newline "")
    /\ Setup.is_quote q1 = true /\ Setup.is_quote q2 = true
    /\ quote_free v = true.
Proof.
  revert bol. induction s as [|c t IH]; intros bol H.
  - destruct bol; discriminate H.
  - cbn [Setup.search] in H.
    assert (Hstep : Setup.search (Ascii.eqb c Setup.newline) t = Some v ->
                    exists pre q1 q2 rest,
                      String c t = pre ++ version_assignment q1 v q2 rest
                      /\ ((pre = "" /\ bol = true)
                          \/ exists p, pre = p ++ String Setup.newline "")
                      /\ Setup.is_quote q1 = true /\ Setup.is_quote q2 = true
                      /\ quote_free v = true).
    { intros Ht. apply IH in Ht.
      destruct Ht as [pre [q1 [q2 [rest [-> [Hpre Hq]]]]]].
      exists (String c pre), q1, q2, rest. split; [reflexivity|].
      split; [|assumption]. right.
      destruct Hpre as [[-> Hc] | [p ->]].
      - exists "". apply Ascii.eqb_eq in Hc. now subst.
      - exists (String c p). reflexivity. }
    destruct bol; [|now apply Hstep].
    destruct (Setup.match_here (String c t)) as [v'|] eqn:Hm; [|now apply Hstep].
    injection H as ->. apply match_here_inv in Hm.
    destruct Hm as [q1 [q2 [rest [-> Hq]]]].
    exists "", q1, q2, rest. split; [reflexivity|]. split; [|assumption].
    left. auto.
Qed.

(** X10.  A version that [find_version] returns stands in the file between
    two quote characters, after [__version__ = ] at the start of a line, and
    holds no quote character itself. *)
Theorem found_version_is_assigned (init_file v : string) :
  Setup.find_version read init_file = Setup.Returns v ->
  exists version_file pre q1 q2 rest,
    read init_file = Py.Ok version_file
    /\ version_file = pre ++ version_assignment q1 v q2 rest
    /\ ends_line pre
    /\ Setup.is_quote q1 = true /\ Setup.is_quote q2 = true
    /\ quote_free v = true.
Proof.
  unfold Setup.find_version. intros H.
  destruct (read init_file) as [version_file|e]; [|discriminate].
  destruct (Setup.search true version_file) as [v'|] eqn:Hs; [|discriminate].
  injection H as ->. apply search_inv in Hs.
  destruct Hs as [pre [q1 [q2 [rest [-> [Hpre Hq]]]]]].
  exists (pre ++ version_assignment q1 v q2 rest), pre, q1, q2, rest.
  split; [reflexivity|]. split; [reflexivity|]. split; [|assumption].
  unfold ends_line. destruct Hpre as [[-> _] | Hp]; auto.
Qed.

End FindVersionProperties.

Lemma find_version_reads_assignment_witness :
  Setup.find_version SetupExample.read "tobias/__init__.py" = Setup.Returns "0.5.1".
Proof.
  apply (find_version_reads_assignment
           SetupExample.read "tobias/__init__.py" ["# TOBIAS"; "import os"]
           Setup.dquote Setup.dquote "0.5.1" (String Setup.newline EmptyString)).
  - reflexivity.
  - repeat constructor.
  - reflexivity.
  - reflexivity.
  - reflexivity.
Defined.

Lemma find_version_without_assignment_witness :
  Setup.find_version SetupExample.read "other/__init__.py"
  = Setup.Raises Setup.RuntimeError.
Proof.
  apply (find_version_without_assignment
           SetupExample.read "other/__init__.py" ["# TOBIAS"] "import os").
  - reflexivity.
  - repeat constructor.
  - split; reflexivity.
Defined.

Lemma found_version_is_assigned_witness :
  exists version_file pre q1 q2 rest,
    SetupExample.read "tobias/__init__.py" = Py.Ok version_file
    /\ version_file = (pre ++ version_assignment q1 "0.5.1" q2 rest)%string
    /\ ends_line pre
    /\ Setup.is_quote q1 = true /\ Setup.is_quote q2 = true
    /\ quote_free "0.5.1" = true.
Proof.
  apply (found_version_is_assigned SetupExample.read "tobias/__init__.py" "0.5.1").
  reflexivity.
Defined.

(** ** Regions that stop the scan *)

Section ScanStops.

Variable rnd : Scan.PyRandom.
Variable env : Scan.scan_env.

Lemma for_each_stops {A S : Type} (body : S -> A -> Py.result S) (a : A) (l : list A) :
  (forall s, exists e, body s a = Py.Raise e) ->
  In a l ->
  forall s, exists e, Py.for_each l body s = Py.Raise e.
Proof.
  intros Hbody. induction l as [|x t IH]; intros Hin s; [contradiction|].
  simpl. destruct Hin as [-> | Hin].
  - destruct (Hbody s) as [e ->]. exists e. reflexivity.
  - destruct (body s x) as [s'|e]; simpl; [now apply IH | now exists e].
Qed.

Lemma traverse_stops {A B : Type} (f : A -> Py.result B) (a : A) (l : list A) :
  (exists e, f a = Py.Raise e) ->
  In a l ->
  exists e, Py.traverse f l = Py.Raise e.
Proof.
  intros [e0 Hf]. induction l as [|x t IH]; intros Hin; [contradiction|].
  simpl. destruct Hin as [-> | Hin].
  - rewrite Hf. now exists e0.
  - destruct (f x) as [b|e]; simpl; [|now exists e].
    destruct (IH Hin) as [e ->]. now exists e.
Qed.

Lemma scan_stops (region : OneRegion) (rng0 : Scan.rng_state rnd)
      (regions : list OneRegion) :
  (forall s : Scan.scan_state rnd, exists e, Scan.scan_region env s region = Py.Raise e) ->
  In region regions ->
  exists e, Scan.scan_and_score rnd env rng0 regions = Py.Raise e.
Proof.
  intros Hbody Hin. unfold Scan.scan_and_score.
  destruct (for_each_stops (Scan.scan_region env) region regions Hbody Hin
                           (Scan.initial_state rnd env rng0)) as [e ->].
  now exists e.
Qed.

Lemma rand_positions_empty (reglen : Z) :
  reglen <= 0 -> Scan.rand_positions rnd reglen = Py.Raise Py.ValueError.
Proof.
  intros H. unfold Scan.rand_positions. apply Scan.sample_raises. lia.
Qed.

(** X11.  A region of length zero or less stops the scan: no position can be
    sampled from it, the loop body raises [ValueError], and a call of
    [scan_and_score] on regions that include it raises. *)
Theorem empty_region_stops_scan (region : OneRegion) :
  get_length region <= 0 ->
  (forall s : Scan.scan_state rnd,
      Scan.scan_region env s region = Py.Raise Py.ValueError)
  /\ (forall rng0 regions,
         In region regions ->
         exists e, Scan.scan_and_score rnd env rng0 regions = Py.Raise e).
Proof.
  intros Hlen.
  assert (Hbody : forall s : Scan.scan_state rnd,
             Scan.scan_region env s region = Py.Raise Py.ValueError).
  { intros s. unfold Scan.scan_region. now rewrite rand_positions_empty. }
  split; [assumption|].
  intros rng0 regions Hin. apply (scan_stops region); [|assumption].
  intros s. exists Py.ValueError. apply Hbody.
Qed.

End ScanStops.

Lemma empty_region_stops_scan_witness :
  (forall s : Scan.scan_state Example.first_positions,
      Scan.scan_region Example.scan_env s ScanExample.empty_peak
      = Py.Raise Py.ValueError)
  /\ (forall rng0 regions,
         In ScanExample.empty_peak regions ->
         exists e, Scan.scan_and_score Example.first_positions Example.scan_env
                                       rng0 regions = Py.Raise e).
Proof.
  apply (empty_region_stops_scan Example.first_positions Example.scan_env
                                 ScanExample.empty_peak).
  unfold get_length. simpl. lia.
Defined.

Section UnreadTrack.

Variable rnd : Scan.PyRandom.
Variable env : Scan.scan_env.

(** A condition whose track cannot be read in a region gets no entry in
    the footprints of the region. *)
Lemma read_keeps_missing (region : OneRegion) (positions : list Z) (c : string)
      (e0 : Py.exn) (conditions : list string) :
  Scan.bigwig_values env c region = Py.Raise e0 ->
  forall footprints signal log footprints' signal' log',
    Py.for_each conditions (Scan.read_footprints env region positions)
                (footprints, signal, log)
    = Py.Ok (footprints', signal', log') ->
    Py.dict_get footprints c = Py.Raise Py.KeyError ->
    Py.dict_get footprints' c = Py.Raise Py.KeyError.
Proof.
  intros Hc. induction conditions as [|condition rest IH];
    intros footprints signal log footprints' signal' log' H Hmiss.
  - simpl in H. congruence.
  - cbn [Py.for_each] in H. unfold Scan.read_footprints at 1 in H.
    destruct (Scan.bigwig_values env condition region) as [values|e] eqn:Hv.
    + destruct (Py.for_each positions _ signal) as [signal1|e]; [|discriminate].
      cbn [Py.bind] in H. apply IH in H; [assumption|].
      rewrite dict_get_set_other; [assumption|]. congruence.
    + cbn [Py.bind] in H. now apply IH in H.
Qed.

Lemma annotate_unread (region : OneRegion) (gc : list R)
      (footprints : Py.dict (list R)) (c : string) (t : TFBS) :
  In c (Scan.cond_names env) ->
  Py.dict_get footprints c = Py.Raise Py.KeyError ->
  exists e, Scan.annotate env region gc footprints t = Py.Raise e.
Proof.
  intros Hin Hmiss. unfold Scan.annotate.
  destruct (Py.getitem gc _) as [g|e]; [|now exists e].
  cbn [Py.bind]. apply (for_each_stops _ c); [|assumption].
  intros s. rewrite Hmiss. now exists Py.KeyError.
Qed.

(** X12.  When the track of a condition cannot be read in a region in which
    the scanner finds a site, the error is logged, but the region then stops
    the scan: the site cannot be given the score of the condition, and a
    call of [scan_and_score] on regions that include the region raises. *)
Theorem unread_track_with_site_stops_scan (region : OneRegion) (c : string)
        (e0 : Py.exn) :
  In c (Scan.cond_names env) ->
  Scan.bigwig_values env c region = Py.Raise e0 ->
  Scan.scan_sequence env region <> [] ->
  (forall s : Scan.scan_state rnd,
      exists e, Scan.scan_region env s region = Py.Raise e)
  /\ (forall rng0 regions,
         In region regions ->
         exists e, Scan.scan_and_score rnd env rng0 regions = Py.Raise e).
Proof.
  intros Hin Hc Hsite.
  assert (Hbody : forall s : Scan.scan_state rnd,
             exists e, Scan.scan_region env s region = Py.Raise e).
  { intros s. unfold Scan.scan_region.
    destruct (Scan.rand_positions rnd (get_length region))
      as [[positions rng']|e]; [|now exists e].
    cbn [Py.bind].
    destruct (Py.for_each (Scan.cond_names env) _ _)
      as [[[footprints signal] log']|e] eqn:Hread; [|now exists e].
    cbn [Py.bind].
    assert (Hmiss : Py.dict_get footprints c = Py.Raise Py.KeyError).
    { apply (read_keeps_missing region positions c e0 (Scan.cond_names env) Hc
                                _ _ _ _ _ _ Hread). reflexivity. }
    destruct (Py.traverse (Py.getitem (Scan.gc_profile env region)) positions)
      as [gc_samples|e]; [|now exists e].
    cbn [Py.bind].
    destruct (Scan.scan_sequence env region) as [|t rest]; [congruence|].
    destruct (traverse_stops
                (Scan.annotate env region (Scan.gc_profile env region) footprints)
                t (t :: rest)) as [e He].
    - now apply (annotate_unread region _ footprints c t).
    - now left.
    - rewrite He. now exists e. }
  split; [assumption|].
  intros rng0 regions Hr. now apply (scan_stops rnd env region).
Qed.

End UnreadTrack.

Lemma unread_track_with_site_stops_scan_witness :
  (forall s : Scan.scan_state Example.first_positions,
      exists e, Scan.scan_region (ScanExample.unread_env [Example.site1]) s
                                 Example.peak1 = Py.Raise e)
  /\ (forall rng0 regions,
         In Example.peak1 regions ->
         exists e, Scan.scan_and_score Example.first_positions
                     (ScanExample.unread_env [Example.site1]) rng0 regions
                   = Py.Raise e).
Proof.
  apply (unread_track_with_site_stops_scan
           Example.first_positions (ScanExample.unread_env [Example.site1])
           Example.peak1 "KO" Py.OSError).
  - right. left. reflexivity.
  - reflexivity.
  - discriminate.
Defined.

(** ** The log and the size of the background sample *)

Section ScanLog.

Variable rnd : Scan.PyRandom.
Variable env : Scan.scan_env.

Lemma footprint_additions_log (region : OneRegion) (positions : list Z)
      (conditions : list string) :
  forall footprints footprints' added logs,
    Scan.footprint_additions env region positions conditions footprints
    = Py.Ok (footprints', added, logs) ->
    logs = map (fun _ => ErrorReadingFootprints region)
               (filter (fun condition =>
                          negb (Py.is_ok (Scan.bigwig_values env condition region)))
                       conditions).
Proof.
  induction conditions as [|condition rest IH];
    intros footprints footprints' added logs H; simpl in H.
  - injection H as _ _ <-. reflexivity.
  - simpl. destruct (Scan.bigwig_values env condition region) as [values|e].
    + apply bind_ok in H. destruct H as [samples [_ H]].
      apply bind_ok in H. destruct H as [[[fp1 added1] logs1] [Hrest H]].
      injection H as _ _ <-. simpl. now apply IH in Hrest.
    + apply bind_ok in H. destruct H as [[[fp1 added1] logs1] [Hrest H]].
      injection H as _ _ <-. simpl. f_equal. now apply IH in Hrest.
Qed.

Lemma region_additions_log (region : OneRegion) (a : Scan.additions rnd) :
  Scan.region_additions rnd env region = Py.Ok a ->
  Scan.added_log a = map (fun _ => ErrorReadingFootprints region) (unread env region).
Proof.
  unfold Scan.region_additions. intros H.
  apply bind_ok in H. destruct H as [[positions rng'] [_ H]].
  apply bind_ok in H. destruct H as [[[footprints signal] logs] [Hread H]].
  apply bind_ok in H. destruct H as [gc_samples [_ H]].
  apply bind_ok in H. destruct H as [sites [_ H]].
  injection H as <-. simpl. now apply footprint_additions_log in Hread.
Qed.

(** X13.  A scan that returns has logged one error per region and condition
    whose track could not be read, naming the region, in the order of the
    regions and the conditions, and nothing else. *)
Theorem scan_logs_unread_tracks (rng0 : Scan.rng_state rnd)
        (regions : list OneRegion) (r : Scan.scan_result env) :
  Scan.scan_and_score rnd env rng0 regions = Py.Ok r ->
  Scan.logged r
  = flat_map (fun region =>
                map (fun _ => ErrorReadingFootprints region) (unread env region))
             regions.
Proof.
  intros H. apply scan_and_score_returns in H.
  destruct H as [added [all [Hadds [_ ->]]]]. simpl.
  induction Hadds as [|region a regions added Ha _ IH]; [reflexivity|].
  simpl. rewrite IH. f_equal. now apply region_additions_log.
Qed.

End ScanLog.

Lemma scan_logs_unread_tracks_witness :
  exists r,
    Scan.scan_and_score Example.first_positions (ScanExample.unread_env []) tt
                        [Example.peak1; Example.peak3]
    = Py.Ok r
    /\ Scan.logged r
       = flat_map (fun region =>
                     map (fun _ => ErrorReadingFootprints region)
                         (unread (ScanExample.unread_env []) region))
                  [Example.peak1; Example.peak3].
Proof.
  eexists. split.
  - reflexivity.
  - apply (scan_logs_unread_tracks Example.first_positions
                                   (ScanExample.unread_env []) tt
                                   [Example.peak1; Example.peak3]).
    reflexivity.
Defined.

Section BackgroundSize.

Variable rnd : Scan.PyRandom.
Variable env : Scan.scan_env.

Lemma rand_positions_length (reglen : Z) (positions : list Z)
      (rng' : Scan.rng_state rnd) :
  Scan.rand_positions rnd reglen = Py.Ok (positions, rng') ->
  Py.len positions = Z.max 1 (Py.int_div reglen Scan.rand_window).
Proof.
  unfold Scan.rand_positions. set (k := Z.max 1 _). intros H.
  destruct (Z_le_dec k (Z.max reglen 0)) as [Hk | Hk].
  - destruct (@Scan.sample_returns rnd (Scan.seed rnd reglen) reglen k)
      as [l [st' [Hs [Hlen _]]]]; [lia|].
    rewrite Hs in H. injection H as <- _. assumption.
  - rewrite (@Scan.sample_raises rnd (Scan.seed rnd reglen) reglen k) in H by lia.
    discriminate.
Qed.

(** X14.  The background GC sample of a scan that returns holds, for every
    region, one value in every 500 bp of the region and at least one: its
    length is the sum of [max(1, int(reglen / 500))] over the regions. *)
Theorem background_gc_sample_size (rng0 : Scan.rng_state rnd)
        (regions : list OneRegion) (r : Scan.scan_result env) :
  Scan.scan_and_score rnd env rng0 regions = Py.Ok r ->
  Py.len (Scan.bg_gc (Scan.returned_background r))
  = fold_right Z.add 0 (map no_samples regions).
Proof.
  intros H. apply scan_and_score_returns in H.
  destruct H as [added [all [Hadds [_ ->]]]]. simpl.
  induction Hadds as [|region a regions added Ha _ IH]; [reflexivity|].
  simpl. rewrite len_app, IH. f_equal.
  destruct (additions_sizes rnd env region a Ha) as [[rng' Hpos] [Hgc _]].
  apply rand_positions_length in Hpos. unfold no_samples, Py.len in *. lia.
Qed.

End BackgroundSize.

Lemma background_gc_sample_size_witness :
  exists r,
    Scan.scan_and_score Example.first_positions Example.scan_env tt
                        [Example.peak1; Example.peak3]
    = Py.Ok r
    /\ Py.len (Scan.bg_gc (Scan.returned_background r))
       = fold_right Z.add 0 (map no_samples [Example.peak1; Example.peak3]).
Proof.
  eexists. split.
  - reflexivity.
  - apply (background_gc_sample_size Example.first_positions Example.scan_env tt
                                     [Example.peak1; Example.peak3]).
    reflexivity.
Defined.

Section AlignedSamples.

Variable rnd : Scan.PyRandom.
Variable env : Scan.scan_env.

Lemma footprint_additions_keys (region : OneRegion) (positions : list Z)
      (conditions : list string) :
  (forall c, In c conditions ->
             exists values, Scan.bigwig_values env c region = Py.Ok values) ->
  forall footprints footprints' added logs,
    Scan.footprint_additions env region positions conditions footprints
    = Py.Ok (footprints', added, logs) ->
    map fst added = conditions.
Proof.
  induction conditions as [|condition rest IH];
    intros Hok footprints footprints' added logs H; simpl in H.
  - injection H as _ <- _. reflexivity.
  - destruct (Hok condition) as [values Hv]; [now left|]. rewrite Hv in H.
    apply bind_ok in H. destruct H as [samples [_ H]].
    apply bind_ok in H. destruct H as [[[fp1 added1] logs1] [Hrest H]].
    injection H as _ <- _. simpl. f_equal.
    apply IH in Hrest; [assumption|]. intros c Hc. apply Hok. now right.
Qed.

Lemma samples_of_absent (c : string) (added : list (string * list R)) :
  ~ In c (map fst added) -> samples_of c added = [].
Proof.
  induction added as [|[k vs] t IH]; intros Hc; [reflexivity|].
  simpl in *. destruct (String.eqb_spec k c) as [->|_].
  - exfalso. auto.
  - apply IH. auto.
Qed.

Lemma samples_of_length (c : string) (n : nat) (added : list (string * list R)) :
  NoDup (map fst added) ->
  In c (map fst added) ->
  Forall (fun e => List.length (snd e) = n) added ->
  List.length (samples_of c added) = n.
Proof.
  induction added as [|[k vs] t IH]; intros Hnd Hin Hlen; [contradiction|].
  simpl in *. apply NoDup_cons_iff in Hnd. destruct Hnd as [Hk Ht].
  apply Forall_cons_iff in Hlen. destruct Hlen as [Hvs Hrest]. simpl in Hvs.
  destruct (String.eqb_spec k c) as [->|Hne].
  - rewrite samples_of_absent by assumption. now rewrite app_nil_r.
  - simpl. apply IH; [assumption | | assumption].
    destruct Hin as [Heq | Hin]; [contradiction | assumption].
Qed.

Lemma samples_of_concat (c : string) (l1 l2 : list (string * list R)) :
  samples_of c (l1 ++ l2) = samples_of c l1 ++ samples_of c l2.
Proof. unfold samples_of. apply flat_map_app. Qed.

Lemma region_samples_aligned (region : OneRegion) (a : Scan.additions rnd) (c : string) :
  NoDup (Scan.cond_names env) ->
  (forall c, In c (Scan.cond_names env) ->
             exists values, Scan.bigwig_values env c region = Py.Ok values) ->
  In c (Scan.cond_names env) ->
  Scan.region_additions rnd env region = Py.Ok a ->
  List.length (samples_of c (Scan.added_signal a)) = List.length (Scan.added_gc a).
Proof.
  intros Hnd Hok Hc Ha.
  destruct (additions_sizes rnd env region a Ha) as [_ [Hgc Hsig]].
  assert (Hkeys : map fst (Scan.added_signal a) = Scan.cond_names env).
  { unfold Scan.region_additions in Ha.
    apply bind_ok in Ha. destruct Ha as [[positions rng'] [_ H]].
    apply bind_ok in H. destruct H as [[[footprints signal] logs] [Hread H]].
    apply bind_ok in H. destruct H as [gc_samples [_ H]].
    apply bind_ok in H. destruct H as [sites [_ H]].
    injection H as <-. simpl.
    now apply (footprint_additions_keys region positions _ Hok) in Hread. }
  rewrite Hgc. apply samples_of_length; rewrite ?Hkeys; assumption.
Qed.

(** X15.  When the condition names are distinct and every track can be read
    in every region, a scan that returns has, for every condition, as many
    background signal values as background GC values. *)
Theorem background_samples_are_aligned (rng0 : Scan.rng_state rnd)
        (regions : list OneRegion) (r : Scan.scan_result env) (c : string) :
  Scan.scan_and_score rnd env rng0 regions = Py.Ok r ->
  NoDup (Scan.cond_names env) ->
  (forall region c, In region regions -> In c (Scan.cond_names env) ->
                    exists values, Scan.bigwig_values env c region = Py.Ok values) ->
  In c (Scan.cond_names env) ->
  exists samples,
    Py.dict_get (Scan.bg_signal (Scan.returned_background r)) c = Py.Ok samples
    /\ List.length samples = List.length (Scan.bg_gc (Scan.returned_background r)).
Proof.
  intros H Hnd Hok Hc. apply scan_and_score_returns in H.
  destruct H as [added [all [Hadds [_ ->]]]]. simpl.
  assert (Hinit : Py.dict_get (Py.dict_fromkeys (Scan.cond_names env) ([] : list R)) c
                  = Py.Ok []).
  { assert (Hin : In c (map fst (Py.dict_fromkeys (Scan.cond_names env)
                                                  ([] : list R))))
      by now apply dict_fromkeys_keys.
    apply dict_get_In in Hin. destruct Hin as [v Hv].
    rewrite Hv. f_equal. now apply fromkeys_get_nil in Hv. }
  eexists. split.
  - apply (extend_signal_get _ _ c [] Hinit).
  - simpl. clear Hinit.
    induction Hadds as [|region a regions added Ha _ IH]; [reflexivity|].
    simpl. rewrite samples_of_concat, !length_app. f_equal.
    + apply (region_samples_aligned region a c Hnd); [|assumption|assumption].
      intros c' Hc'. apply Hok; [now left | assumption].
    + apply IH. intros region' c' Hr. apply Hok. now right.
Qed.

End AlignedSamples.

Lemma background_samples_are_aligned_witness :
  exists r samples,
    Scan.scan_and_score Example.first_positions Example.scan_env tt
                        [Example.peak1; Example.peak3]
    = Py.Ok r
    /\ Py.dict_get (Scan.bg_signal (Scan.returned_background r)) "WT"
       = Py.Ok samples
    /\ List.length samples = List.length (Scan.bg_gc (Scan.returned_background r)).
Proof.
  eexists.
  destruct (background_samples_are_aligned
              Example.first_positions Example.scan_env tt
              [Example.peak1; Example.peak3] _ "WT" eq_refl)
    as [samples H].
  - apply NoDup_cons; [simpl; tauto | apply NoDup_nil].
  - intros region c _ _. eexists. reflexivity.
  - left. reflexivity.
  - exists samples. split; [reflexivity | exact H].
Defined.

(** ** The columns of a stored site *)

Section StoredSite.

Variable env : Scan.scan_env.

Lemma tfbs_extend_extend (t : TFBS) (a b : list cell) :
  tfbs_extend (tfbs_extend t a) b = tfbs_extend t (a ++ b).
Proof. unfold tfbs_extend. simpl. now rewrite <- app_assoc. Qed.

Lemma score_loop (footprints : Py.dict (list R)) (pos : Z) (conditions : list string) :
  forall t t' : TFBS,
    Py.for_each conditions
      (fun t bigwig =>
         fp <- Py.dict_get footprints bigwig ;;
         bigwig_score <- Py.getitem fp pos ;;
         Py.Ok (tfbs_append t (Fmt5 bigwig_score)))
      t
    = Py.Ok t' ->
    exists scores,
      Forall2 (fun condition v =>
                 exists fp, Py.dict_get footprints condition = Py.Ok fp
                            /\ Py.getitem fp pos = Py.Ok v)
              conditions scores
      /\ t' = tfbs_extend t (map Fmt5 scores).
Proof.
  induction conditions as [|condition rest IH]; intros t t' H; simpl in H.
  - injection H as <-. exists []. split; [constructor|].
    unfold tfbs_extend. simpl. rewrite app_nil_r. now destruct t.
  - apply bind_ok in H. destruct H as [t1 [H1 H]].
    apply bind_ok in H1. destruct H1 as [fp [Hfp H1]].
    apply bind_ok in H1. destruct H1 as [v [Hv H1]]. injection H1 as <-.
    apply IH in H. destruct H as [scores [Hscores ->]].
    exists (v :: scores). split.
    + constructor; [|assumption]. exists fp. auto.
    + unfold tfbs_append. now rewrite tfbs_extend_extend.
Qed.

(** X16.  A site that is stored keeps its own six columns and is given, in
    this order, the columns of its region, the GC value at its middle and,
    for every condition in order, the signal of the condition at its
    middle, to be printed with five decimals. *)
Theorem stored_site_columns (region : OneRegion) (gc : list R)
        (footprints : Py.dict (list R)) (t t' : TFBS) :
  Scan.annotate env region gc footprints t = Py.Ok t' ->
  exists g scores,
    Py.getitem gc (site_middle region t) = Py.Ok g
    /\ Forall2 (fun condition v =>
                  exists fp, Py.dict_get footprints condition = Py.Ok fp
                             /\ Py.getitem fp (site_middle region t) = Py.Ok v)
               (Scan.cond_names env) scores
    /\ t' = tfbs_extend t (region_columns region ++ Float g :: map Fmt5 scores).
Proof.
  unfold Scan.annotate. fold (site_middle region t). intros H.
  apply bind_ok in H. destruct H as [g [Hg H]].
  apply score_loop in H. destruct H as [scores [Hscores ->]].
  exists g, scores. split; [assumption|]. split; [assumption|].
  unfold tfbs_append. rewrite !tfbs_extend_extend. reflexivity.
Qed.

End StoredSite.

Lemma stored_site_columns_witness :
  exists g scores,
    Py.getitem (repeat (1 / 2)%R 10) (site_middle Example.peak1 Example.site1)
    = Py.Ok g
    /\ Forall2 (fun condition v =>
                  exists fp, Py.dict_get [("WT", repeat 1%R 10)] condition = Py.Ok fp
                             /\ Py.getitem fp (site_middle Example.peak1 Example.site1)
                                = Py.Ok v)
               (Scan.cond_names Example.scan_env) scores
    /\ Example.stored1
       = tfbs_extend Example.site1
           (region_columns Example.peak1 ++ Float g :: map Fmt5 scores).
Proof.
  apply (stored_site_columns Example.scan_env Example.peak1 (repeat (1 / 2)%R 10)
                             [("WT", repeat 1%R 10)] Example.site1 Example.stored1).
  reflexivity.
Defined.

(** ** The header when the peak header is given, and without conditions *)

Section PeakHeader.

Lemma slice_assign_middle {A : Type} (l1 l2 l3 rhs : list A) :
  Py.slice_assign (l1 ++ l2 ++ l3) (Some (Py.len l1)) (Some (Py.len l1 + Py.len l2)) rhs
  = l1 ++ rhs ++ l3.
Proof.
  unfold Py.slice_assign, Py.slice_start, Py.slice_stop, Py.clamp.
  rewrite !len_app.
  pose proof (len_nonneg l1). pose proof (len_nonneg l2). pose proof (len_nonneg l3).
  destruct (Z.ltb_spec (Py.len l1) 0); [lia|].
  destruct (Z.ltb_spec (Py.len l1 + Py.len l2) 0); [lia|].
  rewrite !Z.min_l, Z.max_r by lia.
  f_equal.
  - unfold Py.len. rewrite Nat2Z.id, firstn_app, firstn_all, Nat.sub_diag.
    simpl. now rewrite app_nil_r.
  - f_equal. rewrite app_assoc, <- len_app. unfold Py.len.
    rewrite Nat2Z.id, skipn_app, skipn_all, Nat.sub_diag. reflexivity.
Qed.

Lemma len_repeat {A : Type} (a : A) (n : nat) : Py.len (repeat a n) = Z.of_nat n.
Proof. unfold Py.len. now rewrite repeat_length. Qed.

(** X17.  When the peak header names no more columns than the table has
    peak columns, the header is TFBS_chr .. TFBS_strand, the names of the
    peak header, an empty name for every further peak column, GC, and
    <condition>_score for every condition in order. *)
Theorem header_with_peak_header (peak_header_list cond_names : list string)
        (unnamed : nat) :
  cond_names <> [] ->
  set_header (6 + (Py.len peak_header_list + Z.of_nat unnamed) + 1 + Py.len cond_names)
             (Some peak_header_list) cond_names
  = Py.Ok (tfbs_columns ++ peak_header_list ++ repeat "" unnamed ++ ["GC"]
             ++ score_columns cond_names).
Proof.
  intros Hne.
  set (p := List.length peak_header_list).
  set (m := List.length cond_names).
  assert (Hp : Py.len peak_header_list = Z.of_nat p) by reflexivity.
  assert (Hm : Py.len cond_names = Z.of_nat m) by reflexivity.
  assert (Hs : Py.len (score_columns cond_names) = Z.of_nat m).
  { unfold Py.len, score_columns. now rewrite length_map. }
  unfold set_header.
  set (n := 6 + (Py.len peak_header_list + Z.of_nat unnamed) + 1 + Py.len cond_names).
  assert (Hn : Z.to_nat n = (6 + (p + (unnamed + (1 + m))))%nat) by lia.
  rewrite Hn, !repeat_app.
  (* header[:6] *)
  rewrite (slice_assign_prefix (repeat "" 6) _ tfbs_columns
           : Py.slice_assign _ None (Some 6) _ = _).
  (* header[6:6+len(peak_header_list)] *)
  rewrite <- (len_repeat "" p) in Hp. rewrite Hp.
  rewrite (slice_assign_middle tfbs_columns (repeat "" p) _ peak_header_list
           : Py.slice_assign _ (Some 6) (Some (6 + _)) _ = _).
  (* header[-no_cond:] *)
  rewrite <- (len_repeat "" m) in Hm. rewrite Hm.
  replace (tfbs_columns ++ peak_header_list
             ++ repeat "" unnamed ++ repeat "" 1 ++ repeat "" m)
    with ((tfbs_columns ++ peak_header_list ++ repeat "" unnamed ++ repeat "" 1)
            ++ repeat "" m)
    by (now rewrite <- !app_assoc).
  rewrite slice_assign_last.
  2: { intros Hr. apply (f_equal (@List.length string)) in Hr.
       rewrite repeat_length in Hr. unfold m in Hr.
       destruct cond_names; [congruence | discriminate]. }
  (* header[-no_cond-1] = "GC" *)
  rewrite len_repeat, <- Hs.
  replace ((tfbs_columns ++ peak_header_list ++ repeat "" unnamed ++ repeat "" 1)
             ++ score_columns cond_names)
    with ((tfbs_columns ++ peak_header_list ++ repeat "" unnamed)
            ++ "" :: score_columns cond_names)
    by (simpl; now rewrite <- !app_assoc).
  rewrite setitem_from_end. cbn [Py.bind].
  replace (Py.len _ =? n) with true.
  - now rewrite <- !app_assoc.
  - symmetry. apply Z.eqb_eq.
    rewrite !len_app, len_repeat.
    replace (Py.len ("GC" :: score_columns cond_names)) with (1 + Z.of_nat m)
      by (rewrite <- Hs; unfold Py.len; simpl List.length; lia).
    unfold n. rewrite len_repeat in Hp, Hm. rewrite Hp, Hm.
    change (Py.len tfbs_columns) with 6. fold p. lia.
Qed.

(** Without conditions no header can be set: [header[-0:]] is the whole
    list, which the empty list of score names replaces, and
    [header[-1] = "GC"] then raises [IndexError], whatever the table and
    the peak header are. *)
Lemma set_header_without_conditions (no_cols : Z)
      (peak_header_list : option (list string)) :
  set_header no_cols peak_header_list [] = Py.Raise Py.IndexError.
Proof.
  unfold set_header. change (Py.len (@nil string)) with 0.
  change (score_columns []) with (@nil string).
  match goal with
  | |- context [Py.slice_assign ?h (Some (- 0)) None []] =>
      assert (E : Py.slice_assign h (Some (- 0)) None [] = []); [|rewrite E]
  end.
  - unfold Py.slice_assign, Py.slice_start, Py.slice_stop, Py.clamp.
    match goal with |- context [Py.len ?h] => generalize h end.
    intros h. pose proof (len_nonneg h).
    change (- 0 <? 0) with false. cbv iota.
    rewrite Z.min_l, Z.max_r by lia.
    change (Z.to_nat 0) with 0%nat. simpl firstn. simpl app.
    unfold Py.len. rewrite Nat2Z.id. apply skipn_all.
  - reflexivity.
Qed.

(** X18.  Without conditions a task ends when it sets the header: the
    list of names is emptied by [header[-0:] = []], [header[-1] = "GC"]
    raises [IndexError], and nothing is written. *)
Theorem no_conditions_end_task (fs : Stats.filesystem) (ttest : ttest_ind_from_stats_t)
        (TF_name : string) (args : Stats.Args) (log2fc_params : Stats.params)
        (arr : list Stats.file_row) :
  Stats.cond_names args = [] ->
  Stats.genfromtxt fs (Stats.tmp_filename args TF_name) = Py.Ok arr ->
  Stats.process_tfbs fs ttest TF_name args log2fc_params
  = ([], Py.Raise Py.IndexError).
Proof.
  intros Hc Hread. apply statistics_raises.
  unfold Stats.statistics, Stats.lift. rewrite Hread. cbn [Stats.io_bind].
  unfold Stats.format_bed_table, Stats.table_header.
  rewrite Hc, set_header_without_conditions. reflexivity.
Qed.

End PeakHeader.

Lemma no_conditions_end_task_witness :
  Stats.process_tfbs StatsExample.files Example.ttest "CTCF"
                     StatsExample.no_conditions []
  = ([], Py.Raise Py.IndexError).
Proof.
  apply (no_conditions_end_task StatsExample.files Example.ttest "CTCF"
                                StatsExample.no_conditions [] Example.occurrences);
    reflexivity.
Defined.

Lemma header_with_peak_header_witness :
  set_header (6 + (Py.len ["chr"; "start"; "end"] + Z.of_nat 1) + 1
              + Py.len ["WT"; "KO"])
             (Some ["chr"; "start"; "end"]) ["WT"; "KO"]
  = Py.Ok (tfbs_columns ++ ["chr"; "start"; "end"] ++ repeat "" 1 ++ ["GC"]
             ++ score_columns ["WT"; "KO"]).
Proof.
  apply (header_with_peak_header ["chr"; "start"; "end"] ["WT"; "KO"] 1).
  discriminate.
Defined.

(** ** The bound/unbound split *)

Section BoundSplit.

Local Open Scope R_scope.

Lemma sum_flags {A : Type} (p : A -> bool) (l : list A) :
  fold_right Z.add 0%Z (map (fun a => if p a then 1%Z else 0%Z) l)
  = Z.of_nat (List.length (filter p l)).
Proof.
  induction l as [|a t IH]; [reflexivity|].
  simpl. rewrite IH. destruct (p a); simpl List.length; lia.
Qed.

(** X19.  For a condition, a row is marked bound exactly when its score is
    above the threshold of the condition (a score equal to the threshold is
    unbound), nothing else of the row changes, and the overview value
    [<condition>_bound] is the number of rows marked bound. *)
Theorem bound_split_counts (args : Stats.Args) (bed_table bed_table' : list Stats.bed_row)
        (info_table info_table' : Py.dict R) (condition : string) :
  Stats.bound_split args (bed_table, info_table) condition
  = Py.Ok (bed_table', info_table') ->
  exists threshold,
    Py.dict_get (Stats.thresholds args) condition = Py.Ok threshold
    /\ bed_table'
       = map (fun row =>
                Stats.set_bound row
                  (Py.dict_set (Stats.bound row) (condition ++ "_bound")
                     (if Np.gtb (Stats.score row (condition ++ "_score")) threshold
                      then 1%Z else 0%Z)))
             bed_table
    /\ Py.dict_get info_table' (condition ++ "_bound")
       = Py.Ok (IZR (Z.of_nat
                       (List.length
                          (filter (fun row =>
                                     Np.gtb (Stats.score row (condition ++ "_score"))
                                            threshold)
                                  bed_table)))).
Proof.
  unfold Stats.bound_split. intros H.
  apply bind_ok in H. destruct H as [threshold [Hth H]].
  apply bind_ok in H. destruct H as [values [Hvalues H]].
  apply score_column_values in Hvalues. subst values.
  injection H as <- <-. exists threshold. split; [assumption|].
  rewrite !map_map. split.
  - rewrite combine_map_r, map_map. reflexivity.
  - rewrite dict_get_set_same. do 2 f_equal.
    apply (sum_flags (fun row => Np.gtb (Stats.score row (condition ++ "_score"))
                                        threshold)).
Qed.

End BoundSplit.

Lemma bound_split_counts_witness :
  exists bed_table' info_table',
    Stats.bound_split Example.args (Example.fold_table, []) "WT"
    = Py.Ok (bed_table', info_table')
    /\ exists threshold,
      Py.dict_get (Stats.thresholds Example.args) "WT" = Py.Ok threshold
      /\ bed_table'
         = map (fun row =>
                  Stats.set_bound row
                    (Py.dict_set (Stats.bound row) ("WT" ++ "_bound")
                       (if Np.gtb (Stats.score row ("WT" ++ "_score")) threshold
                        then 1%Z else 0%Z)))
               Example.fold_table
      /\ Py.dict_get info_table' ("WT" ++ "_bound")
         = Py.Ok (IZR (Z.of_nat
                         (List.length
                            (filter (fun row =>
                                       Np.gtb (Stats.score row ("WT" ++ "_score"))
                                              threshold)
                                    Example.fold_table)))).
Proof.
  eexists. eexists. split.
  - reflexivity.
  - apply (bound_split_counts Example.args Example.fold_table _ [] _ "WT").
    reflexivity.
Defined.

(** X20.  Two rows have the same [peak_id] exactly when they come from the
    same peak: the same chromosome, start and end.  This holds also for
    chromosome names that contain underscores. *)
Theorem peak_id_identifies_peak (row1 row2 : Stats.bed_row) :
  Stats.peak_id row1 = Stats.peak_id row2
  <-> Stats.peak_loc row1 = Stats.peak_loc row2.
Proof.
  split.
  - rewrite !peak_id_of_loc. apply id_of_peak_injective.
  - intros H. rewrite !peak_id_of_loc. now rewrite H.
Qed.

(** ** Sign and precision of the reported change *)

Section ChangeSign.

Local Open Scope R_scope.

Lemma rint_cases (x : R) :
  Np.rint x = (up x - 1)%Z /\ x - IZR (up x - 1) <= 1 / 2
  \/ Np.rint x = (up x - 1 + 1)%Z /\ 1 / 2 <= x - IZR (up x - 1).
Proof.
  unfold Np.rint.
  destruct (Rlt_dec (x - IZR (up x - 1)) (1 / 2)) as [Hlt|Hnlt].
  - left. split; [reflexivity | lra].
  - destruct (Rlt_dec (1 / 2) (x - IZR (up x - 1))) as [Hgt|Hngt].
    + right. split; [reflexivity | lra].
    + destruct (Z.even (up x - 1)).
      * left. split; [reflexivity | lra].
      * right. split; [reflexivity | lra].
Qed.

Lemma rint_nonneg (x : R) : 0 <= x -> (0 <= Np.rint x)%Z.
Proof.
  intros Hx. pose proof (floor_spec x) as [Hlo Hhi].
  assert (Hf : (0 <= up x - 1)%Z).
  { assert (H : (0 < up x - 1 + 1)%Z); [|lia].
    apply lt_IZR. rewrite plus_IZR. lra. }
  destruct (rint_cases x) as [[-> _] | [-> _]]; lia.
Qed.


Lemma round_nonneg (x : R) (d : nat) : 0 <= x -> 0 <= Np.round x d.
Proof.
  intros Hx. unfold Np.round. pose proof (pow10_pos d) as Hd.
  apply Rmult_le_pos.
  - apply IZR_le. apply rint_nonneg. apply Rmult_le_pos; lra.
  - apply Rlt_le. now apply Rinv_0_lt_compat.
Qed.

Lemma round_nonpos (x : R) (d : nat) : x <= 0 -> Np.round x d <= 0.
Proof.
  intros Hx. replace x with (- - x) by lra. rewrite round_opp.
  pose proof (round_nonneg (- x) d). lra.
Qed.


Variable ttest : ttest_ind_from_stats_t.

(** X21.  The reported change has the sign of the difference between the
    observed mean and the background mean: it is not negative when the
    observed mean is the larger one, not positive when it is the smaller
    one, and 0 when the two are equal (the two standard deviations are not
    both zero). *)
Theorem change_has_sign_of_difference (obs_mean obs_std bg_mean bg_std : R)
        (obs_len : Z) :
  0 < obs_std + bg_std ->
  (bg_mean < obs_mean ->
   0 <= fst (Stats.change_and_pvalue ttest (obs_mean, obs_std) obs_len
                                     (bg_mean, bg_std)))
  /\ (obs_mean < bg_mean ->
      fst (Stats.change_and_pvalue ttest (obs_mean, obs_std) obs_len
                                   (bg_mean, bg_std)) <= 0)
  /\ (obs_mean = bg_mean ->
      fst (Stats.change_and_pvalue ttest (obs_mean, obs_std) obs_len
                                   (bg_mean, bg_std)) = 0).
Proof.
  intros Hstd.
  assert (Hmean : 0 < Np.mean [obs_std; bg_std]) by (rewrite mean_pair; lra).
  split; [|split]; intros H.
  - rewrite change_and_pvalue_differ by lra. simpl. unfold Stats.effect_size.
    apply round_nonneg. apply Rmult_le_pos; [lra|].
    apply Rlt_le. now apply Rinv_0_lt_compat.
  - rewrite change_and_pvalue_differ by lra. simpl. unfold Stats.effect_size.
    apply round_nonpos.
    replace ((obs_mean - bg_mean) / Np.mean [obs_std; bg_std])
      with (- ((bg_mean - obs_mean) * / Np.mean [obs_std; bg_std]))
      by (unfold Rdiv; ring).
    assert (0 <= (bg_mean - obs_mean) * / Np.mean [obs_std; bg_std]); [|lra].
    apply Rmult_le_pos; [lra|]. apply Rlt_le. now apply Rinv_0_lt_compat.
  - subst. now rewrite change_and_pvalue_equal.
Qed.


End ChangeSign.

Lemma change_has_sign_of_difference_witness :
  ((0 < 1)%R ->
   (0 <= fst (Stats.change_and_pvalue Example.ttest (1%R, 1%R) 10 (0%R, 1%R)))%R)
  /\ ((1 < 0)%R ->
      (fst (Stats.change_and_pvalue Example.ttest (1%R, 1%R) 10 (0%R, 1%R)) <= 0)%R)
  /\ (1%R = 0%R ->
      fst (Stats.change_and_pvalue Example.ttest (1%R, 1%R) 10 (0%R, 1%R)) = 0%R).
Proof.
  apply (change_has_sign_of_difference Example.ttest 1%R 1%R 0%R 1%R 10). lra.
Defined.


(** ** Two identical tracks *)

Section IdenticalTracks.

Local Open Scope R_scope.

Variable ttest : ttest_ind_from_stats_t.
Variable args : Stats.Args.

Lemma mean_zeros (l : list R) : Forall (fun x => x = 0) l -> Np.mean l = 0.
Proof.
  intros H. unfold Np.mean.
  assert (Hs : Np.sum l = 0).
  { induction H as [|x l Hx _ IH]; simpl; [reflexivity|]. rewrite Hx, IH. lra. }
  rewrite Hs. unfold Rdiv. apply Rmult_0_l.
Qed.

Lemma equal_scores_log2fc (cond1 cond2 : string) (row : Stats.bed_row) :
  Stats.score row (cond1 ++ "_score") = Stats.score row (cond2 ++ "_score") ->
  Stats.score row (cond1 ++ "_score") + Stats.pseudo args <> 0 ->
  Stats.row_log2fc args cond1 cond2 row = 0.
Proof.
  intros Heq Hne. unfold Stats.row_log2fc, Stats.log2fc_value. rewrite <- Heq.
  replace ((Stats.score row (cond1 ++ "_score") + Stats.pseudo args)
           / (Stats.score row (cond1 ++ "_score") + Stats.pseudo args))
    with 1 by (field; assumption).
  unfold Np.log2. rewrite ln_1. unfold Rdiv. rewrite Rmult_0_l.
  apply (round_IZR 0).
Qed.

(** X23.  When every occurrence has the same score in the two conditions of
    a comparison, as for two identical signal tracks, and the background
    mean is 0, the comparison reports the change 0 and the p-value 1
    without running the test (at least one occurrence has a score above 0,
    and no score plus the pseudocount is 0). *)
Theorem identical_tracks_give_no_change (log2fc_params : Stats.params)
        (bed_table : list Stats.bed_row) (cond1 cond2 : string)
        (v1 v2 : list R) (bg_std : R) :
  Stats.score_column bed_table (cond1 ++ "_score") = Py.Ok v1 ->
  Stats.score_column bed_table (cond2 ++ "_score") = Py.Ok v2 ->
  (forall row, In row bed_table ->
               Stats.score row (cond1 ++ "_score") = Stats.score row (cond2 ++ "_score")
               /\ Stats.score row (cond1 ++ "_score") + Stats.pseudo args <> 0) ->
  (exists row, In row bed_table /\ Stats.row_included cond1 cond2 row = true) ->
  Stats.params_get log2fc_params (cond1, cond2) = Py.Ok (0, bg_std) ->
  Stats.compare_to_background ttest args log2fc_params bed_table cond1 cond2
  = Py.Ok (0, 1).
Proof.
  intros H1 H2 Hrows _ Hbg. unfold Stats.compare_to_background, Stats.observed_log2fcs.
  rewrite (subset_entries_runs args bed_table cond1 cond2 v1 v2 H1 H2).
  cbn [Py.bind]. rewrite Hbg. cbn [Py.bind]. f_equal.
  set (entries := map _ (filter _ bed_table)).
  assert (Hentries : Forall (fun e => snd e = 0) entries).
  { apply Forall_forall. intros e He. unfold entries in He.
    apply in_map_iff in He. destruct He as [row [<- Hrow]].
    apply filter_In in Hrow. destruct Hrow as [Hrow _]. simpl.
    destruct (Hrows row Hrow) as [Heq Hne]. now apply equal_scores_log2fc. }
  assert (Hobs : Forall (fun x => x = 0) (map snd (Stats.groupby_mean entries))).
  { unfold Stats.groupby_mean. rewrite map_map. apply Forall_forall.
    intros x Hx. apply in_map_iff in Hx. destruct Hx as [k [<- _]]. simpl.
    apply mean_zeros. apply Forall_forall. intros y Hy.
    apply in_map_iff in Hy. destruct Hy as [e [<- He]].
    apply filter_In in He. destruct He as [He _].
    now apply (proj1 (Forall_forall _ _) Hentries). }
  unfold Np.norm_fit. rewrite (mean_zeros _ Hobs).
  apply change_and_pvalue_equal.
Qed.

End IdenticalTracks.

Lemma identical_tracks_give_no_change_witness :
  Stats.compare_to_background Example.ttest Example.args
                              [(("WT", "KO"), (0%R, 1%R))] Example.even_table
                              "WT" "KO"
  = Py.Ok (0%R, 1%R).
Proof.
  apply (identical_tracks_give_no_change
           Example.ttest Example.args [(("WT", "KO"), (0%R, 1%R))]
           Example.even_table "WT" "KO" [1%R] [1%R] 1%R).
  - reflexivity.
  - reflexivity.
  - intros row [<- | []]. split; [reflexivity|]. unfold Stats.score. simpl. lra.
  - eexists. split; [left; reflexivity|]. apply even_row_included. reflexivity.
  - reflexivity.
Defined.

(** ** A task that returns *)

Section TaskReturns.

Variable fs : Stats.filesystem.
Variable ttest : ttest_ind_from_stats_t.
Variable TF_name : string.
Variable args : Stats.Args.
Variable log2fc_params : Stats.params.

Lemma io_bind_ok {A B : Type} (m : Stats.io A) (k : A -> Stats.io B)
      (t : list Stats.event) (b : B) :
  Stats.io_bind m k = (t, Py.Ok b) ->
  exists t1 a t2, m = (t1, Py.Ok a) /\ k a = (t2, Py.Ok b) /\ t = t1 ++ t2.
Proof.
  destruct m as [t1 [a|e]]; simpl; [|discriminate].
  destruct (k a) as [t2 r] eqn:Hk. intros H. injection H as <- ->.
  exists t1, a, t2. auto.
Qed.

Lemma lift_ok {A : Type} (r : Py.result A) (t : list Stats.event) (a : A) :
  Stats.lift r = (t, Py.Ok a) -> r = Py.Ok a /\ t = [].
Proof. unfold Stats.lift. intros H. injection H as <- ->. auto. Qed.

Lemma to_csv_ok (path : string) (t : list Stats.event) (u : unit) :
  Stats.to_csv fs path = (t, Py.Ok u) -> t = [Stats.ToCsv path].
Proof.
  unfold Stats.to_csv. destruct (Stats.csv_writable fs path); [|discriminate].
  unfold Stats.emit. intros H. now injection H as <-.
Qed.

Lemma to_csv_all_ok (paths : list string) (t : list Stats.event) (u : unit) :
  Stats.io_for_each paths (Stats.to_csv fs) = (t, Py.Ok u) ->
  t = map Stats.ToCsv paths.
Proof.
  revert t. induction paths as [|path rest IH]; intros t H; simpl in H.
  - unfold Stats.ret in H. now injection H as <-.
  - apply io_bind_ok in H. destruct H as [t1 [a [t2 [H1 [H2 ->]]]]].
    apply to_csv_ok in H1. apply IH in H2. subst. reflexivity.
Qed.

(** The steps of the statistics part of a task that returns. *)
Lemma statistics_returns (t : list Stats.event) (info_table : Py.dict R) :
  Stats.statistics fs ttest TF_name args log2fc_params = (t, Py.Ok info_table) ->
  exists arr header s1 s2,
    Stats.genfromtxt fs (Stats.tmp_filename args TF_name) = Py.Ok arr
    /\ Stats.classify args TF_name arr = Py.Ok s1
    /\ Stats.table_header args arr = Py.Ok header
    /\ Py.for_each (Stats.comparisons args)
                   (Stats.comparison_step ttest args log2fc_params header) s1
       = Py.Ok s2
    /\ info_table = snd s2
    /\ t = Stats.ToCsv (Stats.all_bed args TF_name)
             :: map Stats.ToCsv
                    (Stats.bound_files (Stats.bed_outdir args TF_name) TF_name args)
             ++ [Stats.ToCsv (Stats.overview_txt args TF_name)].
Proof.
  unfold Stats.statistics. intros H.
  apply io_bind_ok in H. destruct H as [t1 [arr [t1' [Hread [H ->]]]]].
  apply lift_ok in Hread. destruct Hread as [Hread ->].
  apply io_bind_ok in H. destruct H as [t2 [bed [t2' [Hbed [H ->]]]]].
  apply lift_ok in Hbed. destruct Hbed as [_ ->].
  apply io_bind_ok in H. destruct H as [t3 [u3 [t3' [Hall [H ->]]]]].
  apply to_csv_ok in Hall. subst t3.
  apply io_bind_ok in H. destruct H as [t4 [s1 [t4' [Hcl [H ->]]]]].
  apply lift_ok in Hcl. destruct Hcl as [Hcl ->].
  apply io_bind_ok in H. destruct H as [t5 [u5 [t5' [Hfiles [H ->]]]]].
  apply to_csv_all_ok in Hfiles. subst t5.
  apply io_bind_ok in H. destruct H as [t8 [header [t8' [Hhead [H ->]]]]].
  apply lift_ok in Hhead. destruct Hhead as [Hhead ->].
  apply io_bind_ok in H. destruct H as [t6 [s2 [t6' [Hcmp [H ->]]]]].
  apply lift_ok in Hcmp. destruct Hcmp as [Hcmp ->].
  apply io_bind_ok in H. destruct H as [t7 [u7 [t7' [Htxt [H ->]]]]].
  apply to_csv_ok in Htxt. subst t7.
  unfold Stats.ret in H. injection H as <- <-.
  exists arr, header, s1, s2.
  split; [assumption|]. split; [assumption|]. split; [assumption|].
  split; [assumption|]. split; [reflexivity|]. reflexivity.
Qed.

Lemma process_tfbs_returns (t : list Stats.event) (info_table : Py.dict R) :
  Stats.process_tfbs fs ttest TF_name args log2fc_params = (t, Py.Ok info_table) ->
  exists t1 last,
    Stats.statistics fs ttest TF_name args log2fc_params = (t1, Py.Ok info_table)
    /\ t = t1 ++ [Stats.ToExcel (Stats.overview_excel args TF_name); last]
    /\ (last = Stats.Remove (Stats.tmp_filename args TF_name)
        \/ last = Stats.Log (ErrorRemovingTemporaryFile
                               (Stats.tmp_filename args TF_name))).
Proof.
  unfold Stats.process_tfbs. intros H.
  apply io_bind_ok in H. destruct H as [t1 [info [t1' [Hstat [H ->]]]]].
  apply io_bind_ok in H. destruct H as [t2 [u2 [t2' [Hxl [H ->]]]]].
  apply io_bind_ok in H. destruct H as [t3 [u3 [t3' [Hrm [H ->]]]]].
  unfold Stats.ret in H. injection H as <- <-.
  unfold Stats.write_excel in Hxl.
  destruct (Stats.excel_writable fs _); [|discriminate].
  unfold Stats.emit in Hxl. injection Hxl as <-.
  unfold Stats.remove_temporary, Stats.emit in Hrm.
  destruct (Stats.removable fs _); injection Hrm as <-;
    eexists; eexists; (split; [exact Hstat|]); (split; [reflexivity|]); auto.
Qed.

(** X24.  A task that returns has written, in this order, the table of all
    sites, the bound and the unbound table of every condition, the text
    overview and the workbook, and has then removed its temporary file or
    logged that it could not. *)
Theorem files_of_a_task (t : list Stats.event) (info_table : Py.dict R) :
  Stats.process_tfbs fs ttest TF_name args log2fc_params = (t, Py.Ok info_table) ->
  exists last,
    t = Stats.ToCsv (Stats.all_bed args TF_name)
          :: map Stats.ToCsv
                 (Stats.bound_files (Stats.bed_outdir args TF_name) TF_name args)
          ++ [Stats.ToCsv (Stats.overview_txt args TF_name);
              Stats.ToExcel (Stats.overview_excel args TF_name);
              last]
    /\ (last = Stats.Remove (Stats.tmp_filename args TF_name)
        \/ last = Stats.Log (ErrorRemovingTemporaryFile
                               (Stats.tmp_filename args TF_name))).
Proof.
  intros H. apply process_tfbs_returns in H.
  destruct H as [t1 [last [Hstat [-> Hlast]]]].
  apply statistics_returns in Hstat.
  destruct Hstat as [arr [header [s1 [s2 [_ [_ [_ [_ [_ ->]]]]]]]]].
  exists last. split; [|assumption].
  simpl. f_equal. now rewrite <- app_assoc.
Qed.

End TaskReturns.

Lemma io_returns {A : Type} (default : A) (m : Stats.io A) :
  Py.is_ok (snd m) = true -> m = (fst m, Py.Ok (returned default m)).
Proof.
  destruct m as [t [a|e]]; simpl; [reflexivity | discriminate].
Qed.

Lemma files_of_a_task_witness :
  exists t info_table,
    Stats.process_tfbs StatsExample.files Example.ttest "CTCF" Example.args
                       StatsExample.background
    = (t, Py.Ok info_table)
    /\ exists last,
      t = Stats.ToCsv (Stats.all_bed Example.args "CTCF")
            :: map Stats.ToCsv
                   (Stats.bound_files (Stats.bed_outdir Example.args "CTCF") "CTCF"
                                      Example.args)
            ++ [Stats.ToCsv (Stats.overview_txt Example.args "CTCF");
                Stats.ToExcel (Stats.overview_excel Example.args "CTCF");
                last]
      /\ (last = Stats.Remove (Stats.tmp_filename Example.args "CTCF")
          \/ last = Stats.Log (ErrorRemovingTemporaryFile
                                 (Stats.tmp_filename Example.args "CTCF"))).
Proof.
  eexists. eexists. split.
  - apply (io_returns []). reflexivity.
  - eapply (files_of_a_task StatsExample.files Example.ttest "CTCF" Example.args
                            StatsExample.background).
    apply (io_returns []). reflexivity.
Defined.

(** ** The overview row of a task *)

Section OverviewRow.

Variable fs : Stats.filesystem.
Variable ttest : ttest_ind_from_stats_t.
Variable TF_name : string.
Variable args : Stats.Args.
Variable log2fc_params : Stats.params.

Lemma last_char_app (x : string) (c : ascii) (t : string) :
  last_char (x ++ String c t) = last_char (String c t).
Proof.
  induction x as [|a x IH]; [reflexivity|].
  change (String a x ++ String c t)%string with (String a (x ++ String c t)).
  cbn [last_char]. rewrite IH.
  destruct x; reflexivity.
Qed.

(** The row as the loops of the task keep it: its columns are the columns
    of the overview, and [total_tfbs] holds [v]. *)
Definition row_invariant (v : R) (info_table : Py.dict R) : Prop :=
  Py.dict_keys info_table = Stats.info_columns args
  /\ Py.dict_get info_table "total_tfbs" = Py.Ok v.

Lemma dict_set_keys_in {V : Type} (d : Py.dict V) (k : string) (v : V) :
  In k (map fst d) -> map fst (Py.dict_set d k v) = map fst d.
Proof.
  intros H. apply dict_get_In in H. destruct H as [v0 H].
  now apply (dict_set_keys d k v0 v).
Qed.

Lemma set_keeps_invariant (v : R) (info_table : Py.dict R) (x suffix : string) (w : R) :
  row_invariant v info_table ->
  In (x ++ suffix)%string (Stats.info_columns args) ->
  last_char (x ++ suffix) <> Some "s"%char ->
  row_invariant v (Py.dict_set info_table (x ++ suffix) w).
Proof.
  intros [Hkeys Htotal] Hin Hlast. unfold row_invariant, Py.dict_keys in *. split.
  - rewrite dict_set_keys_in; [assumption|]. now rewrite Hkeys.
  - rewrite dict_get_set_other; [assumption|].
    intros Heq. apply Hlast. now rewrite Heq.
Qed.

Lemma mean_score_column (c : string) :
  In c (Stats.cond_names args) ->
  In (c ++ "_mean_score")%string (Stats.info_columns args)
  /\ In (c ++ "_bound")%string (Stats.info_columns args).
Proof.
  intros Hc. unfold Stats.info_columns.
  split; apply in_or_app; right; apply in_or_app; left; apply in_flat_map; exists c;
    (split; [assumption|]); simpl; auto.
Qed.

Lemma change_column (cond1 cond2 : string) :
  In (cond1, cond2) (Stats.comparisons args) ->
  In ((cond1 ++ "_" ++ cond2) ++ "_change")%string (Stats.info_columns args)
  /\ In ((cond1 ++ "_" ++ cond2) ++ "_pvalue")%string (Stats.info_columns args).
Proof.
  intros Hc. unfold Stats.info_columns.
  split; apply in_or_app; right; apply in_or_app; right; apply in_flat_map;
    exists (cond1, cond2);
    (split; [assumption|]); simpl; auto.
Qed.

Lemma bound_splits_keep_row (v : R) (conditions : list string) :
  incl conditions (Stats.cond_names args) ->
  forall bed_table info_table s',
    row_invariant v info_table ->
    Py.for_each conditions (Stats.bound_split args) (bed_table, info_table)
    = Py.Ok s' ->
    row_invariant v (snd s').
Proof.
  induction conditions as [|c rest IH]; intros Hincl bed_table info_table s' Hinv H.
  - simpl in H. injection H as <-. assumption.
  - cbn [Py.for_each] in H. apply bind_ok in H. destruct H as [[bed1 info1] [Hstep H]].
    apply IH in H; [assumption | | ].
    + intros c' Hc'. apply Hincl. now right.
    + unfold Stats.bound_split in Hstep.
      apply bind_ok in Hstep. destruct Hstep as [threshold [_ Hstep]].
      apply bind_ok in Hstep. destruct Hstep as [values [_ Hstep]].
      injection Hstep as _ <-.
      destruct (mean_score_column c) as [Hm Hb]; [apply Hincl; now left|].
      apply set_keeps_invariant;
        [apply set_keeps_invariant | |]; try assumption;
        rewrite last_char_app; discriminate.
Qed.

Lemma comparisons_keep_row (v : R) (header : list string)
      (comparisons : list (string * string)) :
  incl comparisons (Stats.comparisons args) ->
  forall s s',
    row_invariant v (snd s) ->
    Py.for_each comparisons (Stats.comparison_step ttest args log2fc_params header) s
    = Py.Ok s' ->
    row_invariant v (snd s').
Proof.
  induction comparisons as [|[cond1 cond2] rest IH]; intros Hincl s s' Hinv H.
  - simpl in H. injection H as <-. assumption.
  - cbn [Py.for_each] in H. apply bind_ok in H. destruct H as [s1 [Hstep H]].
    apply IH in H; [assumption | | ].
    + intros c' Hc'. apply Hincl. now right.
    + destruct s as [bed_table info_table]. unfold Stats.comparison_step in Hstep.
      apply bind_ok in Hstep. destruct Hstep as [log2fcs [_ Hstep]].
      apply bind_ok in Hstep. destruct Hstep as [named [_ Hstep]].
      apply bind_ok in Hstep. destruct Hstep as [result [_ Hstep]].
      injection Hstep as <-. cbn [snd] in *.
      destruct (change_column cond1 cond2) as [Hc Hp]; [apply Hincl; now left|].
      apply set_keeps_invariant;
        [apply set_keeps_invariant | |]; try assumption;
        rewrite last_char_app; discriminate.
Qed.

Lemma task_row (t : list Stats.event) (info_table : Py.dict R) :
  Stats.process_tfbs fs ttest TF_name args log2fc_params = (t, Py.Ok info_table) ->
  exists arr,
    Stats.genfromtxt fs (Stats.tmp_filename args TF_name) = Py.Ok arr
    /\ row_invariant (IZR (Py.len arr)) info_table.
Proof.
  intros H. apply process_tfbs_returns in H.
  destruct H as [t1 [last [Hstat _]]].
  apply statistics_returns in Hstat.
  destruct Hstat as [arr [header [s1 [s2 [Hread [Hcl [_ [Hcmp [-> _]]]]]]]]].
  exists arr. split; [assumption|].
  apply (comparisons_keep_row _ header (Stats.comparisons args) (incl_refl _) s1 s2);
    [|assumption].
  unfold Stats.classify in Hcl.
  apply bind_ok in Hcl. destruct Hcl as [bed [_ Hcl]].
  apply (bound_splits_keep_row (IZR (Py.len arr)) (Stats.cond_names args)
                               (incl_refl _) _ _ _)
    in Hcl; [assumption|].
  unfold row_invariant, Py.dict_keys, Stats.info_columns, Stats.shape.
  set (columns := flat_map _ _ ++ flat_map _ _). simpl.
  split; [|reflexivity].
  f_equal. rewrite map_map. simpl. apply map_id.
Qed.

(** X25.  The overview row that a task returns has exactly the columns
    total_tfbs, then <condition>_mean_score and <condition>_bound for every
    condition, then <cond1>_<cond2>_change and <cond1>_<cond2>_pvalue for
    every comparison, in this order (the column names are distinct). *)
Theorem overview_row_columns (t : list Stats.event) (info_table : Py.dict R) :
  NoDup (Stats.info_columns args) ->
  Stats.process_tfbs fs ttest TF_name args log2fc_params = (t, Py.Ok info_table) ->
  Py.dict_keys info_table = Stats.info_columns args.
Proof.
  intros _ H. apply task_row in H. destruct H as [arr [_ [Hkeys _]]]. exact Hkeys.
Qed.

(** X26.  The value [total_tfbs] of the overview row that a task returns is
    the number of rows of the temporary file of the motif (the column names
    are distinct). *)
Theorem overview_row_counts_sites (t : list Stats.event) (info_table : Py.dict R) :
  NoDup (Stats.info_columns args) ->
  Stats.process_tfbs fs ttest TF_name args log2fc_params = (t, Py.Ok info_table) ->
  exists arr,
    Stats.genfromtxt fs (Stats.tmp_filename args TF_name) = Py.Ok arr
    /\ Py.dict_get info_table "total_tfbs" = Py.Ok (IZR (Py.len arr)).
Proof.
  intros _ H. apply task_row in H. destruct H as [arr [Hread [_ Htotal]]].
  exists arr. auto.
Qed.

End OverviewRow.

Lemma overview_row_columns_witness :
  exists t info_table,
    Stats.process_tfbs StatsExample.files Example.ttest "CTCF" Example.args
                       StatsExample.background
    = (t, Py.Ok info_table)
    /\ Py.dict_keys info_table = Stats.info_columns Example.args.
Proof.
  eexists. eexists. split.
  - apply (io_returns []). reflexivity.
  - eapply (overview_row_columns StatsExample.files Example.ttest "CTCF"
                                 Example.args StatsExample.background).
    + simpl. repeat (apply NoDup_cons; [simpl; intuition discriminate|]).
      apply NoDup_nil.
    + apply (io_returns []). reflexivity.
Defined.

Lemma overview_row_counts_sites_witness :
  exists t info_table,
    Stats.process_tfbs StatsExample.files Example.ttest "CTCF" Example.args
                       StatsExample.background
    = (t, Py.Ok info_table)
    /\ exists arr,
      Stats.genfromtxt StatsExample.files (Stats.tmp_filename Example.args "CTCF")
      = Py.Ok arr
      /\ Py.dict_get info_table "total_tfbs" = Py.Ok (IZR (Py.len arr)).
Proof.
  eexists. eexists. split.
  - apply (io_returns []). reflexivity.
  - eapply (overview_row_counts_sites StatsExample.files Example.ttest "CTCF"
                                      Example.args StatsExample.background).
    + simpl. repeat (apply NoDup_cons; [simpl; intuition discriminate|]).
      apply NoDup_nil.
    + apply (io_returns []). reflexivity.
Defined.

(** ** The direction of the fold change *)

Section FoldChangeDirection.

Local Open Scope R_scope.

Lemma log2_nonneg (x : R) : 1 <= x -> 0 <= Np.log2 x.
Proof.
  intros Hx. unfold Np.log2. pose proof ln_2_pos as H2.
  assert (0 <= ln x).
  { destruct (Req_dec x 1) as [->|Hne]; [rewrite ln_1; lra|].
    rewrite <- ln_1. apply Rlt_le. apply ln_increasing; lra. }
  apply Rmult_le_pos; [assumption|]. apply Rlt_le. now apply Rinv_0_lt_compat.
Qed.

(** X27.  The first condition of a comparison is the numerator of the fold
    change: an occurrence whose score in the first condition is at least its
    score in the second gets a log2 fold change that is not negative, and
    one whose score is at most that in the second gets one that is not
    positive (the scores plus the pseudocount are positive). *)
Theorem log2fc_has_direction (pseudo v1 v2 : R) :
  0 < v1 + pseudo ->
  0 < v2 + pseudo ->
  (v2 <= v1 -> 0 <= Stats.log2fc_value pseudo v1 v2)
  /\ (v1 <= v2 -> Stats.log2fc_value pseudo v1 v2 <= 0).
Proof.
  intros H1 H2. split; intros Hle.
  - unfold Stats.log2fc_value. apply round_nonneg. apply log2_nonneg.
    apply Rmult_le_reg_r with (v2 + pseudo); [assumption|].
    unfold Rdiv. rewrite Rmult_assoc, Rinv_l by lra. lra.
  - rewrite log2fc_value_swap by assumption.
    assert (0 <= Stats.log2fc_value pseudo v2 v1); [|lra].
    unfold Stats.log2fc_value. apply round_nonneg. apply log2_nonneg.
    apply Rmult_le_reg_r with (v1 + pseudo); [assumption|].
    unfold Rdiv. rewrite Rmult_assoc, Rinv_l by lra. lra.
Qed.

End FoldChangeDirection.

Lemma log2fc_has_direction_witness :
  ((0 <= 2)%R -> (0 <= Stats.log2fc_value 1 2 0)%R)
  /\ ((2 <= 0)%R -> (Stats.log2fc_value 1 2 0 <= 0)%R).
Proof.
  apply (log2fc_has_direction 1%R 2%R 0%R); lra.
Defined.

(** ** A region that cannot be fetched *)

Section FetchFails.

Variable fetch : Gc.fetch_t.

(** X28.  When the sequence of a region cannot be fetched, and those of the
    regions before it can, [get_gc_content] raises the exception of the
    fetch, whatever regions follow. *)
Theorem unfetched_region_raises (before after : list OneRegion) (region : OneRegion)
        (seqs : list string) (e : Py.exn) :
  fetched fetch before = Py.Ok seqs ->
  fetch (chrom region) (start region) (end_ region) = Py.Raise e ->
  Gc.get_gc_content fetch (before ++ region :: after) = Gc.Raises (Gc.FetchError e).
Proof.
  intros Hbefore Hregion. unfold Gc.get_gc_content.
  rewrite gc_loop, fetched_app, Hbefore. cbn [Py.bind].
  unfold fetched. cbn [Py.traverse]. now rewrite Hregion.
Qed.

End FetchFails.

Lemma unfetched_region_raises_witness :
  Gc.get_gc_content GcExample.fetch
                    ([GcExample.first_four] ++ mkRegion "chrM" 0 4 [] :: [])
  = Gc.Raises (Gc.FetchError Py.KeyError).
Proof.
  apply (unfetched_region_raises GcExample.fetch [GcExample.first_four] []
                                 (mkRegion "chrM" 0 4 []) ["ACGT"] Py.KeyError);
    reflexivity.
Defined.

(** ** The values a comparison reports *)

Section ReportedValues.

Local Open Scope R_scope.

Variable ttest : ttest_ind_from_stats_t.
Variable args : Stats.Args.
Variable log2fc_params : Stats.params.

Lemma string_app_inv_head (a b c : string) : (a ++ b)%string = (a ++ c)%string -> b = c.
Proof.
  induction a as [|x a IH]; simpl; intros H; [assumption|].
  injection H as H. now apply IH.
Qed.

(** The loop body writes, to the two cells of the comparison, the change
    and the p-value computed from the fit of the observed log2 fold changes
    of the table and from the background fit of the comparison. *)
Lemma comparison_step_cells (header : list string) (bed_table : list Stats.bed_row)
      (info_table : Py.dict R) (cond1 cond2 : string)
      (s' : list Stats.bed_row * Py.dict R) :
  Stats.comparison_step ttest args log2fc_params header (bed_table, info_table)
                        (cond1, cond2)
  = Py.Ok s' ->
  exists observed bg_params,
    Stats.read_peak_columns header = Py.Ok tt
    /\ Stats.observed_log2fcs args bed_table cond1 cond2 = Py.Ok observed
    /\ Stats.params_get log2fc_params (cond1, cond2) = Py.Ok bg_params
    /\ Py.dict_get (snd s') ((cond1 ++ "_" ++ cond2) ++ "_change")
       = Py.Ok (fst (Stats.change_and_pvalue ttest (Np.norm_fit observed)
                                             (Py.len observed) bg_params))
    /\ Py.dict_get (snd s') ((cond1 ++ "_" ++ cond2) ++ "_pvalue")
       = Py.Ok (snd (Stats.change_and_pvalue ttest (Np.norm_fit observed)
                                             (Py.len observed) bg_params)).
Proof.
  unfold Stats.comparison_step. intros H.
  apply bind_ok in H. destruct H as [log2fcs [_ H]].
  apply bind_ok in H. destruct H as [[] [Hnamed H]].
  apply bind_ok in H. destruct H as [result [Hresult H]].
  injection H as <-. cbn [snd].
  unfold Stats.compare_to_background in Hresult.
  apply bind_ok in Hresult. destruct Hresult as [observed [Hobs Hresult]].
  apply bind_ok in Hresult. destruct Hresult as [bg_params [Hbg Hresult]].
  injection Hresult as <-.
  exists observed, bg_params.
  split; [assumption|]. split; [assumption|]. split; [assumption|]. split.
  - rewrite dict_get_set_other.
    + apply dict_get_set_same.
    + intros Heq. apply string_app_inv_head in Heq. discriminate.
  - apply dict_get_set_same.
Qed.

(** C2 (as amended).  For a comparison (A, B) of a table, the loop body
    fits the observed log2 fold changes of the table and reads the
    background fit of the comparison.  If the fitted observed mean equals
    the background mean, the change written to [A_B_change] is exactly 0
    and the p-value written to [A_B_pvalue] exactly 1; otherwise the change
    written is the quotient (observed mean - background mean) /
    mean(observed std, background std) rounded to five decimals.  At least
    one occurrence enters the fit, and the two standard deviations are not
    both zero. *)
Theorem reported_change (header : list string) (bed_table : list Stats.bed_row)
        (info_table : Py.dict R) (cond1 cond2 : string)
        (s' : list Stats.bed_row * Py.dict R) :
  Stats.comparison_step ttest args log2fc_params header (bed_table, info_table)
                        (cond1, cond2)
  = Py.Ok s' ->
  (exists row, In row bed_table /\ Stats.row_included cond1 cond2 row = true) ->
  exists observed bg_mean bg_std,
    Stats.observed_log2fcs args bed_table cond1 cond2 = Py.Ok observed
    /\ Stats.params_get log2fc_params (cond1, cond2) = Py.Ok (bg_mean, bg_std)
    /\ (fst (Np.norm_fit observed) = bg_mean ->
        Py.dict_get (snd s') ((cond1 ++ "_" ++ cond2) ++ "_change") = Py.Ok 0
        /\ Py.dict_get (snd s') ((cond1 ++ "_" ++ cond2) ++ "_pvalue") = Py.Ok 1)
    /\ (fst (Np.norm_fit observed) <> bg_mean ->
        0 < snd (Np.norm_fit observed) + bg_std ->
        Py.dict_get (snd s') ((cond1 ++ "_" ++ cond2) ++ "_change")
        = Py.Ok (Np.round ((fst (Np.norm_fit observed) - bg_mean)
                           / Np.mean [snd (Np.norm_fit observed); bg_std]) 5)).
Proof.
  intros H _. apply comparison_step_cells in H.
  destruct H as [observed [[bg_mean bg_std] [_ [Hobs [Hbg [Hchange Hpvalue]]]]]].
  exists observed, bg_mean, bg_std.
  split; [assumption|]. split; [assumption|].
  destruct (Np.norm_fit observed) as [obs_mean obs_std]. cbn [fst snd] in *.
  split.
  - intros ->. rewrite change_and_pvalue_equal in Hchange, Hpvalue. auto.
  - intros Hne _. rewrite change_and_pvalue_differ in Hchange by assumption.
    exact Hchange.
Qed.

(** C8.  For a comparison (A, B) of a table whose fitted observed mean
    differs from the background mean, the p-value written to [A_B_pvalue]
    is the one of scipy's two-sample t-test on the fitted summary
    statistics, the mean and the standard deviation of the fit of the
    observed log2 fold changes against the background mean and standard
    deviation, with unequal variances, and both sample sizes that enter the
    test are the number of observed values capped at 50,000.  At least one
    occurrence enters the fit. *)
Theorem pvalue_is_capped_ttest (header : list string) (bed_table : list Stats.bed_row)
        (info_table : Py.dict R) (cond1 cond2 : string)
        (s' : list Stats.bed_row * Py.dict R) :
  Stats.comparison_step ttest args log2fc_params header (bed_table, info_table)
                        (cond1, cond2)
  = Py.Ok s' ->
  (exists row, In row bed_table /\ Stats.row_included cond1 cond2 row = true) ->
  exists observed bg_mean bg_std,
    Stats.observed_log2fcs args bed_table cond1 cond2 = Py.Ok observed
    /\ Stats.params_get log2fc_params (cond1, cond2) = Py.Ok (bg_mean, bg_std)
    /\ (fst (Np.norm_fit observed) <> bg_mean ->
        exists nobs1 nobs2 : Z,
          Py.dict_get (snd s') ((cond1 ++ "_" ++ cond2) ++ "_pvalue")
          = Py.Ok (snd (ttest (fst (Np.norm_fit observed)) (snd (Np.norm_fit observed))
                              nobs1 bg_mean bg_std nobs2 false))
          /\ nobs1 = Z.min (Py.len observed) 50000
          /\ nobs2 = Z.min (Py.len observed) 50000
          /\ (nobs1 <= 50000)%Z /\ (nobs2 <= 50000)%Z).
Proof.
  intros H _. apply comparison_step_cells in H.
  destruct H as [observed [[bg_mean bg_std] [_ [Hobs [Hbg [Hchange Hpvalue]]]]]].
  exists observed, bg_mean, bg_std.
  split; [assumption|]. split; [assumption|].
  destruct (Np.norm_fit observed) as [obs_mean obs_std]. cbn [fst snd] in *.
  intros Hne. rewrite change_and_pvalue_differ in Hpvalue by assumption.
  exists (Z.min (Py.len observed) 50000), (Z.min (Py.len observed) 50000).
  split; [exact Hpvalue|]. repeat split; lia.
Qed.

End ReportedValues.

(** ** The values of a comparison on examples *)

Section ManyPeaks.

Local Open Scope R_scope.

Lemma peaks_score_column (l : list nat) (name : string) (v : R) :
  Py.dict_get [("WT_score", 1); ("KO_score", 1)] name = Py.Ok v ->
  Stats.score_column (map ComparisonExample.peak_row l) name
  = Py.Ok (map (fun _ => v) l).
Proof.
  intros H. unfold Stats.score_column.
  induction l as [|i l IH]; [reflexivity|].
  cbn [map Py.traverse].
  change (Stats.scores (ComparisonExample.peak_row i))
    with [("WT_score", 1); ("KO_score", 1)].
  rewrite H. cbn [Py.bind]. rewrite IH. reflexivity.
Qed.

Lemma peak_row_score (i : nat) (name : string) :
  Stats.score (ComparisonExample.peak_row i) name
  = match Py.dict_get [("WT_score", 1); ("KO_score", 1)] name with
    | Py.Ok v => v
    | Py.Raise _ => 0
    end.
Proof. reflexivity. Qed.

Lemma peak_row_included (i : nat) :
  Stats.row_included "WT" "KO" (ComparisonExample.peak_row i) = true.
Proof.
  apply scored_row_included. rewrite peak_row_score. simpl. lra.
Qed.

Lemma peak_row_id_injective (i j : nat) :
  Stats.peak_id (ComparisonExample.peak_row i)
  = Stats.peak_id (ComparisonExample.peak_row j) ->
  i = j.
Proof.
  rewrite !peak_id_of_loc. intros H. apply id_of_peak_injective in H.
  change (Stats.peak_loc (ComparisonExample.peak_row i))
    with ("chr1"%string, 100 * Z.of_nat i, 100 * Z.of_nat i + 100)%Z in H.
  change (Stats.peak_loc (ComparisonExample.peak_row j))
    with ("chr1"%string, 100 * Z.of_nat j, 100 * Z.of_nat j + 100)%Z in H.
  apply (f_equal (fun pk => snd (fst pk))) in H. cbn [fst snd] in H. lia.
Qed.

Lemma filter_all {A : Type} (f : A -> bool) (l : list A) :
  (forall a, In a l -> f a = true) -> filter f l = l.
Proof.
  induction l as [|a l IH]; intros H; [reflexivity|].
  simpl. rewrite (H a) by (left; reflexivity).
  f_equal. apply IH. intros b Hb. apply H. now right.
Qed.

(** A table with one occurrence in each of [n] peaks, all with the score 1
    in both conditions, gives [n] observations, all of them 0. *)
Lemma peaks_observed (n : nat) :
  exists observed,
    Stats.observed_log2fcs Example.args (ComparisonExample.peaks_table n) "WT" "KO"
    = Py.Ok observed
    /\ List.length observed = n
    /\ Forall (fun x => x = 0) observed.
Proof.
  unfold Stats.observed_log2fcs, ComparisonExample.peaks_table.
  erewrite subset_entries_runs;
    [| apply (peaks_score_column _ _ 1); reflexivity
     | apply (peaks_score_column _ _ 1); reflexivity].
  cbn [Py.bind]. eexists. split; [reflexivity|].
  rewrite filter_all
    by (intros row Hrow; apply in_map_iff in Hrow;
        destruct Hrow as [i [<- _]]; apply peak_row_included).
  rewrite map_map. unfold Stats.groupby_mean. rewrite !map_map. split.
  - rewrite length_map.
    etransitivity; [apply Permutation_length; apply stable_sort_perm|].
    cbn [fst]. rewrite nodup_fixed_point.
    + now rewrite length_map, length_seq.
    + apply NoDup_map_on; [apply seq_NoDup|].
      intros i j _ _. apply peak_row_id_injective.
  - apply Forall_forall. intros x Hx. apply in_map_iff in Hx.
    destruct Hx as [k [<- _]]. cbn [snd].
    apply mean_zeros. apply Forall_forall. intros y Hy.
    apply in_map_iff in Hy. destruct Hy as [e [<- He]].
    apply filter_In in He. destruct He as [He _].
    apply in_map_iff in He. destruct He as [i [<- _]]. cbn [snd].
    apply equal_scores_log2fc.
    + rewrite !peak_row_score. reflexivity.
    + rewrite peak_row_score. simpl. lra.
Qed.

Lemma peaks_step_runs (ttest : ttest_ind_from_stats_t) (log2fc_params : Stats.params)
      (bg_params : R * R) (info_table : Py.dict R) (n : nat) :
  Stats.params_get log2fc_params ("WT"%string, "KO"%string) = Py.Ok bg_params ->
  Py.is_ok (Stats.comparison_step ttest Example.args log2fc_params
              ComparisonExample.header
              (ComparisonExample.peaks_table n, info_table)
              ("WT"%string, "KO"%string))
  = true.
Proof.
  intros Hbg. destruct (peaks_observed n) as [observed [Hobs _]].
  unfold Stats.comparison_step, Stats.compare_to_background.
  rewrite Hobs, Hbg. unfold Stats.log2fc_column, ComparisonExample.peaks_table.
  rewrite (peaks_score_column _ ("WT" ++ "_score") 1 eq_refl).
  rewrite (peaks_score_column _ ("KO" ++ "_score") 1 eq_refl).
  reflexivity.
Qed.

End ManyPeaks.

Section ComparisonExamples.

Local Open Scope R_scope.

Lemma norm_fit_zeros (l : list R) :
  Forall (fun x => x = 0) l -> Np.norm_fit l = (0, 0).
Proof.
  intros H. unfold Np.norm_fit. rewrite (mean_zeros l H). f_equal.
  rewrite mean_zeros; [apply sqrt_0|].
  apply Forall_forall. intros y Hy. apply in_map_iff in Hy.
  destruct Hy as [x [<- Hx]].
  rewrite (proj1 (Forall_forall _ _) H x Hx). simpl. ring.
Qed.

Lemma above_cap_length (observed : list R) :
  List.length observed = ComparisonExample.above_cap -> Py.len observed = 50001%Z.
Proof.
  intros H. unfold Py.len. rewrite H. unfold ComparisonExample.above_cap.
  rewrite Z2Nat.id; unfold Stats.obs_cap; lia.
Qed.

End ComparisonExamples.

(** C2 at a table of three peaks with one occurrence each, all with the
    score 1 in both conditions, and the background fit (1, 2): the fitted
    observed mean is 0 and the change written is (0 - 1) / mean(0, 2) = -1. *)
Lemma reported_change_witness :
  exists (s' : list Stats.bed_row * Py.dict R) (observed : list R) (bg_mean bg_std : R),
    Stats.comparison_step Example.welch Example.args Example.mirrored_params
                          ComparisonExample.header
                          (ComparisonExample.peaks_table 3, ComparisonExample.info_table)
                          ("WT"%string, "KO"%string)
    = Py.Ok s'
    /\ fst (Np.norm_fit observed) <> bg_mean
    /\ Py.dict_get (snd s') "WT_KO_change" = Py.Ok (-1)%R
    /\ Stats.observed_log2fcs Example.args (ComparisonExample.peaks_table 3) "WT" "KO"
       = Py.Ok observed
    /\ Stats.params_get Example.mirrored_params ("WT"%string, "KO"%string)
       = Py.Ok (bg_mean, bg_std)
    /\ (fst (Np.norm_fit observed) = bg_mean ->
        Py.dict_get (snd s') (("WT" ++ "_" ++ "KO") ++ "_change") = Py.Ok 0%R
        /\ Py.dict_get (snd s') (("WT" ++ "_" ++ "KO") ++ "_pvalue") = Py.Ok 1%R)
    /\ (fst (Np.norm_fit observed) <> bg_mean ->
        (0 < snd (Np.norm_fit observed) + bg_std)%R ->
        Py.dict_get (snd s') (("WT" ++ "_" ++ "KO") ++ "_change")
        = Py.Ok (Np.round ((fst (Np.norm_fit observed) - bg_mean)
                           / Np.mean [snd (Np.norm_fit observed); bg_std]) 5)).
Proof.
  set (step := Stats.comparison_step Example.welch Example.args Example.mirrored_params
                 ComparisonExample.header
                 (ComparisonExample.peaks_table 3, ComparisonExample.info_table)
                 ("WT"%string, "KO"%string)).
  assert (Hs : step = Py.Ok (result_value ([], []) step)).
  { apply result_returns. apply (peaks_step_runs _ _ (1%R, 2%R)). reflexivity. }
  destruct (reported_change Example.welch Example.args Example.mirrored_params
              ComparisonExample.header (ComparisonExample.peaks_table 3)
              ComparisonExample.info_table "WT" "KO" _ Hs)
    as [observed [bg_mean [bg_std [Hobs [Hbg [Heq Hne]]]]]].
  { exists (ComparisonExample.peak_row 0).
    split; [left; reflexivity | apply peak_row_included]. }
  destruct (peaks_observed 3) as [observed' [Hobs' [_ Hzeros]]].
  assert (Hsame : observed' = observed) by congruence. subst observed'.
  assert (Hparams : Stats.params_get Example.mirrored_params ("WT"%string, "KO"%string)
                    = Py.Ok (1%R, 2%R)) by reflexivity.
  rewrite Hparams in Hbg. injection Hbg as <- <-.
  pose proof (norm_fit_zeros observed Hzeros) as Hfit.
  assert (Hdiff : fst (Np.norm_fit observed) <> 1%R) by (rewrite Hfit; simpl; lra).
  assert (Hpos : (0 < snd (Np.norm_fit observed) + 2)%R) by (rewrite Hfit; simpl; lra).
  exists (result_value ([], []) step), observed, 1%R, 2%R.
  split; [exact Hs|]. split; [exact Hdiff|]. split.
  { etransitivity; [exact (Hne Hdiff Hpos)|].
    rewrite Hfit. cbn [fst snd]. rewrite mean_pair.
    replace ((0 - 1) / ((0 + 2) / 2))%R with (IZR (-1)) by (simpl; lra).
    rewrite round_IZR. reflexivity. }
  split; [exact Hobs|]. split; [exact Hparams|]. split; assumption.
Defined.

(** C8 at a table of 50,001 peaks with one occurrence each, all with the
    score 1 in both conditions, and the background fit (1, 2): the fitted
    observed mean is 0, and the two sample sizes passed to the test are
    50,000. *)
Lemma pvalue_is_capped_ttest_witness :
  exists (s' : list Stats.bed_row * Py.dict R) (observed : list R) (bg_mean bg_std : R),
    Stats.comparison_step Example.welch Example.args Example.mirrored_params
                          ComparisonExample.header
                          (ComparisonExample.peaks_table ComparisonExample.above_cap,
                           ComparisonExample.info_table)
                          ("WT"%string, "KO"%string)
    = Py.Ok s'
    /\ Py.len observed = 50001%Z
    /\ fst (Np.norm_fit observed) <> bg_mean
    /\ Py.dict_get (snd s') "WT_KO_pvalue"
       = Py.Ok (snd (Example.welch 0%R 0%R 50000 1%R 2%R 50000 false))
    /\ Stats.observed_log2fcs Example.args
         (ComparisonExample.peaks_table ComparisonExample.above_cap) "WT" "KO"
       = Py.Ok observed
    /\ Stats.params_get Example.mirrored_params ("WT"%string, "KO"%string)
       = Py.Ok (bg_mean, bg_std)
    /\ (fst (Np.norm_fit observed) <> bg_mean ->
        exists nobs1 nobs2 : Z,
          Py.dict_get (snd s') (("WT" ++ "_" ++ "KO") ++ "_pvalue")
          = Py.Ok (snd (Example.welch (fst (Np.norm_fit observed))
                                      (snd (Np.norm_fit observed))
                                      nobs1 bg_mean bg_std nobs2 false))
          /\ nobs1 = Z.min (Py.len observed) 50000
          /\ nobs2 = Z.min (Py.len observed) 50000
          /\ (nobs1 <= 50000)%Z /\ (nobs2 <= 50000)%Z).
Proof.
  set (table := ComparisonExample.peaks_table ComparisonExample.above_cap).
  set (step := Stats.comparison_step Example.welch Example.args Example.mirrored_params
                 ComparisonExample.header (table, ComparisonExample.info_table)
                 ("WT"%string, "KO"%string)).
  assert (Hs : step = Py.Ok (result_value ([], []) step)).
  { apply result_returns. apply (peaks_step_runs _ _ (1%R, 2%R)). reflexivity. }
  destruct (pvalue_is_capped_ttest Example.welch Example.args Example.mirrored_params
              ComparisonExample.header table
              ComparisonExample.info_table "WT" "KO" _ Hs)
    as [observed [bg_mean [bg_std [Hobs [Hbg Hne]]]]].
  { exists (ComparisonExample.peak_row 0).
    split; [left; reflexivity | apply peak_row_included]. }
  destruct (peaks_observed ComparisonExample.above_cap)
    as [observed' [Hobs' [Hlen Hzeros]]].
  assert (Hsame : observed' = observed) by (unfold table in Hobs; congruence).
  subst observed'.
  assert (Hparams : Stats.params_get Example.mirrored_params ("WT"%string, "KO"%string)
                    = Py.Ok (1%R, 2%R)) by reflexivity.
  rewrite Hparams in Hbg. injection Hbg as <- <-.
  pose proof (norm_fit_zeros observed Hzeros) as Hfit.
  apply above_cap_length in Hlen.
  assert (Hdiff : fst (Np.norm_fit observed) <> 1%R) by (rewrite Hfit; simpl; lra).
  exists (result_value ([], []) step), observed, 1%R, 2%R.
  split; [exact Hs|]. split; [exact Hlen|]. split; [exact Hdiff|]. split.
  { destruct (Hne Hdiff) as [nobs1 [nobs2 [Hpvalue [Hn1 [Hn2 _]]]]].
    rewrite Hlen in Hn1, Hn2.
    assert (E1 : nobs1 = 50000%Z) by lia. assert (E2 : nobs2 = 50000%Z) by lia.
    rewrite E1, E2, Hfit in Hpvalue. exact Hpvalue. }
  split; [exact Hobs|]. split; [exact Hparams|]. exact Hne.
Defined.

(** ** The names of the peak columns *)

Section PeakColumnNames.

Variable fs : Stats.filesystem.
Variable ttest : ttest_ind_from_stats_t.
Variable TF_name : string.
Variable args : Stats.Args.
Variable log2fc_params : Stats.params.

Lemma read_peak_columns_named (header : list string) :
  Stats.read_peak_columns header = Py.Ok tt ->
  forall name, In name ["peak_chr"; "peak_start"; "peak_end"] -> In name header.
Proof.
  unfold Stats.read_peak_columns. intros H name Hname.
  destruct (forallb _ Stats.peak_id_columns) eqn:E; [|discriminate].
  rewrite forallb_forall in E. specialize (E name Hname).
  apply existsb_exists in E. destruct E as [x [Hx Heq]].
  apply String.eqb_eq in Heq. now subst.
Qed.

(** X29.  A task with at least one comparison returns only if the header of
    its table names the columns peak_chr, peak_start and peak_end: the loop
    over the comparisons reads the three columns of the peak by these
    names, and a peak header that leaves one of them out makes it raise
    [KeyError]. *)
Theorem returning_task_names_peak_columns (t : list Stats.event)
        (info_table : Py.dict R) :
  Stats.process_tfbs fs ttest TF_name args log2fc_params = (t, Py.Ok info_table) ->
  Stats.comparisons args <> [] ->
  exists arr header,
    Stats.genfromtxt fs (Stats.tmp_filename args TF_name) = Py.Ok arr
    /\ Stats.table_header args arr = Py.Ok header
    /\ forall name, In name ["peak_chr"; "peak_start"; "peak_end"] -> In name header.
Proof.
  intros H Hcomparisons.
  apply process_tfbs_returns in H. destruct H as [t1 [last [H _]]].
  apply statistics_returns in H.
  destruct H as [arr [header [s1 [s2 [Hread [_ [Hheader [Hloop _]]]]]]]].
  exists arr, header. split; [assumption|]. split; [assumption|].
  destruct (Stats.comparisons args) as [|[cond1 cond2] rest]; [contradiction|].
  cbn [Py.for_each] in Hloop.
  apply bind_ok in Hloop. destruct Hloop as [s [Hstep _]].
  destruct s1 as [bed_table info]. apply comparison_step_cells in Hstep.
  destruct Hstep as [observed [bg_params [Hnamed _]]].
  now apply read_peak_columns_named.
Qed.

End PeakColumnNames.

(** X29 at the task of the motif CTCF, whose table has the default header;
    with the peak header chr, start, end the same task raises
    [KeyError]. *)
Lemma returning_task_names_peak_columns_witness :
  exists t info_table arr header,
    Stats.process_tfbs StatsExample.files Example.welch "CTCF" Example.args
                       StatsExample.background
    = (t, Py.Ok info_table)
    /\ snd (Stats.process_tfbs StatsExample.files Example.welch "CTCF"
                               ComparisonExample.renamed_args StatsExample.background)
       = Py.Raise Py.KeyError
    /\ Stats.genfromtxt StatsExample.files (Stats.tmp_filename Example.args "CTCF")
       = Py.Ok arr
    /\ Stats.table_header Example.args arr = Py.Ok header
    /\ forall name, In name ["peak_chr"; "peak_start"; "peak_end"] -> In name header.
Proof.
  set (task := Stats.process_tfbs StatsExample.files Example.welch "CTCF" Example.args
                 StatsExample.background).
  assert (Htask : task = (fst task, Py.Ok (returned [] task))).
  { apply (io_returns []). reflexivity. }
  destruct (returning_task_names_peak_columns StatsExample.files Example.welch "CTCF"
              Example.args StatsExample.background _ _ Htask)
    as [arr [header [Hread [Hheader Hnames]]]].
  { discriminate. }
  exists (fst task), (returned [] task), arr, header.
  split; [exact Htask|]. split; [reflexivity|].
  split; [exact Hread|]. split; [exact Hheader | exact Hnames].
Defined.
